(** * A.G.N.I. news verification service: a model of [main.py]

    The service accepts a text, asks a generative model for the claims it
    makes, searches the web for each claim, and asks the model for a
    verdict.  This file embeds the request validator, the claim extractor,
    the web retriever, the aggregation and synthesis steps and the
    orchestrating endpoint, and proves the properties the specification
    states about them.

    Python values are modelled as follows.
    - [str] is [string]; a character is an [ascii], so the model covers the
      Latin-1 fragment of Python strings.
    - values decoded from JSON are the inductive [json]; a Python [float] is
      an IEEE-754 binary64 datum ([spec_float]), a Python [int] is a [Z].
    - [dict] is an association list searched from the left.
    - exceptions are values of [exn]; a computation is a state transformer
      that returns a value or raises ([M]).
    - the generative model, the HTTP client, the clock and [json.loads] are
      fields of the class [Env]; nothing is assumed about what they answer. *)

From Stdlib Require Import List String Ascii ZArith Lia Bool Arith DecimalString.
From Stdlib Require Import Floats.SpecFloat.
Import ListNotations.

Local Open Scope string_scope.
Local Open Scope list_scope.

(* ================================================================== *)
(** ** Python strings *)

Module PyStr.

(** [str.isspace] on one character of the Latin-1 range: TAB, LF, VT, FF,
    CR, the four separators FS GS RS US, SPACE, NEL and NBSP. *)
Definition isspace (c : ascii) : bool :=
  let n := nat_of_ascii c in
  (Nat.leb 9 n && Nat.leb n 13) || (Nat.leb 28 n && Nat.leb n 32)
  || Nat.eqb n 133 || Nat.eqb n 160.

(** [s.lstrip()] *)
Fixpoint lstrip (s : string) : string :=
  match s with
  | EmptyString => EmptyString
  | String c s' => if isspace c then lstrip s' else s
  end.

(** [s.rstrip()] *)
Fixpoint rstrip (s : string) : string :=
  match s with
  | EmptyString => EmptyString
  | String c s' =>
      match rstrip s' with
      | EmptyString => if isspace c then EmptyString else String c EmptyString
      | r => String c r
      end
  end.

(** [s.strip()] *)
Definition strip (s : string) : string := rstrip (lstrip s).

(** [len(s)] *)
Definition len (s : string) : Z := Z.of_nat (String.length s).

(** [s.startswith(p)] *)
Definition startswith (p s : string) : bool := String.prefix p s.

(** [s[:n]] for a non-negative literal [n] *)
Fixpoint take (n : nat) (s : string) : string :=
  match n, s with
  | S n', String c s' => String c (take n' s')
  | _, _ => EmptyString
  end.

(** [s[n:]] for a non-negative literal [n] *)
Fixpoint drop (n : nat) (s : string) : string :=
  match n, s with
  | S n', String _ s' => drop n' s'
  | _, _ => s
  end.

(** Truth value of a string: [bool(s)] *)
Definition truthy (s : string) : bool :=
  match s with EmptyString => false | _ => true end.

Definition backticks : string := "```".
Definition newline : string := String (ascii_of_nat 10) EmptyString.
Definition dquote : string := String (ascii_of_nat 34) EmptyString.

(** Length of the match of [```(?:json)?\n?|```] at the head of [s], or
    [0] when the pattern does not match there.  The first alternative
    matches wherever the second does, and both optional groups are greedy
    with nothing after them, so no backtracking takes place. *)
Definition fence_match (s : string) : nat :=
  if startswith backticks s then
    let r1 := drop 3 s in
    let k1 := if startswith "json" r1 then 4 else 0 in
    let r2 := drop k1 r1 in
    let k2 := if startswith newline r2 then 1 else 0 in
    3 + k1 + k2
  else 0.

(** [re.sub(r'```(?:json)?\n?|```', '', s)]: scan from the left, delete
    every match.  [skip] counts the characters of the current match that
    are still to be deleted. *)
Fixpoint sub_fences_from (skip : nat) (s : string) : string :=
  match s with
  | EmptyString => EmptyString
  | String c s' =>
      match skip with
      | S k => sub_fences_from k s'
      | O =>
          match fence_match s with
          | O => String c (sub_fences_from 0 s')
          | S k => sub_fences_from k s'
          end
      end
  end.

Definition sub_fences (s : string) : string := sub_fences_from 0 s.

(** The cleaning both model calls apply to the answer text:
    [t = text.strip(); if t.startswith('```'): t = re.sub(...).strip()] *)
Definition clean_response (text : string) : string :=
  let t := strip text in
  if startswith backticks t then strip (sub_fences t) else t.

(** A run of [n] spaces. *)
Fixpoint spaces (n : nat) : string :=
  match n with
  | O => EmptyString
  | S n' => String " "%char (spaces n')
  end.

End PyStr.

(* ================================================================== *)
(** ** Exceptions and outcomes *)

(** The exception classes the code can meet.  All of them derive from
    [Exception]; [JSONDecodeError] is the only one a handler names. *)
Inductive exn : Type :=
| ValueError (msg : string)
| JSONDecodeError
| AttributeError
| TypeError
| KeyError (key : string)
| OverflowError
| ValidationError
| OtherError (msg : string).

Inductive outcome (A : Type) : Type :=
| Ret (a : A)
| Raise (e : exn).
Arguments Ret {A} a.
Arguments Raise {A} e.

(* ================================================================== *)
(** ** Request validation: [NewsVerificationRequest.validate_text] *)

Definition validate_text (v : string) : outcome string :=
  if negb (PyStr.truthy v) || negb (PyStr.truthy (PyStr.strip v)) then
    Raise (ValueError "Text field cannot be empty")
  else if (PyStr.len (PyStr.strip v) <? 10)%Z then
    Raise (ValueError "Text must be at least 10 characters long")
  else if (PyStr.len v >? 5000)%Z then
    Raise (ValueError "Text cannot exceed 5000 characters")
  else Ret (PyStr.strip v).

(* ================================================================== *)
(** ** Python floats *)

Module PyFloat.

(** binary64 *)
Definition prec : Z := 53.
Definition emax : Z := 1024.

Definition zero : spec_float := S754_zero false.
(** [0.3], [0.5] and [1.0] as normalised binary64 data *)
Definition three_tenths : spec_float := S754_finite false 5404319552844595 (-54).
Definition half : spec_float := S754_finite false 4503599627370496 (-53).
Definition one : spec_float := S754_finite false 4503599627370496 (-52).

(** [min(a, b)] on two arguments: the builtin keeps its first argument
    unless a later one compares strictly below it. *)
Definition py_min (a b : spec_float) : spec_float :=
  if SFltb b a then b else a.

(** [max(a, b)]: the first argument is kept unless a later one compares
    strictly above it. *)
Definition py_max (a b : spec_float) : spec_float :=
  if SFltb a b then b else a.

(** [max(0.0, min(1.0, x))] *)
Definition clamp01 (x : spec_float) : spec_float :=
  py_max zero (py_min one x).

(** [float(n)] for an [int]: correctly rounded, [OverflowError] when the
    rounded value does not fit. *)
Definition of_int (n : Z) : outcome spec_float :=
  match binary_normalize prec emax n 0 false with
  | S754_infinity _ => Raise OverflowError
  | f => Ret f
  end.

(** [0.0 <= x <= 1.0] *)
Definition in_unit (x : spec_float) : Prop :=
  SFleb zero x = true /\ SFleb x one = true.

End PyFloat.

(* ================================================================== *)
(** ** Values decoded from JSON *)

(** What [json.loads] and [response.json()] can return.  [JFloat] also
    carries the non-finite values the decoder accepts ([NaN], [Infinity]). *)
#[local] Set Warnings "-register-all".
Inductive json : Type :=
| JNull
| JBool (b : bool)
| JInt (n : Z)
| JFloat (f : spec_float)
| JStr (s : string)
| JList (l : list json)
| JDict (d : list (string * json)).

Definition pydict : Type := list (string * json).

Module PyDict.

(** [d.get(k)] as an option *)
Fixpoint lookup (k : string) (d : pydict) : option json :=
  match d with
  | [] => None
  | (k', v) :: d' => if String.eqb k k' then Some v else lookup k d'
  end.

(** [d.get(k, default)] *)
Definition get (d : pydict) (k : string) (default : json) : json :=
  match lookup k d with Some v => v | None => default end.

(** [d[k]] *)
Definition getitem (d : pydict) (k : string) : outcome json :=
  match lookup k d with Some v => Ret v | None => Raise (KeyError k) end.

(** [d[k] = v]: the binding of an existing key is replaced in place, a
    new key goes to the end. *)
Fixpoint set (k : string) (v : json) (d : pydict) : pydict :=
  match d with
  | [] => [(k, v)]
  | (k', v') :: d' =>
      if String.eqb k k' then (k, v) :: d' else (k', v') :: set k v d'
  end.

End PyDict.

(** [bool(v)] *)
Definition truthy (v : json) : bool :=
  match v with
  | JNull => false
  | JBool b => b
  | JInt n => negb (n =? 0)%Z
  | JFloat f => negb (SFeqb f PyFloat.zero)
  | JStr s => PyStr.truthy s
  | JList l => match l with [] => false | _ => true end
  | JDict d => match d with [] => false | _ => true end
  end.

(** Truth value of a configuration variable read with [os.getenv]. *)
Definition configured (key : option string) : bool :=
  match key with Some s => PyStr.truthy s | None => false end.

(** [isinstance(v, (int, float))]; [bool] is a subclass of [int]. *)
Definition is_int_or_float (v : json) : bool :=
  match v with
  | JBool _ | JInt _ | JFloat _ => true
  | _ => false
  end.

(** [float(v)] for a value that passed [is_int_or_float] *)
Definition py_float (v : json) : outcome spec_float :=
  match v with
  | JBool b => Ret (if b then PyFloat.one else PyFloat.zero)
  | JInt n => PyFloat.of_int n
  | JFloat f => Ret f
  | _ => Raise TypeError
  end.

(** [v == s] for a string literal [s] *)
Definition eq_str (v : json) (s : string) : bool :=
  match v with JStr t => String.eqb t s | _ => false end.

(** [v in l] for a list of string literals *)
Definition in_strs (v : json) (l : list string) : bool :=
  existsb (eq_str v) l.

(** [for item in v]: the items a loop over [v] visits *)
Definition py_iter (v : json) : outcome (list json) :=
  match v with
  | JList l => Ret l
  | JStr s => Ret (map (fun c => JStr (String c EmptyString)) (list_ascii_of_string s))
  | JDict d => Ret (map (fun kv => JStr (fst kv)) d)
  | _ => Raise TypeError
  end.

(** [v[:50]] succeeds on sequences only *)
Definition sliceable (v : json) : bool :=
  match v with JStr _ | JList _ => true | _ => false end.

(* ================================================================== *)
(** ** Service data *)

(** The pydantic model [SearchResult]: four [str] fields. *)
Record SearchResult : Type := {
  title : string;
  link : string;
  snippet : string;
  source : string
}.

(** [SearchResult(title=.., link=.., snippet=.., source=..)]: every field
    is validated as [str]; a value of another JSON type is refused. *)
Definition SearchResult_new (t l s src : json) : outcome SearchResult :=
  match t, l, s, src with
  | JStr t', JStr l', JStr s', JStr src' =>
      Ret {| title := t'; link := l'; snippet := s'; source := src' |}
  | _, _, _, _ => Raise ValidationError
  end.

(** [result.dict()] *)
Definition SearchResult_dict (r : SearchResult) : json :=
  JDict [("title", JStr (title r)); ("link", JStr (link r));
         ("snippet", JStr (snippet r)); ("source", JStr (source r))].

(** What [session.get] hands back: the status and what awaiting
    [response.json()] gives, a decoded value or an exception. *)
Record http_response : Type := {
  status : Z;
  json_body : outcome json
}.

(** The dictionary [verify_news] returns.  The clock is read in
    microseconds: [timestamp] stands for the ISO rendering of a reading and
    [processing_time] for the difference of two readings. *)
Record Response : Type := {
  classification : json;
  reason : json;
  sources : json;
  search_results : json;
  confidence : json;
  timestamp : Z;
  processing_time : Z
}.

(** Observable steps of one request: a call to the generative model, the
    entry of one retrieval [search_google(query, num)], and an HTTP GET to
    the search endpoint. *)
Inductive event : Type :=
| EvGenerate (prompt : string)
| EvRetrieve (query : json) (num : Z)
| EvHttpGet (query : json) (num : Z).

Definition is_retrieve (e : event) : bool :=
  match e with EvRetrieve _ _ => true | _ => false end.

(* ================================================================== *)
(** ** The environment of the service *)

(** The three configuration variables and the collaborators the code
    calls.  [generate_content] stands for building the model, calling
    [model.generate_content(prompt)] and reading [response.text]: it raises,
    or yields a falsy response ([None]), or yields the text.  All of them
    may depend on, and change, the state of the outside world. *)
Class Env : Type := {
  World : Type;
  GEMINI_API_KEY : option string;
  GOOGLE_SEARCH_API_KEY : option string;
  GOOGLE_SEARCH_ENGINE_ID : option string;
  generate_content : string -> World -> outcome (option string) * World;
  session_get : json -> Z -> World -> outcome http_response * World;
  datetime_now : World -> Z * World;
  json_loads : string -> outcome json
}.

Record State {E : Env} : Type := {
  world : World;
  trace : list event
}.

(** A computation: runs from a state, returns or raises, leaves a state. *)
Definition M {E : Env} (A : Type) : Type := State -> outcome A * State.

Section Monad.
Context {E : Env}.

Definition ret {A} (a : A) : M A := fun s => (Ret a, s).

Definition bind {A B} (m : M A) (f : A -> M B) : M B :=
  fun s => match m s with
           | (Ret a, s') => f a s'
           | (Raise e, s') => (Raise e, s')
           end.

(** A pure step that may raise. *)
Definition lift {A} (o : outcome A) : M A := fun s => (o, s).

(** [try: body except Exception: handler] *)
Definition try_except {A} (body : M A) (handler : exn -> M A) : M A :=
  fun s => match body s with
           | (Ret a, s') => (Ret a, s')
           | (Raise e, s') => handler e s'
           end.

(** [try: body except json.JSONDecodeError: handler] *)
Definition try_except_json {A} (body : M A) (handler : M A) : M A :=
  fun s => match body s with
           | (Raise JSONDecodeError, s') => handler s'
           | r => r
           end.

Definition log_event (e : event) : M unit :=
  fun s => (Ret tt, {| world := world s; trace := trace s ++ [e] |}).

Definition call_generate (prompt : string) : M (option string) :=
  fun s => let (r, w) := generate_content prompt (world s) in
           (r, {| world := w; trace := trace s ++ [EvGenerate prompt] |}).

Definition call_session_get (query : json) (num : Z) : M http_response :=
  fun s => let (r, w) := session_get query num (world s) in
           (r, {| world := w; trace := trace s ++ [EvHttpGet query num] |}).

Definition now : M Z :=
  fun s => let (t, w) := datetime_now (world s) in
           (Ret t, {| world := w; trace := trace s |}).

End Monad.

Notation "x <- m ;; k" := (bind m (fun x => k))
  (at level 61, m at next level, right associativity).

(* ================================================================== *)
(** ** Prompts *)

Module Prompt.
Local Open Scope string_scope.

Definition q (s : string) : string := PyStr.dquote ++ s ++ PyStr.dquote.

Definition unlines (ls : list string) : string :=
  String.concat "" (map (fun l => l ++ PyStr.newline) ls).

(** The f-string of [extract_key_claims]. *)
Definition extraction (text : string) : string :=
  PyStr.newline ++ unlines [
    "Analyze the following text and extract 2-3 key factual claims that can be verified through search.";
    "Focus on specific, verifiable statements (names, dates, events, statistics, etc.).";
    "Ignore opinions and subjective statements.";
    "";
    "Text: " ++ q text;
    "";
    "Return the claims as a JSON array of strings. Example:";
    "[" ++ q "claim 1" ++ ", " ++ q "claim 2" ++ ", " ++ q "claim 3" ++ "]";
    "";
    "If no verifiable claims are found, return: [" ++ q "no verifiable claims" ++ "]" ].

Definition decimal (i : nat) : string := NilEmpty.string_of_uint (Nat.to_uint i).

(** One numbered entry of the search context. *)
Definition context_entry (i : nat) (result : SearchResult) : string :=
  unlines [
    decimal i ++ ". Source: " ++ source result;
    "   Title: " ++ title result;
    "   Content: " ++ snippet result;
    "   URL: " ++ link result;
    "" ].

(** [for i, result in enumerate(results, 1): search_context += ...] *)
Fixpoint context_entries (i : nat) (results : list SearchResult) : string :=
  match results with
  | [] => ""
  | r :: rest => context_entry i r ++ context_entries (S i) rest
  end.

Definition search_context (all_search_results : list SearchResult) : string :=
  match all_search_results with
  | [] => ""
  | _ => PyStr.newline ++ PyStr.newline ++ "RELEVANT SEARCH RESULTS:" ++ PyStr.newline
         ++ context_entries 1 (firstn 5 all_search_results)
  end.

(** The f-string of the analysis step. *)
Definition analysis (text : string) (all_search_results : list SearchResult) : string :=
  PyStr.newline ++ unlines [
    "You are A.G.N.I. (Advanced General News Intelligence), an expert fact-checker with access to real-time information.";
    "";
    "TASK: Analyze the following claim and determine its accuracy using the provided search results.";
    "";
    "CLAIM TO VERIFY: " ++ q text;
    "";
    search_context all_search_results;
    "";
    "INSTRUCTIONS:";
    "1. Carefully analyze the claim against the search results";
    "2. Look for corroboration or contradiction in reliable sources";
    "3. Consider source credibility (news outlets, official sites, fact-checkers)";
    "4. Assign a confidence score (0.0 to 1.0) based on evidence strength";
    "";
    "RESPONSE FORMAT (JSON only):";
    "{";
    "    " ++ q "classification" ++ ": " ++ q "Verified" ++ " | " ++ q "Misinformation"
      ++ " | " ++ q "Unverifiable" ++ ",";
    "    " ++ q "reason" ++ ": " ++ q "2-3 sentence explanation citing specific sources when possible" ++ ",";
    "    " ++ q "confidence" ++ ": 0.0-1.0,";
    "    " ++ q "key_findings" ++ ": [" ++ q "finding 1" ++ ", " ++ q "finding 2" ++ "]";
    "}";
    "";
    "CLASSIFICATION RULES:";
    "- " ++ q "Verified" ++ ": Multiple reliable sources confirm the claim (confidence > 0.7)";
    "- " ++ q "Misinformation" ++ ": Reliable sources contradict the claim (confidence > 0.7)  ";
    "- " ++ q "Unverifiable" ++ ": Insufficient evidence, opinion-based, or conflicting information";
    "";
    "Respond with JSON only, no additional text." ].

End Prompt.

(* ================================================================== *)
(** ** The pipeline *)

Definition NO_CLAIMS : string := "no verifiable claims".

Section Service.
Context {E : Env}.

(** *** [extract_key_claims] *)

(** The body of the [try] block: [Some claims] is the early [return
    claims], [None] is falling out of the block. *)
Definition extract_try (text : string) : M (option (list json)) :=
  response <- call_generate (Prompt.extraction text) ;;
  match response with
  | Some response_text =>
      if PyStr.truthy response_text then
        let claims_text := PyStr.clean_response response_text in
        try_except_json
          (claims <- lift (json_loads claims_text) ;;
           match claims with
           | JList (c :: cs) => ret (Some (c :: cs))
           | _ => ret None
           end)
          (ret None)
      else ret None
  | None => ret None
  end.

Definition extract_key_claims (text : string) : M (list json) :=
  if negb (configured GEMINI_API_KEY) then ret [JStr text]
  else
    r <- try_except (extract_try text) (fun _ => ret None) ;;
    match r with
    | Some claims => ret claims
    | None => ret [JStr (PyStr.take 200 text)]
    end.

(** *** [search_google] *)

(** The body of the inner [try] of the item loop. *)
Definition parse_item (item : json) : outcome SearchResult :=
  match item with
  | JDict d =>
      match PyDict.get d "displayLink" (PyDict.get d "link" (JStr "")) with
      | JStr src =>
          let src := if PyStr.startswith "www." src then PyStr.drop 4 src else src in
          SearchResult_new (PyDict.get d "title" (JStr ""))
                           (PyDict.get d "link" (JStr ""))
                           (PyDict.get d "snippet" (JStr ""))
                           (JStr src)
      | _ => Raise AttributeError
      end
  | _ => Raise AttributeError
  end.

(** The item loop: [results.append(result)], or [continue] when the
    item raised. *)
Definition collect_items (items : list json) : list SearchResult :=
  fold_left (fun results item =>
               match parse_item item with
               | Ret result => results ++ [result]
               | Raise _ => results
               end) items [].

(** The body of the outer [try], after the request was sent. *)
Definition read_results (query : json) (response : http_response)
  : M (list SearchResult) :=
  if (status response =? 200)%Z then
    data <- lift (json_body response) ;;
    items <- lift (match data with
                   | JDict d => py_iter (PyDict.get d "items" (JList []))
                   | _ => Raise AttributeError
                   end) ;;
    let results := collect_items items in
    (* the log line formats [query[:50]] *)
    _ <- lift (if sliceable query then Ret tt else Raise TypeError) ;;
    ret results
  else ret [].

Definition search_google (query : json) (num_results : Z) : M (list SearchResult) :=
  _ <- log_event (EvRetrieve query num_results) ;;
  if negb (configured GOOGLE_SEARCH_API_KEY) || negb (configured GOOGLE_SEARCH_ENGINE_ID)
  then ret []
  else
    try_except
      (response <- call_session_get query num_results ;;
       read_results query response)
      (fun _ => ret []).

(** *** [verify_with_ai_and_search], step 2: searching *)

(** [for claim in ...: if claim != NO_CLAIMS: search_tasks.append(...)].
    A task is the suspended call, run when it is gathered. *)
Fixpoint add_search_tasks (claims : list json) (search_tasks : list (M (list SearchResult)))
  : list (M (list SearchResult)) :=
  match claims with
  | [] => search_tasks
  | claim :: rest =>
      if negb (eq_str claim NO_CLAIMS)
      then add_search_tasks rest (search_tasks ++ [search_google claim 3])
      else add_search_tasks rest search_tasks
  end.

Definition search_tasks (claims : list json) : list (M (list SearchResult)) :=
  add_search_tasks (firstn 3 claims) [].

(** [asyncio.gather] with [return_exceptions=True]: every task runs
    to its end; what it returned or raised fills its slot, in the order of
    submission.  The tasks are run one after the other. *)
Fixpoint run_all {A} (tasks : list (M A)) (s : State) : list (outcome A) * State :=
  match tasks with
  | [] => ([], s)
  | t :: ts =>
      let (r, s1) := t s in
      let (rs, s2) := run_all ts s1 in
      (r :: rs, s2)
  end.

Definition gather {A} (tasks : list (M A)) : M (list (outcome A)) :=
  fun s => let (rs, s') := run_all tasks s in (Ret rs, s').

(** [for results in lists: if isinstance(results, list): all.extend(results)] *)
Definition join_results (search_results_lists : list (outcome (list SearchResult)))
  : list SearchResult :=
  fold_left (fun all_search_results results =>
               match results with
               | Ret l => all_search_results ++ l
               | Raise _ => all_search_results
               end) search_results_lists [].

Definition aggregate (claims : list json) : M (list SearchResult) :=
  match search_tasks claims with
  | [] => ret []
  | tasks => search_results_lists <- gather tasks ;;
             ret (join_results search_results_lists)
  end.

End Service.

(** Sequencing of pure steps that may raise. *)
Definition obind {A B} (o : outcome A) (f : A -> outcome B) : outcome B :=
  match o with Ret a => f a | Raise e => Raise e end.

Definition VALID_CLASSIFICATIONS : list string :=
  ["Verified"; "Misinformation"; "Unverifiable"].

Definition DEFAULT_REASON : string := "Analysis completed with available information.".
Definition NO_KEY_REASON : string := "AI analysis unavailable - API key not configured".
Definition FALLBACK_REASON : string := "Unable to complete analysis due to technical limitations.".
Definition SERVICE_ERROR_REASON : string := "Service temporarily unavailable due to technical error.".

(** [[r.link for r in results]] and [[r.dict() for r in results]] *)
Definition links_of (results : list SearchResult) : json :=
  JList (map (fun r => JStr (link r)) results).

Definition dicts_of (results : list SearchResult) : json :=
  JList (map SearchResult_dict results).

(** The dictionary literal of the two conservative answers. *)
Definition unverifiable (why : string) (results : list SearchResult) : pydict :=
  [("classification", JStr "Unverifiable");
   ("reason", JStr why);
   ("sources", links_of results);
   ("search_results", dicts_of results);
   ("confidence", JFloat PyFloat.three_tenths)].

(** "Validate and enhance result": the statements between [json.loads] and
    [return result].  [result.get] exists on a dictionary only. *)
Definition repair (result : json) (all_search_results : list SearchResult)
  : outcome pydict :=
  match result with
  | JDict d =>
      let d :=
        if negb (in_strs (PyDict.get d "classification" JNull) VALID_CLASSIFICATIONS)
        then PyDict.set "classification" (JStr "Unverifiable") d else d in
      obind
        (if negb (is_int_or_float (PyDict.get d "confidence" JNull))
         then Ret (PyDict.set "confidence" (JFloat PyFloat.half) d)
         else obind (PyDict.getitem d "confidence") (fun c =>
              obind (py_float c) (fun f =>
              Ret (PyDict.set "confidence" (JFloat (PyFloat.clamp01 f)) d))))
        (fun d =>
           let d :=
             if negb (truthy (PyDict.get d "reason" JNull))
             then PyDict.set "reason" (JStr DEFAULT_REASON) d else d in
           let d := PyDict.set "sources" (links_of (firstn 5 all_search_results)) d in
           let d := PyDict.set "search_results" (dicts_of (firstn 5 all_search_results)) d in
           Ret d)
  | _ => Raise AttributeError
  end.

Section Orchestration.
Context {E : Env}.

(** *** [verify_with_ai_and_search], step 3: analysis *)

(** The body of the [try] block: [Some result] is the early
    [return result], [None] is falling out of the block. *)
Definition analysis_try (text : string) (all_search_results : list SearchResult)
  : M (option pydict) :=
  response <- call_generate (Prompt.analysis text all_search_results) ;;
  match response with
  | Some response_text =>
      if PyStr.truthy response_text then
        let response_text := PyStr.clean_response response_text in
        try_except_json
          (result <- lift (json_loads response_text) ;;
           result <- lift (repair result all_search_results) ;;
           ret (Some result))
          (ret None)
      else ret None
  | None => ret None
  end.

Definition synthesize (text : string) (all_search_results : list SearchResult)
  : M pydict :=
  if negb (configured GEMINI_API_KEY) then
    ret (unverifiable NO_KEY_REASON (firstn 5 all_search_results))
  else
    r <- try_except (analysis_try text all_search_results) (fun _ => ret None) ;;
    match r with
    | Some result => ret result
    | None => ret (unverifiable FALLBACK_REASON (firstn 3 all_search_results))
    end.

Definition verify_with_ai_and_search (text : string) : M pydict :=
  claims <- extract_key_claims text ;;
  all_search_results <- aggregate claims ;;
  synthesize text all_search_results.

(** *** [verify_news] *)

(** The response literal of the [try] block. *)
Definition build_response (start_time : Z) (result : pydict) : M Response :=
  c <- lift (PyDict.getitem result "classification") ;;
  r <- lift (PyDict.getitem result "reason") ;;
  t1 <- now ;;
  t2 <- now ;;
  ret {| classification := c;
         reason := r;
         sources := PyDict.get result "sources" (JList []);
         search_results := PyDict.get result "search_results" (JList []);
         confidence := PyDict.get result "confidence" (JFloat PyFloat.half);
         timestamp := t1;
         processing_time := t2 - start_time |}.

(** The response literal of the [except] block. *)
Definition degraded_response (start_time : Z) : M Response :=
  t1 <- now ;;
  t2 <- now ;;
  ret {| classification := JStr "Unverifiable";
         reason := JStr SERVICE_ERROR_REASON;
         sources := JList [];
         search_results := JList [];
         confidence := JFloat PyFloat.zero;
         timestamp := t1;
         processing_time := t2 - start_time |}.

(** [verify_news], with the verification it awaits as a parameter. *)
Definition verify_news_with (pipeline : string -> M pydict) (text : string)
  : M Response :=
  start_time <- now ;;
  try_except
    (result <- pipeline text ;;
     build_response start_time result)
    (fun _ => degraded_response start_time).

Definition verify_news (text : string) : M Response :=
  verify_news_with verify_with_ai_and_search text.

(** *** The route [POST /api/verify_news] *)

(** The framework builds the [NewsVerificationRequest], which runs the
    validator, and calls the handler with it only when that succeeded; a
    failed validation is answered with a client error. *)
Inductive reply : Type :=
| ClientError (e : exn)
| Ok (r : Response)
| ServerError (e : exn).

Definition post_verify_news (text : string) (s : State) : reply * State :=
  match validate_text text with
  | Raise e => (ClientError e, s)
  | Ret request_text =>
      match verify_news request_text s with
      | (Ret r, s') => (Ok r, s')
      | (Raise e, s') => (ServerError e, s')
      end
  end.

End Orchestration.

(* ================================================================== *)
(** ** Concrete environments and inputs *)

Module Demo.

(** An environment whose world is only a clock: every reading advances it
    by one millisecond, and the collaborators answer as the given functions
    say. *)
Definition env (gemini search_key engine_id : option string)
  (gen : string -> outcome (option string))
  (get : json -> Z -> outcome http_response)
  (loads : string -> outcome json) : Env :=
  {| World := Z;
     GEMINI_API_KEY := gemini;
     GOOGLE_SEARCH_API_KEY := search_key;
     GOOGLE_SEARCH_ENGINE_ID := engine_id;
     generate_content := fun prompt w => (gen prompt, w);
     session_get := fun query num w => (get query num, w);
     datetime_now := fun w => (w, (w + 1000)%Z);
     json_loads := loads |}.

Definition start (E : Env) (w : World) : State := {| world := w; trace := [] |}.

Definition eiffel : string :=
  "The Eiffel Tower was built in 1889 and is located in Paris, France.".

(** Ten letters followed by 4991 spaces: 5001 characters, 10 once trimmed. *)
Definition padded : string := String.append "aaaaaaaaaa" (PyStr.spaces 4991).

Definition item (t l sn dl : string) : json :=
  JDict [("title", JStr t); ("link", JStr l); ("snippet", JStr sn);
         ("displayLink", JStr dl)].

(** A search answer with one well-formed item, one item that is not an
    object, one item whose title is a number, and a last well-formed item. *)
Definition mixed_items : list json :=
  [ item "Eiffel Tower" "https://www.toureiffel.paris/en" "Opened in 1889." "www.toureiffel.paris";
    JStr "not an object";
    JDict [("title", JInt 7); ("link", JStr "https://example.org")];
    item "Paris" "https://example.org/paris" "Capital of France." "example.org" ].

Definition ok_response (items : list json) : http_response :=
  {| status := 200; json_body := Ret (JDict [("items", JList items)]) |}.

Definition record (n : string) : SearchResult :=
  {| title := n; link := String.append "https://example.org/" n;
     snippet := n; source := "example.org" |}.

(** Six evidence records. *)
Definition six_records : list SearchResult :=
  [record "a"; record "b"; record "c"; record "d"; record "e"; record "f"].

(** A decoder that knows three texts. *)
Definition loads (s : string) : outcome json :=
  if String.eqb s "[]" then Ret (JList [])
  else if String.eqb s "{}" then Ret (JDict [])
  else if String.eqb s "true-confidence" then Ret (JDict [("confidence", JBool true)])
  else Raise JSONDecodeError.

(** No credentials at all. *)
Definition unconfigured : Env :=
  env None None None (fun _ => Raise (OtherError "unreachable"))
      (fun _ _ => Raise (OtherError "unreachable")) loads.

(** Both capabilities configured; the model answers every prompt with the
    text [answer], every search finds [mixed_items]. *)
Definition answering (answer : string) : Env :=
  env (Some "gemini-key") (Some "search-key") (Some "engine")
      (fun _ => Ret (Some answer))
      (fun _ _ => Ret (ok_response mixed_items)) loads.

(** Both capabilities configured; the model call fails. *)
Definition failing_model : Env :=
  env (Some "gemini-key") (Some "search-key") (Some "engine")
      (fun _ => Raise (OtherError "quota exceeded"))
      (fun _ _ => Ret (ok_response mixed_items)) loads.

(** A verification that raises. *)
Definition broken_pipeline {E : Env} (text : string) : M pydict :=
  lift (Raise (OtherError "unexpected fault")).

Definition paris_claims : list json :=
  [JStr "Paris is the capital of France"; JStr NO_CLAIMS; JStr "X"].

End Demo.

(* ================================================================== *)
(** ** Conditions the properties speak about *)

Section Conditions.
Context {E : Env}.

(** The answer of the extraction call cannot be used: the call raised, or
    the response is missing or empty, or its cleaned text does not parse, or
    it parses to something that is not a non-empty list. *)
Inductive unusable_claims : outcome (option string) -> Prop :=
| claims_call_raised (e : exn) :
    unusable_claims (Raise e)
| claims_no_response :
    unusable_claims (Ret None)
| claims_empty_text :
    unusable_claims (Ret (Some ""))
| claims_parse_failed (t : string) (e : exn) :
    json_loads (PyStr.clean_response t) = Raise e ->
    unusable_claims (Ret (Some t))
| claims_not_a_list (t : string) (j : json) :
    json_loads (PyStr.clean_response t) = Ret j ->
    (forall c cs, j <> JList (c :: cs)) ->
    unusable_claims (Ret (Some t)).

(** The state after one call of the model with [prompt] that left the
    world as [w]. *)
Definition after_generate (s : State) (prompt : string) (w : World) : State :=
  {| world := w; trace := trace s ++ [EvGenerate prompt] |}.

(** The state after a retrieval that sent no request, and after one whose
    request left the world as [w]. *)
Definition after_retrieve (s : State) (query : json) (num : Z) : State :=
  {| world := world s; trace := trace s ++ [EvRetrieve query num] |}.

Definition after_request (s : State) (query : json) (num : Z) (w : World) : State :=
  {| world := w; trace := (trace s ++ [EvRetrieve query num]) ++ [EvHttpGet query num] |}.

(** The records of the items whose fields can be extracted, in order. *)
Definition extracted (items : list json) : list SearchResult :=
  flat_map (fun item => match parse_item item with
                        | Ret result => [result]
                        | Raise _ => []
                        end) items.

(** The claims that are searched: among the first three, those that are
    not the sentinel. *)
Definition searched_claims (claims : list json) : list json :=
  filter (fun claim => negb (eq_str claim NO_CLAIMS)) (firstn 3 claims).

(** What one slot of the gathered results adds to the evidence. *)
Definition contribution (slot : outcome (list SearchResult)) : list SearchResult :=
  match slot with Ret l => l | Raise _ => [] end.

(** A confidence that [float] accepts: anything but an integer too large
    for a binary64. *)
Definition float_convertible (c : json) : Prop :=
  forall n, c = JInt n -> exists f, PyFloat.of_int n = Ret f.

(** A JSON number: an integer or a float, not a boolean. *)
Definition is_number (c : json) : bool :=
  match c with JInt _ | JFloat _ => true | _ => false end.

(** One of the three classification strings. *)
Definition valid_classification (c : json) : Prop :=
  c = JStr "Verified" \/ c = JStr "Misinformation" \/ c = JStr "Unverifiable".

(** A float in the closed unit interval. *)
Definition unit_confidence (c : json) : Prop :=
  exists f, c = JFloat f /\ PyFloat.in_unit f.

(** A verdict the orchestrator can turn into a well-formed response. *)
Definition well_formed_verdict (v : pydict) : Prop :=
  exists c r x,
    PyDict.lookup "classification" v = Some c /\ valid_classification c
    /\ PyDict.lookup "reason" v = Some r
    /\ PyDict.lookup "confidence" v = Some x /\ unit_confidence x.

End Conditions.

(* ================================================================== *)
(** ** Start-up and the health endpoint *)

(** The configuration of the generative model when the module is loaded:
    [GEMINI_API_KEY = os.getenv(..)]; when that is truthy
    [genai.configure(api_key=GEMINI_API_KEY)] is tried, and a failure resets
    the variable to [None].  A falsy value is left as it is. *)
Definition configure_gemini (getenv : option string)
  (configure : string -> outcome unit) : option string :=
  match getenv with
  | Some key =>
      if PyStr.truthy key then
        match configure key with
        | Ret _ => Some key
        | Raise _ => None
        end
      else Some key
  | None => None
  end.

(** [v is not None] *)
Definition is_not_none (v : option string) : bool :=
  match v with Some _ => true | None => false end.

(** [a and b and ...] on configuration variables: the first falsy operand,
    or the last one. *)
Fixpoint py_and (a : option string) (rest : list (option string)) : option string :=
  match rest with
  | [] => a
  | b :: rest' => if configured a then py_and b rest' else a
  end.

Module Health.

(** The [capabilities] object of the health report. *)
Record Capabilities : Type := {
  gemini_ai : bool;
  google_search : bool;
  static_files : bool;
  real_time_verification : bool
}.

(** The [api_status] object. *)
Record ApiStatus : Type := {
  gemini_configured : bool;
  search_configured : bool;
  full_functionality : bool
}.

(** The dictionary [health_check] returns; [timestamp] stands for the ISO
    rendering of a clock reading. *)
Record t : Type := {
  status : string;
  timestamp : Z;
  service : string;
  version : string;
  capabilities : Capabilities;
  api_status : ApiStatus
}.

End Health.

Section HealthCheck.
Context {E : Env}.

(** [static_dir.exists()]: a query of the file system, which answers or
    raises. *)
Variable static_dir_exists : World -> outcome bool * World.

Definition call_static_dir_exists : M bool :=
  fun s => let (r, w) := static_dir_exists (world s) in
           (r, {| world := w; trace := trace s |}).

(** The route [GET /health].  The dictionary literal is evaluated from
    the top: the clock is read before the file system is asked. *)
Definition health_check : M Health.t :=
  t <- now ;;
  static <- call_static_dir_exists ;;
  ret {| Health.status := "healthy";
         Health.timestamp := t;
         Health.service := "A.G.N.I. AI Real-time Verification";
         Health.version := "2.0.0";
         Health.capabilities :=
           {| Health.gemini_ai := is_not_none GEMINI_API_KEY;
              Health.google_search :=
                is_not_none GOOGLE_SEARCH_API_KEY && is_not_none GOOGLE_SEARCH_ENGINE_ID;
              Health.static_files := static;
              Health.real_time_verification := true |};
         Health.api_status :=
           {| Health.gemini_configured := configured GEMINI_API_KEY;
              Health.search_configured :=
                configured (py_and GOOGLE_SEARCH_API_KEY [GOOGLE_SEARCH_ENGINE_ID]);
              Health.full_functionality :=
                configured (py_and GEMINI_API_KEY
                              [GOOGLE_SEARCH_API_KEY; GOOGLE_SEARCH_ENGINE_ID]) |} |}.

End HealthCheck.

(* ================================================================== *)
(** ** More conditions and sample data *)

(** Every character of [s] is whitespace ([s] may be empty). *)
Fixpoint all_space (s : string) : bool :=
  match s with
  | EmptyString => true
  | String c s' => PyStr.isspace c && all_space s'
  end.

(** [s] holds three backticks in a row somewhere. *)
Fixpoint has_fence (s : string) : bool :=
  PyStr.startswith PyStr.backticks s
  || match s with
     | EmptyString => false
     | String _ s' => has_fence s'
     end.

(** [s] holds no backtick at all. *)
Fixpoint no_backtick (s : string) : bool :=
  match s with
  | EmptyString => true
  | String c s' => negb (Ascii.eqb c "`"%char) && no_backtick s'
  end.

Definition is_generate (e : event) : bool :=
  match e with EvGenerate _ => true | _ => false end.

Definition is_http_get (e : event) : bool :=
  match e with EvHttpGet _ _ => true | _ => false end.

(** [isinstance(v, str)] *)
Definition is_str (v : json) : bool :=
  match v with JStr _ => true | _ => false end.

(** The fields of a search item the retriever reads. *)
Definition ITEM_FIELDS : list string := ["title"; "link"; "snippet"; "displayLink"].

(** The value of [key] is absent from [item] or is a string. *)
Definition str_or_absent (key : string) (item : pydict) : bool :=
  match PyDict.lookup key item with
  | None | Some (JStr _) => true
  | Some _ => false
  end.

(** The keys the repair step writes. *)
Definition REPAIRED_KEYS : list string :=
  ["classification"; "confidence"; "reason"; "sources"; "search_results"].

Section Traces.
Context {E : Env}.

(** What one call of the model leaves in the trace: nothing without a
    configured key. *)
Definition model_call (prompt : string) : list event :=
  if configured GEMINI_API_KEY then [EvGenerate prompt] else [].

(** What one retrieval leaves in the trace: its entry, and one request
    when both search credentials are configured. *)
Definition retrieval_events (query : json) (num : Z) : list event :=
  EvRetrieve query num
  :: (if configured GOOGLE_SEARCH_API_KEY && configured GOOGLE_SEARCH_ENGINE_ID
      then [EvHttpGet query num] else []).

End Traces.

Module Sample.

(** The answer of the model to the extraction prompt, and to the analysis
    prompt, in a conversation that goes well. *)
Definition claims_answer : string := "claims".
Definition verdict_answer : string := "verdict".

Definition claims : list json :=
  [JStr "The Eiffel Tower was built in 1889"; JStr "The Eiffel Tower is in Paris"].

Definition verdict : pydict :=
  [("classification", JStr "Verified");
   ("reason", JStr "Two sources agree.");
   ("confidence", JFloat (S754_finite false 8106479329266893 (-53)));
   ("key_findings", JList [JStr "built in 1889"]);
   ("sources", JList [JStr "https://invented.example"])].

(** A decoder that knows the two answers. *)
Definition loads (s : string) : outcome json :=
  if String.eqb s claims_answer then Ret (JList claims)
  else if String.eqb s verdict_answer then Ret (JDict verdict)
  else Raise JSONDecodeError.

(** Both capabilities configured; the model answers the extraction prompt
    with the claims and any other prompt with the verdict. *)
Definition env : Env :=
  Demo.env (Some "gemini-key") (Some "search-key") (Some "engine")
    (fun prompt => if String.eqb prompt (Prompt.extraction Demo.eiffel)
                   then Ret (Some claims_answer) else Ret (Some verdict_answer))
    (fun _ _ => Ret (Demo.ok_response Demo.mixed_items)) loads.

(** The model key is set to the empty string; the search is configured. *)
Definition empty_key : Env :=
  Demo.env (Some "") (Some "search-key") (Some "engine")
    (fun _ => Raise (OtherError "unreachable"))
    (fun _ _ => Ret (Demo.ok_response Demo.mixed_items)) loads.

(** A fenced answer, as the model often writes it. *)
Definition fenced (body : string) : string :=
  String.append "```json" (String.append PyStr.newline
    (String.append body (String.append PyStr.newline "```"))).

End Sample.

(* ================================================================== *)
(** ** Aggregation over any retriever *)

Section AggregationOver.
Context {E : Env}.

(** The retrieval a search task performs.  The code passes
    [search_google]; the steps around it, collecting the tasks, gathering
    them and joining the slots, do not depend on what it does. *)
Variable retrieve : json -> Z -> M (list SearchResult).

Fixpoint add_search_tasks_with (claims : list json)
  (search_tasks : list (M (list SearchResult))) : list (M (list SearchResult)) :=
  match claims with
  | [] => search_tasks
  | claim :: rest =>
      if negb (eq_str claim NO_CLAIMS)
      then add_search_tasks_with rest (search_tasks ++ [retrieve claim 3])
      else add_search_tasks_with rest search_tasks
  end.

Definition search_tasks_with (claims : list json) : list (M (list SearchResult)) :=
  add_search_tasks_with (firstn 3 claims) [].

Definition aggregate_with (claims : list json) : M (list SearchResult) :=
  match search_tasks_with claims with
  | [] => ret []
  | tasks => search_results_lists <- gather tasks ;;
             ret (join_results search_results_lists)
  end.

End AggregationOver.

(* ================================================================== *)
(** ** The reply of the route *)

(** What the client of [POST /api/verify_news] gets: the refusal of the
    request, the rendered body of the response, or a server error. *)
Inductive http_reply : Type :=
| Unprocessable (e : exn)
| Success (body : string)
| InternalError (e : exn).

Section Rendering.
Context {E : Env}.

(** The framework turns the dictionary the handler returned into the
    JSON body of the reply; it yields the body or raises. *)
Variable render : Response -> outcome string.

Definition post_verify_news_rendered (text : string) (s : State) : http_reply * State :=
  match validate_text text with
  | Raise e => (Unprocessable e, s)
  | Ret request_text =>
      match verify_news request_text s with
      | (Ret r, s') =>
          match render r with
          | Ret body => (Success body, s')
          | Raise e => (InternalError e, s')
          end
      | (Raise e, s') => (InternalError e, s')
      end
  end.

End Rendering.

Module Faulty.

(** A retriever that fails on the claim [X] and finds one record, named
    after the claim, for every other string. *)
Definition retrieve {E : Env} (claim : json) (num : Z) : M (list SearchResult) :=
  match claim with
  | JStr t => if String.eqb t "X" then lift (Raise (OtherError "connection reset"))
              else ret [Demo.record t]
  | _ => ret []
  end.

(** A verdict whose reason is the float [Infinity], which the decoder
    accepts. *)
Definition infinite_verdict : pydict :=
  [("classification", JStr "Verified");
   ("reason", JFloat (S754_infinity false));
   ("confidence", JFloat (S754_finite false 8106479329266893 (-53)))].

Definition loads (s : string) : outcome json :=
  if String.eqb s Sample.claims_answer then Ret (JList Sample.claims)
  else if String.eqb s Sample.verdict_answer then Ret (JDict infinite_verdict)
  else Raise JSONDecodeError.

(** Both capabilities configured; the model answers the analysis prompt
    with that verdict. *)
Definition infinite_reason : Env :=
  Demo.env (Some "gemini-key") (Some "search-key") (Some "engine")
    (fun prompt => if String.eqb prompt (Prompt.extraction Demo.eiffel)
                   then Ret (Some Sample.claims_answer)
                   else Ret (Some Sample.verdict_answer))
    (fun _ _ => Ret (Demo.ok_response Demo.mixed_items)) loads.

End Faulty.

(* ================================================================== *)
(** * Properties *)

Arguments PyStr.take : simpl never.
Arguments PyStr.clean_response : simpl never.

(** ** Running computations in proofs *)

(** Unfold the operations of [M]. *)
Ltac munfold :=
  unfold bind, try_except, try_except_json, lift, ret, log_event, call_generate,
    call_session_get, now in *.

Ltac mreduce := cbv beta iota; cbn [world trace fst snd].

(** Split on every test and every call the goal is stuck on, innermost
    first. *)
Ltac innermost x :=
  lazymatch x with
  | context [match _ with _ => _ end] => fail
  | context [if _ then _ else _] => fail
  | _ => idtac
  end.

Ltac msplit :=
  repeat (mreduce;
          match goal with
          | |- context [if ?b then _ else _] => innermost b; destruct b eqn:?
          | |- context [match ?x with _ => _ end] => innermost x; destruct x eqn:?
          end).

(** ** Strings *)

Lemma lstrip_length (s : string) : String.length (PyStr.lstrip s) <= String.length s.
Proof.
  induction s as [|c s IH]; simpl; [lia|].
  destruct (PyStr.isspace c); simpl; lia.
Qed.

Lemma rstrip_length (s : string) : String.length (PyStr.rstrip s) <= String.length s.
Proof.
  induction s as [|c s IH]; simpl; [lia|].
  destruct (PyStr.rstrip s) as [|c' r].
  - destruct (PyStr.isspace c); simpl; lia.
  - simpl in *. lia.
Qed.

Lemma strip_len (s : string) : (PyStr.len (PyStr.strip s) <= PyStr.len s)%Z.
Proof.
  unfold PyStr.len, PyStr.strip.
  pose proof (rstrip_length (PyStr.lstrip s)). pose proof (lstrip_length s). lia.
Qed.

Lemma truthy_len (s : string) : PyStr.truthy s = false <-> PyStr.len s = 0%Z.
Proof.
  unfold PyStr.len. destruct s; simpl; split; intros H; try reflexivity; try discriminate; lia.
Qed.

Lemma len_nonneg (s : string) : (0 <= PyStr.len s)%Z.
Proof. unfold PyStr.len. lia. Qed.

(** ** Request validation *)

(** What the validator decides, by cases. *)
Lemma validate_text_cases (v : string) :
  (validate_text v = Ret (PyStr.strip v)
   /\ (10 <= PyStr.len (PyStr.strip v))%Z /\ (PyStr.len v <= 5000)%Z)
  \/ ((exists msg, validate_text v = Raise (ValueError msg))
      /\ ((PyStr.len (PyStr.strip v) < 10)%Z \/ (5000 < PyStr.len v)%Z)).
Proof.
  unfold validate_text.
  destruct (PyStr.truthy v) eqn:Hv; simpl.
  2:{ right. split; [eauto|]. left.
      apply truthy_len in Hv. pose proof (strip_len v). pose proof (len_nonneg (PyStr.strip v)). lia. }
  destruct (PyStr.truthy (PyStr.strip v)) eqn:Hs; simpl.
  2:{ right. split; [eauto|]. left. apply truthy_len in Hs. lia. }
  destruct (PyStr.len (PyStr.strip v) <? 10)%Z eqn:H10.
  { right. split; [eauto|]. left. lia. }
  destruct (PyStr.len v >? 5000)%Z eqn:H5.
  { right. split; [eauto|]. right. lia. }
  left. repeat split; lia.
Qed.

(** C3, as stated, fails: a text of ten letters followed by 4991 spaces has
    a trimmed length of 10, inside the stated bounds, and is rejected,
    because the upper bound is checked on the untrimmed text. *)
Lemma validate_text_rejects_padded :
  (10 <= PyStr.len (PyStr.strip Demo.padded) <= 5000)%Z
  /\ validate_text Demo.padded = Raise (ValueError "Text cannot exceed 5000 characters").
Proof.
  assert (Hlen : PyStr.len (PyStr.strip Demo.padded) = 10%Z) by (vm_compute; reflexivity).
  split; [rewrite Hlen; lia | vm_compute; reflexivity].
Qed.

(** C3, amended: a request is rejected with a validation error, before any
    pipeline step runs (the state of the world and the trace are untouched),
    exactly when the trimmed text has fewer than 10 characters or the
    untrimmed text has more than 5000; it is accepted, and handled as its
    trimmed text, exactly when the trimmed text has at least 10 characters
    and the untrimmed text at most 5000.  In particular every text whose
    trimmed length exceeds 5000 is rejected, and every accepted text has a
    trimmed length between 10 and 5000. *)
Theorem validate_text_bounds {E : Env} (v : string) :
  ((exists e, validate_text v = Raise e) <->
     ((PyStr.len (PyStr.strip v) < 10)%Z \/ (5000 < PyStr.len v)%Z))
  /\ (validate_text v = Ret (PyStr.strip v) <->
     ((10 <= PyStr.len (PyStr.strip v))%Z /\ (PyStr.len v <= 5000)%Z))
  /\ (forall t, validate_text v = Ret t ->
       t = PyStr.strip v /\ (10 <= PyStr.len t <= 5000)%Z)
  /\ ((5000 < PyStr.len (PyStr.strip v))%Z -> exists e, validate_text v = Raise e)
  /\ (forall e s, validate_text v = Raise e -> post_verify_news v s = (ClientError e, s))
  /\ (forall t s, validate_text v = Ret t ->
       post_verify_news v s =
         match verify_news t s with
         | (Ret r, s') => (Ok r, s')
         | (Raise e, s') => (ServerError e, s')
         end).
Proof.
  pose proof (strip_len v) as Hle.
  destruct (validate_text_cases v) as [(Hok & H10 & H5) | ((msg & Hbad) & Hwhy)].
  - split; [|split; [|split; [|split; [|split]]]].
    + split; [intros (e & He); congruence | intros [H | H]; lia].
    + split; [intros _; split; assumption | intros _; assumption].
    + intros t Ht. rewrite Hok in Ht. inversion Ht; subst. split; [reflexivity | lia].
    + intros H. lia.
    + intros e s He. congruence.
    + intros t s Ht. unfold post_verify_news. rewrite Ht. reflexivity.
  - split; [|split; [|split; [|split; [|split]]]].
    + split; [intros _; exact Hwhy | intros _; eauto].
    + split; [rewrite Hbad; discriminate | intros (H10 & H5); lia].
    + intros t Ht. rewrite Hbad in Ht. discriminate.
    + intros _. eauto.
    + intros e s He. unfold post_verify_news. rewrite He. reflexivity.
    + intros t s Ht. congruence.
Qed.

(** ** Claim extraction *)

(** C5: without a configured generative model the extractor returns
    exactly the one-element list holding the whole input text, and calls
    nothing. *)
Theorem extract_without_model {E : Env} (text : string) (s : State) :
  configured GEMINI_API_KEY = false ->
  extract_key_claims text s = (Ret [JStr text], s).
Proof.
  intros Hkey. unfold extract_key_claims. rewrite Hkey. reflexivity.
Qed.

Lemma extract_without_model_witness :
  configured (@GEMINI_API_KEY Demo.unconfigured) = false
  /\ @extract_key_claims Demo.unconfigured Demo.eiffel (Demo.start Demo.unconfigured 0%Z)
     = (Ret [JStr Demo.eiffel], Demo.start Demo.unconfigured 0%Z).
Proof.
  split; [reflexivity | apply (@extract_without_model Demo.unconfigured); reflexivity].
Defined.

(** The extractor always returns, with at least one claim. *)
Lemma extract_total {E : Env} (text : string) (s : State) :
  exists c cs s', extract_key_claims text s = (Ret (c :: cs), s').
Proof.
  unfold extract_key_claims.
  destruct (configured GEMINI_API_KEY); simpl; [|unfold ret; eauto].
  unfold bind, try_except, extract_try, bind, call_generate, try_except_json, lift, ret.
  destruct (generate_content (Prompt.extraction text) (world s)) as [[[t|]|e] w]; eauto.
  destruct (PyStr.truthy t); eauto.
  destruct (json_loads (PyStr.clean_response t)) as [j|e]; eauto.
  - destruct j as [| | | | |[|c cs]|]; eauto.
  - destruct e; eauto.
Qed.

(** C9: with the generative model configured, when the extraction call
    raises, or its response does not parse as JSON once the code fences are
    stripped, or parses to something that is not a non-empty list, the
    extractor returns the one-element list whose claim is the first 200
    characters of the input text. *)
Theorem extract_fallback {E : Env} (text : string) (s : State)
  (r : outcome (option string)) (w : World) :
  configured GEMINI_API_KEY = true ->
  generate_content (Prompt.extraction text) (world s) = (r, w) ->
  unusable_claims r ->
  extract_key_claims text s
  = (Ret [JStr (PyStr.take 200 text)], after_generate s (Prompt.extraction text) w).
Proof.
  intros Hkey Hgen Hbad. unfold extract_key_claims. rewrite Hkey. simpl.
  unfold bind, try_except, extract_try, bind, call_generate, try_except_json, lift, ret,
    after_generate.
  rewrite Hgen.
  destruct Hbad as [e| | |t e Hparse|t j Hparse Hshape]; try reflexivity.
  - destruct (PyStr.truthy t); [|reflexivity].
    rewrite Hparse. destruct e; reflexivity.
  - destruct (PyStr.truthy t); [|reflexivity].
    rewrite Hparse.
    destruct j as [| | | | |[|c cs]|]; try reflexivity.
    exfalso. exact (Hshape c cs eq_refl).
Qed.

Lemma extract_fallback_witness :
  configured (@GEMINI_API_KEY (Demo.answering "maybe")) = true
  /\ @generate_content (Demo.answering "maybe") (Prompt.extraction Demo.eiffel) 0%Z
     = (Ret (Some "maybe"), 0%Z)
  /\ @unusable_claims (Demo.answering "maybe") (Ret (Some "maybe"))
  /\ @extract_key_claims (Demo.answering "maybe") Demo.eiffel
       (Demo.start (Demo.answering "maybe") 0%Z)
     = (Ret [JStr (PyStr.take 200 Demo.eiffel)],
        after_generate (Demo.start (Demo.answering "maybe") 0%Z)
          (Prompt.extraction Demo.eiffel) 0%Z).
Proof.
  assert (H1 : configured (@GEMINI_API_KEY (Demo.answering "maybe")) = true) by reflexivity.
  assert (H2 : @generate_content (Demo.answering "maybe") (Prompt.extraction Demo.eiffel) 0%Z
               = (Ret (Some "maybe"), 0%Z)) by reflexivity.
  assert (H3 : @unusable_claims (Demo.answering "maybe") (Ret (Some "maybe"))).
  { apply (@claims_parse_failed (Demo.answering "maybe") "maybe" JSONDecodeError). reflexivity. }
  exact (conj H1 (conj H2 (conj H3
    (@extract_fallback (Demo.answering "maybe") Demo.eiffel
       (Demo.start (Demo.answering "maybe") 0%Z) _ _ H1 H2 H3)))).
Defined.

(** ** Web retrieval *)

Lemma collect_items_from (items : list json) (acc : list SearchResult) :
  fold_left (fun results item =>
               match parse_item item with
               | Ret result => results ++ [result]
               | Raise _ => results
               end) items acc
  = acc ++ extracted items.
Proof.
  revert acc. induction items as [|item items IH]; intros acc; simpl.
  - now rewrite app_nil_r.
  - rewrite IH. destruct (parse_item item); simpl.
    + now rewrite <- app_assoc.
    + reflexivity.
Qed.

Lemma collect_items_extracted (items : list json) : collect_items items = extracted items.
Proof. unfold collect_items. now rewrite collect_items_from. Qed.

(** The retriever returns whatever it is asked and whatever the world
    answers. *)
Lemma search_google_total {E : Env} (query : json) (num : Z) (s : State) :
  exists results s', search_google query num s = (Ret results, s').
Proof.
  unfold search_google, read_results. munfold. msplit; eauto.
Qed.

(** C6: for every query string and limit the retriever never raises.
    Without both search credentials it returns the empty list at once,
    sending no request.  With them it sends one request and returns the
    empty list when the request raises, when the status is not 200, when
    decoding the body raises and when the body is not an object; on an
    object whose [items] is a list it returns the records of the items whose
    fields can be extracted, in order, skipping the others. *)
Theorem search_google_contract {E : Env} (query : string) (num : Z) (s : State) :
  (exists results s', search_google (JStr query) num s = (Ret results, s'))
  /\ (configured GOOGLE_SEARCH_API_KEY = false \/ configured GOOGLE_SEARCH_ENGINE_ID = false ->
      search_google (JStr query) num s = (Ret [], after_retrieve s (JStr query) num))
  /\ (configured GOOGLE_SEARCH_API_KEY = true -> configured GOOGLE_SEARCH_ENGINE_ID = true ->
      forall r w, session_get (JStr query) num (world s) = (r, w) ->
      (forall e, r = Raise e ->
         search_google (JStr query) num s = (Ret [], after_request s (JStr query) num w))
      /\ (forall resp, r = Ret resp -> status resp <> 200%Z ->
         search_google (JStr query) num s = (Ret [], after_request s (JStr query) num w))
      /\ (forall resp e, r = Ret resp -> json_body resp = Raise e ->
         search_google (JStr query) num s = (Ret [], after_request s (JStr query) num w))
      /\ (forall resp data, r = Ret resp -> json_body resp = Ret data ->
         (forall d, data <> JDict d) ->
         search_google (JStr query) num s = (Ret [], after_request s (JStr query) num w))
      /\ (forall resp d items, r = Ret resp -> status resp = 200%Z ->
         json_body resp = Ret (JDict d) ->
         PyDict.get d "items" (JList []) = JList items ->
         search_google (JStr query) num s
         = (Ret (extracted items), after_request s (JStr query) num w)))
  /\ (forall before item after,
      extracted (before ++ item :: after)
      = extracted before
        ++ match parse_item item with Ret result => [result] | Raise _ => [] end
        ++ extracted after).
Proof.
  split; [apply search_google_total|].
  split; [|split].
  - intros Hkeys. unfold search_google. munfold. mreduce.
    assert (Hor : negb (configured GOOGLE_SEARCH_API_KEY)
                  || negb (configured GOOGLE_SEARCH_ENGINE_ID) = true)
      by (destruct Hkeys as [-> | ->]; simpl; [reflexivity | apply orb_true_r]).
    rewrite Hor. reflexivity.
  - intros Hk1 Hk2 r w Hget.
    assert (Hrun : forall out,
      (match r with
       | Ret resp => read_results (JStr query) resp (after_request s (JStr query) num w)
       | Raise e => (Raise e, after_request s (JStr query) num w)
       end = (out, after_request s (JStr query) num w)) ->
      search_google (JStr query) num s
      = (match out with Ret l => Ret l | Raise _ => Ret [] end,
         after_request s (JStr query) num w)).
    { intros out Hout. unfold search_google. munfold. mreduce.
      rewrite Hk1, Hk2. cbn [negb orb]. mreduce. rewrite Hget.
      unfold after_request in Hout. munfold.
      destruct r as [resp|e]; mreduce.
      - rewrite Hout. destruct out; reflexivity.
      - inversion Hout; subst. reflexivity. }
    split; [|split; [|split; [|split]]].
    + intros e ->. apply (Hrun (Raise e)). reflexivity.
    + intros resp -> Hstatus. apply (Hrun (Ret [])).
      unfold read_results. apply Z.eqb_neq in Hstatus. rewrite Hstatus. reflexivity.
    + intros resp e -> Hbody.
      destruct (status resp =? 200)%Z eqn:Hst.
      * apply (Hrun (Raise e)). unfold read_results. rewrite Hst. munfold. rewrite Hbody.
        reflexivity.
      * apply (Hrun (Ret [])). unfold read_results. rewrite Hst. reflexivity.
    + intros resp data -> Hbody Hshape.
      destruct (status resp =? 200)%Z eqn:Hst.
      * apply (Hrun (Raise AttributeError)). unfold read_results. rewrite Hst. munfold.
        rewrite Hbody. destruct data; try reflexivity. exfalso. exact (Hshape _ eq_refl).
      * apply (Hrun (Ret [])). unfold read_results. rewrite Hst. reflexivity.
    + intros resp d items -> Hstatus Hbody Hitems.
      apply (Hrun (Ret (extracted items))). unfold read_results.
      apply Z.eqb_eq in Hstatus. rewrite Hstatus. munfold. rewrite Hbody, Hitems.
      simpl. rewrite collect_items_extracted. reflexivity.
  - intros before item after. unfold extracted.
    rewrite flat_map_app. simpl. reflexivity.
Qed.

(** The retriever on a concrete answer with four items, two of them
    malformed: the two well-formed ones come back, with [www.] stripped. *)
Example search_google_skips_malformed :
  fst (@search_google (Demo.answering "x") (JStr "Eiffel Tower") 3
         (Demo.start (Demo.answering "x") 0%Z))
  = Ret [ {| title := "Eiffel Tower"; link := "https://www.toureiffel.paris/en";
             snippet := "Opened in 1889."; source := "toureiffel.paris" |};
          {| title := "Paris"; link := "https://example.org/paris";
             snippet := "Capital of France."; source := "example.org" |} ].
Proof. vm_compute. reflexivity. Qed.

(** A query that is not a string: the claims come from the model and may
    be numbers.  The request is sent and the items are read, then the log
    line slices the query, which raises inside the outer [try]: the result
    is the empty list. *)
Example search_google_number_query :
  fst (@search_google (Demo.answering "x") (JInt 1889) 3
         (Demo.start (Demo.answering "x") 0%Z))
  = Ret [].
Proof. vm_compute. reflexivity. Qed.

(** ** Aggregation *)

Lemma add_search_tasks_spec {E : Env} (claims : list json)
  (acc : list (M (list SearchResult))) :
  add_search_tasks claims acc
  = acc ++ map (fun claim => search_google claim 3)
             (filter (fun claim => negb (eq_str claim NO_CLAIMS)) claims).
Proof.
  revert acc. induction claims as [|claim claims IH]; intros acc; simpl.
  - now rewrite app_nil_r.
  - destruct (negb (eq_str claim NO_CLAIMS)); rewrite IH; simpl.
    + now rewrite <- app_assoc.
    + reflexivity.
Qed.

Lemma search_tasks_spec {E : Env} (claims : list json) :
  search_tasks claims = map (fun claim => search_google claim 3) (searched_claims claims).
Proof. unfold search_tasks. now rewrite add_search_tasks_spec. Qed.

Lemma searched_claims_length (claims : list json) : List.length (searched_claims claims) <= 3.
Proof.
  unfold searched_claims.
  etransitivity; [apply filter_length_le|]. apply firstn_le_length.
Qed.

(** One retrieval leaves exactly one retrieval event. *)
Lemma search_google_retrievals {E : Env} (query : json) (num : Z) (s : State) :
  filter is_retrieve (trace (snd (search_google query num s)))
  = filter is_retrieve (trace s) ++ [EvRetrieve query num].
Proof.
  unfold search_google, read_results. munfold.
  msplit; mreduce; repeat rewrite filter_app; simpl; try rewrite app_nil_r; reflexivity.
Qed.

Lemma run_all_app {E : Env} {A} (before after : list (M A)) (s : State) :
  run_all (before ++ after) s
  = let (rs1, s1) := run_all before s in
    let (rs2, s2) := run_all after s1 in
    (rs1 ++ rs2, s2).
Proof.
  revert s. induction before as [|t before IH]; intros s; simpl.
  - destruct (run_all after s); reflexivity.
  - destruct (t s) as [r s1]. rewrite IH.
    destruct (run_all before s1) as [rs1 s2]. destruct (run_all after s2). reflexivity.
Qed.

Lemma run_all_length {E : Env} {A} (tasks : list (M A)) (s : State) :
  List.length (fst (run_all tasks s)) = List.length tasks.
Proof.
  revert s. induction tasks as [|t tasks IH]; intros s; simpl; [reflexivity|].
  destruct (t s) as [r s1]. specialize (IH s1).
  destruct (run_all tasks s1). simpl in *. now rewrite IH.
Qed.

Lemma run_searches_retrievals {E : Env} (claims : list json) (s : State) :
  filter is_retrieve
    (trace (snd (run_all (map (fun claim => search_google claim 3) claims) s)))
  = filter is_retrieve (trace s) ++ map (fun claim => EvRetrieve claim 3) claims.
Proof.
  revert s. induction claims as [|claim claims IH]; intros s; simpl.
  - now rewrite app_nil_r.
  - pose proof (search_google_retrievals claim 3 s) as Hone.
    destruct (search_google claim 3 s) as [r s1]. specialize (IH s1).
    destruct (run_all _ s1) as [rs s2]. simpl in *.
    rewrite IH, Hone, <- app_assoc. reflexivity.
Qed.

Lemma join_results_from (slots : list (outcome (list SearchResult)))
  (acc : list SearchResult) :
  fold_left (fun all_search_results results =>
               match results with
               | Ret l => all_search_results ++ l
               | Raise _ => all_search_results
               end) slots acc
  = acc ++ List.concat (map contribution slots).
Proof.
  revert acc. induction slots as [|slot slots IH]; intros acc; simpl.
  - now rewrite app_nil_r.
  - rewrite IH. destruct slot; simpl; [now rewrite app_assoc | reflexivity].
Qed.

Lemma join_results_concat (slots : list (outcome (list SearchResult))) :
  join_results slots = List.concat (map contribution slots).
Proof. unfold join_results. now rewrite join_results_from. Qed.

(** C7: the aggregator returns, and the retrievals it issues are exactly
    one retrieval with limit 3 for each claim among the first three that is
    not the sentinel, in order: at most three of them.  For the claims
    [Paris is the capital of France], the sentinel and [X] these are the two
    retrievals for the first and the last.  When no claim remains, nothing
    is called and the evidence is empty. *)
Theorem aggregate_retrievals {E : Env} (claims : list json) (s : State) :
  exists results s',
    aggregate claims s = (Ret results, s')
    /\ filter is_retrieve (trace s')
       = filter is_retrieve (trace s)
         ++ map (fun claim => EvRetrieve claim 3) (searched_claims claims)
    /\ List.length (searched_claims claims) <= 3
    /\ (forall claim, In claim (searched_claims claims) <->
          In claim (firstn 3 claims) /\ claim <> JStr NO_CLAIMS)
    /\ searched_claims Demo.paris_claims = [JStr "Paris is the capital of France"; JStr "X"]
    /\ (searched_claims claims = [] -> results = [] /\ s' = s).
Proof.
  unfold aggregate. rewrite search_tasks_spec.
  pose proof (run_searches_retrievals (searched_claims claims) s) as Htrace.
  assert (Hmeaning : forall claim, In claim (searched_claims claims) <->
            In claim (firstn 3 claims) /\ claim <> JStr NO_CLAIMS).
  { intros claim. unfold searched_claims. rewrite filter_In.
    assert (Heq : negb (eq_str claim NO_CLAIMS) = true <-> claim <> JStr NO_CLAIMS).
    { rewrite negb_true_iff. unfold eq_str.
      destruct claim as [| | | |t| |]; try (split; [intros _; discriminate | reflexivity]).
      destruct (String.eqb_spec t NO_CLAIMS) as [->|Hne]; split; intros H.
      - discriminate.
      - exfalso. now apply H.
      - intros Heq. inversion Heq. contradiction.
      - reflexivity. }
    now rewrite Heq. }
  destruct (searched_claims claims) as [|claim kept] eqn:Hkept.
  - exists [], s. simpl. rewrite app_nil_r.
    repeat split; auto; try apply Hmeaning; lia.
  - cbn [map]. unfold gather, bind, ret.
    destruct (run_all (search_google claim 3 :: map (fun c => search_google c 3) kept) s)
      as [slots s'] eqn:Hrun.
    exists (join_results slots), s'. cbn [map] in Htrace. rewrite Hrun in Htrace.
    split; [reflexivity|]. split; [exact Htrace|].
    split; [rewrite <- Hkept; apply searched_claims_length|].
    split; [exact Hmeaning|]. split; [reflexivity|]. discriminate.
Qed.

Lemma add_search_tasks_with_spec {E : Env}
  (retrieve : json -> Z -> M (list SearchResult)) (claims : list json)
  (acc : list (M (list SearchResult))) :
  add_search_tasks_with retrieve claims acc
  = acc ++ map (fun claim => retrieve claim 3%Z)
             (filter (fun claim => negb (eq_str claim NO_CLAIMS)) claims).
Proof.
  revert acc. induction claims as [|claim claims IH]; intros acc; simpl.
  - now rewrite app_nil_r.
  - destruct (negb (eq_str claim NO_CLAIMS)); rewrite IH; simpl.
    + now rewrite <- app_assoc.
    + reflexivity.
Qed.

Lemma search_tasks_with_spec {E : Env}
  (retrieve : json -> Z -> M (list SearchResult)) (claims : list json) :
  search_tasks_with retrieve claims
  = map (fun claim => retrieve claim 3%Z) (searched_claims claims).
Proof. unfold search_tasks_with. now rewrite add_search_tasks_with_spec. Qed.

(** The aggregator of the code is the aggregation over [search_google]. *)
Lemma aggregate_with_search_google {E : Env} (claims : list json) :
  aggregate_with search_google claims = aggregate claims.
Proof.
  unfold aggregate_with, aggregate. now rewrite search_tasks_with_spec, search_tasks_spec.
Qed.

(** What the aggregation returns, whatever the retriever does. *)
Lemma aggregate_with_run {E : Env} (retrieve : json -> Z -> M (list SearchResult))
  (claims : list json) (s : State) :
  aggregate_with retrieve claims s
  = (Ret (List.concat
            (map contribution
               (fst (run_all (map (fun claim => retrieve claim 3%Z)
                                (searched_claims claims)) s)))),
     snd (run_all (map (fun claim => retrieve claim 3%Z) (searched_claims claims)) s)).
Proof.
  unfold aggregate_with. rewrite search_tasks_with_spec.
  destruct (searched_claims claims) as [|claim kept]; [reflexivity|].
  cbn [map]. unfold bind, gather, ret.
  destruct (run_all (retrieve claim 3%Z :: map (fun c => retrieve c 3%Z) kept) s)
    as [slots s'].
  cbn [fst snd]. now rewrite join_results_concat.
Qed.

(** C8: the aggregation never raises, whatever its retrievals do, and
    every searched claim gets its slot.  The evidence it returns is the
    concatenation of what the slots contribute, in the order the claims were
    submitted; a slot that holds an exception contributes nothing.  A
    retrieval that raises neither cancels nor fails its siblings: those
    submitted before it have run, those submitted after it run from the
    state it left, and the results of both are in the evidence, in that
    order.  The aggregator of the code is this aggregation over
    [search_google]. *)
Theorem gather_isolates_faults {E : Env}
  (retrieve : json -> Z -> M (list SearchResult)) (claims : list json) (s : State) :
  exists slots s',
    run_all (map (fun claim => retrieve claim 3%Z) (searched_claims claims)) s = (slots, s')
    /\ aggregate_with retrieve claims s = (Ret (List.concat (map contribution slots)), s')
    /\ List.length slots = List.length (searched_claims claims)
    /\ (forall before claim after,
          searched_claims claims = before ++ claim :: after ->
          exists slots1 s1 slot s2 slots2,
            run_all (map (fun c => retrieve c 3%Z) before) s = (slots1, s1)
            /\ retrieve claim 3%Z s1 = (slot, s2)
            /\ run_all (map (fun c => retrieve c 3%Z) after) s2 = (slots2, s')
            /\ slots = slots1 ++ slot :: slots2
            /\ aggregate_with retrieve claims s
               = (Ret (List.concat (map contribution slots1)
                       ++ contribution slot
                       ++ List.concat (map contribution slots2)), s')
            /\ (forall e, slot = Raise e ->
                  aggregate_with retrieve claims s
                  = (Ret (List.concat (map contribution slots1)
                          ++ List.concat (map contribution slots2)), s')))
    /\ aggregate claims s = aggregate_with search_google claims s
    /\ (forall before e after,
          join_results (before ++ Raise e :: after)
          = join_results before ++ join_results after).
Proof.
  pose proof (aggregate_with_run retrieve claims s) as Hagg.
  pose proof (run_all_length
                (map (fun claim => retrieve claim 3%Z) (searched_claims claims)) s) as Hlen.
  destruct (run_all (map (fun claim => retrieve claim 3%Z) (searched_claims claims)) s)
    as [slots s'] eqn:Hrun.
  cbn [fst snd] in Hagg, Hlen. rewrite length_map in Hlen.
  exists slots, s'. split; [reflexivity|]. split; [exact Hagg|]. split; [exact Hlen|].
  split; [|split].
  - intros before claim after Hsplit.
    rewrite Hsplit, map_app in Hrun. cbn [map] in Hrun.
    rewrite run_all_app in Hrun. cbn [run_all] in Hrun.
    destruct (run_all (map (fun c => retrieve c 3%Z) before) s) as [slots1 s1] eqn:H1.
    destruct (retrieve claim 3%Z s1) as [slot s2] eqn:H2.
    destruct (run_all (map (fun c => retrieve c 3%Z) after) s2) as [slots2 s3] eqn:H3.
    inversion Hrun; subst slots s3. clear Hrun.
    exists slots1, s1, slot, s2, slots2.
    assert (Hall : aggregate_with retrieve claims s
                   = (Ret (List.concat (map contribution slots1)
                           ++ contribution slot
                           ++ List.concat (map contribution slots2)), s'))
      by (rewrite Hagg, map_app, concat_app; reflexivity).
    repeat (split; [first [reflexivity | assumption]|]).
    intros e ->. exact Hall.
  - now rewrite aggregate_with_search_google.
  - intros before e after. rewrite !join_results_concat, map_app, concat_app. reflexivity.
Qed.

(** The aggregation over a retriever that fails on the second of three
    claims: the records of the first and of the third claim are the
    evidence, in that order. *)
Example aggregate_survives_failing_retrieval :
  fst (@aggregate_with (Demo.answering "x") Faulty.retrieve
         [JStr "Paris"; JStr "X"; JStr "France"; JStr "ignored"]
         (Demo.start (Demo.answering "x") 0%Z))
  = Ret [Demo.record "Paris"; Demo.record "France"].
Proof. vm_compute. reflexivity. Qed.

(** The aggregator on the three claims of the example, with the search
    configured: two retrievals, and two requests. *)
Example aggregate_paris_retrievals :
  filter is_retrieve
    (trace (snd (@aggregate (Demo.answering "x") Demo.paris_claims
                   (Demo.start (Demo.answering "x") 0%Z))))
  = [EvRetrieve (JStr "Paris is the capital of France") 3; EvRetrieve (JStr "X") 3].
Proof. vm_compute. reflexivity. Qed.

(** ** Dictionaries and floats *)

Lemma lookup_set_same (k : string) (v : json) (d : pydict) :
  PyDict.lookup k (PyDict.set k v d) = Some v.
Proof.
  induction d as [|[k' v'] d IH]; simpl.
  - now rewrite String.eqb_refl.
  - destruct (String.eqb k k') eqn:Hk; simpl.
    + now rewrite String.eqb_refl.
    + now rewrite Hk.
Qed.

Lemma lookup_set_other (k k' : string) (v : json) (d : pydict) :
  String.eqb k k' = false ->
  PyDict.lookup k (PyDict.set k' v d) = PyDict.lookup k d.
Proof.
  intros Hne. induction d as [|[k0 v0] d IH]; simpl.
  - now rewrite Hne.
  - destruct (String.eqb k' k0) eqn:Hk; simpl.
    + apply String.eqb_eq in Hk. subst k0. now rewrite Hne.
    + now rewrite IH.
Qed.

Lemma get_set_other (k k' : string) (v default : json) (d : pydict) :
  String.eqb k k' = false ->
  PyDict.get (PyDict.set k' v d) k default = PyDict.get d k default.
Proof. intros Hne. unfold PyDict.get. now rewrite lookup_set_other. Qed.

Ltac dict_simpl :=
  repeat first [ rewrite lookup_set_same
               | rewrite lookup_set_other by reflexivity
               | rewrite get_set_other by reflexivity ].

(** The clamp lands in the unit interval, whatever it is given: a number,
    an infinity or a NaN. *)
Lemma clamp01_in_unit (x : spec_float) : PyFloat.in_unit (PyFloat.clamp01 x).
Proof.
  unfold PyFloat.in_unit, PyFloat.clamp01, PyFloat.py_max, PyFloat.py_min.
  destruct (SFltb x PyFloat.one) eqn:H1.
  - destruct (SFltb PyFloat.zero x) eqn:H0.
    + split.
      * unfold SFltb in H0. unfold SFleb. destruct (SFcompare PyFloat.zero x) as [[| |]|];
          try discriminate; reflexivity.
      * unfold SFltb in H1. unfold SFleb. destruct (SFcompare x PyFloat.one) as [[| |]|];
          try discriminate; reflexivity.
    + split; reflexivity.
  - split; reflexivity.
Qed.

(** Inside the unit interval the clamp changes nothing, up to the equality
    of floats (it turns [-0.0] into [0.0]). *)
Lemma clamp01_fixes_unit (x : spec_float) :
  PyFloat.in_unit x ->
  PyFloat.clamp01 x = x
  \/ (SFeqb PyFloat.zero x = true /\ PyFloat.clamp01 x = PyFloat.zero)
  \/ (SFeqb x PyFloat.one = true /\ PyFloat.clamp01 x = PyFloat.one).
Proof.
  intros [H0 H1].
  unfold PyFloat.clamp01, PyFloat.py_max, PyFloat.py_min.
  unfold SFleb in H0, H1. unfold SFltb, SFeqb.
  destruct (SFcompare x PyFloat.one) as [[| |]|] eqn:C1; try discriminate.
  - right; right. split; reflexivity.
  - destruct (SFcompare PyFloat.zero x) as [[| |]|] eqn:C0; try discriminate.
    + right; left. split; reflexivity.
    + left; reflexivity.
Qed.

(** ** Repairing the verdict of the model *)

Lemma in_strs_valid (c : json) :
  in_strs c VALID_CLASSIFICATIONS = true -> valid_classification c.
Proof.
  unfold in_strs, VALID_CLASSIFICATIONS, valid_classification. simpl.
  destruct c as [| | | |t| |]; simpl; try discriminate.
  destruct (String.eqb_spec t "Verified") as [->|_]; [now left|].
  destruct (String.eqb_spec t "Misinformation") as [->|_]; [now right; left|].
  destruct (String.eqb_spec t "Unverifiable") as [->|_]; [now right; right|].
  discriminate.
Qed.

Lemma repair_not_object (result : json) (all_search_results : list SearchResult) :
  (forall d, result <> JDict d) ->
  repair result all_search_results = Raise AttributeError.
Proof.
  intros Hshape. destruct result; try reflexivity. exfalso. exact (Hshape _ eq_refl).
Qed.

(** What a repaired object holds, field by field. *)
Lemma repair_spec (d : pydict) (all_search_results : list SearchResult) (v : pydict) :
  repair (JDict d) all_search_results = Ret v ->
  PyDict.lookup "classification" v
  = Some (if in_strs (PyDict.get d "classification" JNull) VALID_CLASSIFICATIONS
          then PyDict.get d "classification" JNull else JStr "Unverifiable")
  /\ (if is_int_or_float (PyDict.get d "confidence" JNull)
      then exists f, py_float (PyDict.get d "confidence" JNull) = Ret f
                     /\ PyDict.lookup "confidence" v = Some (JFloat (PyFloat.clamp01 f))
      else PyDict.lookup "confidence" v = Some (JFloat PyFloat.half))
  /\ PyDict.lookup "reason" v
     = Some (if truthy (PyDict.get d "reason" JNull)
             then PyDict.get d "reason" JNull else JStr DEFAULT_REASON)
  /\ PyDict.lookup "sources" v = Some (links_of (firstn 5 all_search_results))
  /\ PyDict.lookup "search_results" v = Some (dicts_of (firstn 5 all_search_results)).
Proof.
  unfold repair.
  set (d1 := if negb (in_strs (PyDict.get d "classification" JNull) VALID_CLASSIFICATIONS)
             then PyDict.set "classification" (JStr "Unverifiable") d else d).
  assert (Hc1 : PyDict.lookup "classification" d1
                = Some (if in_strs (PyDict.get d "classification" JNull) VALID_CLASSIFICATIONS
                        then PyDict.get d "classification" JNull else JStr "Unverifiable")).
  { subst d1. destruct (in_strs _ _) eqn:Hin; simpl; [|now dict_simpl].
    unfold PyDict.get in *. destruct (PyDict.lookup "classification" d); [reflexivity|].
    discriminate Hin. }
  assert (Hx1 : PyDict.get d1 "confidence" JNull = PyDict.get d "confidence" JNull)
    by (subst d1; destruct (negb _); [now dict_simpl | reflexivity]).
  assert (Hr1 : PyDict.get d1 "reason" JNull = PyDict.get d "reason" JNull)
    by (subst d1; destruct (negb _); [now dict_simpl | reflexivity]).
  rewrite Hx1. clearbody d1.
  assert (Hfinish : forall d2 : pydict,
    PyDict.lookup "classification" d2 = PyDict.lookup "classification" d1 ->
    PyDict.get d2 "reason" JNull = PyDict.get d "reason" JNull ->
    forall conf, PyDict.lookup "confidence" d2 = Some conf ->
    forall v',
    Ret (PyDict.set "search_results" (dicts_of (firstn 5 all_search_results))
          (PyDict.set "sources" (links_of (firstn 5 all_search_results))
            (if negb (truthy (PyDict.get d2 "reason" JNull))
             then PyDict.set "reason" (JStr DEFAULT_REASON) d2 else d2))) = Ret v' ->
    PyDict.lookup "classification" v' = PyDict.lookup "classification" d1
    /\ PyDict.lookup "confidence" v' = Some conf
    /\ PyDict.lookup "reason" v'
       = Some (if truthy (PyDict.get d "reason" JNull)
               then PyDict.get d "reason" JNull else JStr DEFAULT_REASON)
    /\ PyDict.lookup "sources" v' = Some (links_of (firstn 5 all_search_results))
    /\ PyDict.lookup "search_results" v' = Some (dicts_of (firstn 5 all_search_results))).
  { intros d2 Hc2 Hr2 conf Hx2 v' Hv'. inversion Hv'; subst v'; clear Hv'.
    rewrite Hr2. destruct (truthy (PyDict.get d "reason" JNull)) eqn:Ht; simpl; dict_simpl.
    - split; [exact Hc2|]. split; [exact Hx2|]. split; [|split; reflexivity].
      unfold PyDict.get in Hr2, Ht |- *.
      destruct (PyDict.lookup "reason" d2) as [r|] eqn:Hl.
      + now rewrite Hr2.
      + rewrite <- Hr2 in Ht. discriminate Ht.
    - split; [exact Hc2|]. split; [exact Hx2|]. repeat split; reflexivity. }
  destruct (is_int_or_float (PyDict.get d "confidence" JNull)) eqn:Hnum; simpl.
  - unfold PyDict.getitem.
    assert (Hl : PyDict.lookup "confidence" d1 = Some (PyDict.get d "confidence" JNull)).
    { rewrite <- Hx1 in *. unfold PyDict.get in *.
      destruct (PyDict.lookup "confidence" d1); [reflexivity | discriminate Hnum]. }
    rewrite Hl. simpl.
    destruct (py_float (PyDict.get d "confidence" JNull)) as [f|e] eqn:Hf; simpl;
      [|discriminate].
    intros Hv.
    destruct (Hfinish (PyDict.set "confidence" (JFloat (PyFloat.clamp01 f)) d1)
                ltac:(now dict_simpl) ltac:(now dict_simpl)
                (JFloat (PyFloat.clamp01 f)) ltac:(now dict_simpl) v Hv)
      as (Gc & Gx & Gr & Gs & Ge).
    rewrite Gc, Hc1. repeat split; eauto.
  - intros Hv.
    destruct (Hfinish (PyDict.set "confidence" (JFloat PyFloat.half) d1)
                ltac:(now dict_simpl) ltac:(now dict_simpl)
                (JFloat PyFloat.half) ltac:(now dict_simpl) v Hv)
      as (Gc & Gx & Gr & Gs & Ge).
    rewrite Gc, Hc1. repeat split; eauto.
Qed.

(** An object whose confidence converts is always repaired. *)
Lemma repair_defined (d : pydict) (all_search_results : list SearchResult) :
  float_convertible (PyDict.get d "confidence" JNull) ->
  exists v, repair (JDict d) all_search_results = Ret v.
Proof.
  intros Hconv. unfold repair.
  set (d1 := if negb (in_strs (PyDict.get d "classification" JNull) VALID_CLASSIFICATIONS)
             then PyDict.set "classification" (JStr "Unverifiable") d else d).
  assert (Hx1 : PyDict.get d1 "confidence" JNull = PyDict.get d "confidence" JNull)
    by (subst d1; destruct (negb _); [now dict_simpl | reflexivity]).
  clearbody d1. rewrite Hx1.
  destruct (is_int_or_float (PyDict.get d "confidence" JNull)) eqn:Hnum; simpl; [|eauto].
  unfold PyDict.getitem.
  assert (Hl : PyDict.lookup "confidence" d1 = Some (PyDict.get d "confidence" JNull)).
  { rewrite <- Hx1 in *. unfold PyDict.get in *.
    destruct (PyDict.lookup "confidence" d1); [reflexivity | discriminate Hnum]. }
  rewrite Hl. simpl.
  destruct (PyDict.get d "confidence" JNull) as [| b | n | f | | |] eqn:Hc;
    try discriminate Hnum; simpl; eauto.
  destruct (Hconv n eq_refl) as (f & Hf). rewrite Hf. simpl. eauto.
Qed.

(** ** Synthesis *)

(** The analysis step when the model answered with a text that parses. *)
Lemma synthesize_parsed {E : Env} (text : string) (all_search_results : list SearchResult)
  (s : State) (t : string) (w : World) (j : json) :
  configured GEMINI_API_KEY = true ->
  generate_content (Prompt.analysis text all_search_results) (world s) = (Ret (Some t), w) ->
  PyStr.truthy t = true ->
  json_loads (PyStr.clean_response t) = Ret j ->
  synthesize text all_search_results s
  = (Ret (match repair j all_search_results with
          | Ret v => v
          | Raise _ => unverifiable FALLBACK_REASON (firstn 3 all_search_results)
          end),
     after_generate s (Prompt.analysis text all_search_results) w).
Proof.
  intros Hkey Hgen Ht Hparse. unfold synthesize, analysis_try, after_generate.
  rewrite Hkey. cbn [negb]. munfold. rewrite Hgen. mreduce. rewrite Ht, Hparse. mreduce.
  destruct (repair j all_search_results) as [v|e]; [reflexivity | destruct e; reflexivity].
Qed.

(** The three ways the synthesizer answers. *)
Lemma synthesize_cases {E : Env} (text : string) (all_search_results : list SearchResult)
  (s : State) :
  exists v s',
    synthesize text all_search_results s = (Ret v, s')
    /\ (v = unverifiable NO_KEY_REASON (firstn 5 all_search_results)
        \/ v = unverifiable FALLBACK_REASON (firstn 3 all_search_results)
        \/ exists d, repair (JDict d) all_search_results = Ret v).
Proof.
  unfold synthesize, analysis_try. munfold.
  destruct (configured GEMINI_API_KEY); cbn [negb]; [|eauto 10].
  mreduce.
  destruct (generate_content _ (world s)) as [[[t|]|e] w]; mreduce; eauto 10.
  destruct (PyStr.truthy t); mreduce; eauto 10.
  destruct (json_loads (PyStr.clean_response t)) as [j|e]; mreduce.
  - destruct (repair j all_search_results) as [v|e] eqn:Hrepair; mreduce.
    + destruct j as [| | | | | |d]; try discriminate Hrepair.
      eexists _, _. split; [reflexivity|]. right; right. exists d. exact Hrepair.
    + destruct e; eauto 10.
  - destruct e; eauto 10.
Qed.

Lemma links_match (shown : list SearchResult) (i : nat) :
  i < List.length (map SearchResult_dict shown) ->
  exists fields,
    nth_error (map SearchResult_dict shown) i = Some (JDict fields)
    /\ nth_error (map (fun r => JStr (link r)) shown) i = PyDict.lookup "link" fields.
Proof.
  rewrite length_map. intros Hi. rewrite !nth_error_map.
  destruct (nth_error shown i) as [r|] eqn:Hr.
  - simpl. eexists. split; reflexivity.
  - apply nth_error_None in Hr. lia.
Qed.

(** C10: in every answer of the synthesizer, on each of its three paths,
    [sources] and [search_results] are lists of the same length, at most 5,
    and the i-th source is the [link] of the i-th search result; both come
    from the first 5, or the first 3, evidence records. *)
Theorem synthesize_sources_match {E : Env} (text : string)
  (all_search_results : list SearchResult) (s : State) :
  exists v s' shown srcs recs,
    synthesize text all_search_results s = (Ret v, s')
    /\ (shown = firstn 5 all_search_results \/ shown = firstn 3 all_search_results)
    /\ srcs = map (fun r => JStr (link r)) shown
    /\ recs = map SearchResult_dict shown
    /\ PyDict.lookup "sources" v = Some (JList srcs)
    /\ PyDict.lookup "search_results" v = Some (JList recs)
    /\ List.length srcs = List.length recs
    /\ List.length recs <= 5
    /\ (forall i, i < List.length recs ->
          exists fields, nth_error recs i = Some (JDict fields)
                         /\ nth_error srcs i = PyDict.lookup "link" fields).
Proof.
  destruct (synthesize_cases text all_search_results s) as (v & s' & Hrun & Hcase).
  assert (Hshown : forall shown,
    (shown = firstn 5 all_search_results \/ shown = firstn 3 all_search_results) ->
    PyDict.lookup "sources" v = Some (links_of shown) ->
    PyDict.lookup "search_results" v = Some (dicts_of shown) ->
    exists v s' shown srcs recs,
      synthesize text all_search_results s = (Ret v, s')
      /\ (shown = firstn 5 all_search_results \/ shown = firstn 3 all_search_results)
      /\ srcs = map (fun r => JStr (link r)) shown
      /\ recs = map SearchResult_dict shown
      /\ PyDict.lookup "sources" v = Some (JList srcs)
      /\ PyDict.lookup "search_results" v = Some (JList recs)
      /\ List.length srcs = List.length recs
      /\ List.length recs <= 5
      /\ (forall i, i < List.length recs ->
            exists fields, nth_error recs i = Some (JDict fields)
                           /\ nth_error srcs i = PyDict.lookup "link" fields)).
  { intros shown Hwhich Hs Hr.
    exists v, s', shown, (map (fun r => JStr (link r)) shown), (map SearchResult_dict shown).
    repeat (split; [first [assumption | reflexivity]|]).
    split; [now rewrite !length_map|].
    split; [|apply links_match].
    rewrite length_map. destruct Hwhich as [-> | ->].
    - apply firstn_le_length.
    - etransitivity; [apply firstn_le_length | lia]. }
  destruct Hcase as [-> | [-> | (d & Hrepair)]].
  - apply (Hshown (firstn 5 all_search_results)); auto.
  - apply (Hshown (firstn 3 all_search_results)); auto.
  - apply repair_spec in Hrepair. destruct Hrepair as (_ & _ & _ & Hs & Hr).
    apply (Hshown (firstn 5 all_search_results)); auto.
Qed.

Lemma valid_in_strs (c : json) :
  valid_classification c -> in_strs c VALID_CLASSIFICATIONS = true.
Proof. intros [-> | [-> | ->]]; reflexivity. Qed.

(** C4, as stated, fails: the answer [[]] parses as JSON, to an empty
    list, and the verdict is the technical fallback, whose sources are the
    links of the first 3 evidence records, not of the first 5, and whose
    confidence is 0.3. *)
Lemma synthesize_parsed_list_falls_back :
  @json_loads (Demo.answering "[]") (PyStr.clean_response "[]") = Ret (JList [])
  /\ exists v s',
       @synthesize (Demo.answering "[]") Demo.eiffel Demo.six_records
         (Demo.start (Demo.answering "[]") 0%Z) = (Ret v, s')
       /\ PyDict.lookup "sources" v = Some (links_of (firstn 3 Demo.six_records))
       /\ PyDict.lookup "sources" v <> Some (links_of (firstn 5 Demo.six_records))
       /\ PyDict.lookup "search_results" v <> Some (dicts_of (firstn 5 Demo.six_records))
       /\ PyDict.lookup "confidence" v = Some (JFloat PyFloat.three_tenths).
Proof.
  split; [reflexivity|].
  eexists _, _. split; [vm_compute; reflexivity|].
  split; [reflexivity|]. split; [|split; [|reflexivity]]; vm_compute; discriminate.
Qed.

(** C4, amended: whenever the model's response parses to a JSON object
    whose confidence is not an integer too large for a float, the verdict is
    that object repaired: a classification outside the three values becomes
    [Unverifiable] and one of them is kept; a confidence that is neither a
    number nor a boolean becomes 0.5 and a number is converted and clamped
    into the unit interval; a missing or falsy reason becomes the non-empty
    default and any other reason is kept; sources and search results are the
    links and the records of the first 5 evidence records, whatever the
    model wrote there.  Whenever the response parses to JSON that is not an
    object, the verdict is the technical fallback: [Unverifiable], the
    reason of the fallback, confidence 0.3, and the links and the records of
    the first 3 evidence records. *)
Theorem synthesize_repairs_object {E : Env} (text : string)
  (all_search_results : list SearchResult) (s : State) (t : string) (w : World)
  (j : json) :
  configured GEMINI_API_KEY = true ->
  generate_content (Prompt.analysis text all_search_results) (world s) = (Ret (Some t), w) ->
  PyStr.truthy t = true ->
  json_loads (PyStr.clean_response t) = Ret j ->
  (forall d, j = JDict d ->
     float_convertible (PyDict.get d "confidence" JNull) ->
     exists v,
       synthesize text all_search_results s
       = (Ret v, after_generate s (Prompt.analysis text all_search_results) w)
       /\ (valid_classification (PyDict.get d "classification" JNull) ->
           PyDict.lookup "classification" v = Some (PyDict.get d "classification" JNull))
       /\ (~ valid_classification (PyDict.get d "classification" JNull) ->
           PyDict.lookup "classification" v = Some (JStr "Unverifiable"))
       /\ (is_int_or_float (PyDict.get d "confidence" JNull) = false ->
           PyDict.lookup "confidence" v = Some (JFloat PyFloat.half))
       /\ (is_number (PyDict.get d "confidence" JNull) = true ->
           exists f, py_float (PyDict.get d "confidence" JNull) = Ret f
                     /\ PyDict.lookup "confidence" v = Some (JFloat (PyFloat.clamp01 f))
                     /\ PyFloat.in_unit (PyFloat.clamp01 f))
       /\ (truthy (PyDict.get d "reason" JNull) = false ->
           PyDict.lookup "reason" v = Some (JStr DEFAULT_REASON))
       /\ (truthy (PyDict.get d "reason" JNull) = true ->
           PyDict.lookup "reason" v = Some (PyDict.get d "reason" JNull))
       /\ PyStr.truthy DEFAULT_REASON = true
       /\ PyDict.lookup "sources" v = Some (links_of (firstn 5 all_search_results))
       /\ PyDict.lookup "search_results" v = Some (dicts_of (firstn 5 all_search_results)))
  /\ ((forall d, j <> JDict d) ->
      exists v,
        synthesize text all_search_results s
        = (Ret v, after_generate s (Prompt.analysis text all_search_results) w)
        /\ v = unverifiable FALLBACK_REASON (firstn 3 all_search_results)
        /\ PyDict.lookup "classification" v = Some (JStr "Unverifiable")
        /\ PyDict.lookup "reason" v = Some (JStr FALLBACK_REASON)
        /\ PyDict.lookup "confidence" v = Some (JFloat PyFloat.three_tenths)
        /\ PyDict.lookup "sources" v = Some (links_of (firstn 3 all_search_results))
        /\ PyDict.lookup "search_results" v
           = Some (dicts_of (firstn 3 all_search_results))).
Proof.
  intros Hkey Hgen Ht Hparse.
  pose proof (synthesize_parsed text all_search_results s t w j Hkey Hgen Ht Hparse) as Hrun.
  split.
  - intros d -> Hconv.
    destruct (repair_defined d all_search_results Hconv) as (v & Hrepair).
    exists v. split; [now rewrite Hrun, Hrepair|].
    apply repair_spec in Hrepair. destruct Hrepair as (Hc & Hx & Hr & Hs & He).
    split; [|split; [|split; [|split; [|split; [|split; [|split; [|split]]]]]]].
    + intros Hvalid. rewrite Hc. now rewrite (valid_in_strs _ Hvalid).
    + intros Hinvalid. rewrite Hc.
      destruct (in_strs _ _) eqn:Hin; [|reflexivity].
      exfalso. apply Hinvalid. now apply in_strs_valid.
    + intros Hnot. now rewrite Hnot in Hx.
    + intros Hnum.
      assert (Hyes : is_int_or_float (PyDict.get d "confidence" JNull) = true)
        by (destruct (PyDict.get d "confidence" JNull); try discriminate Hnum; reflexivity).
      rewrite Hyes in Hx. destruct Hx as (f & Hf & Hl).
      exists f. split; [exact Hf|]. split; [exact Hl|]. apply clamp01_in_unit.
    + intros Hfalsy. now rewrite Hfalsy in Hr.
    + intros Htruthy. now rewrite Htruthy in Hr.
    + reflexivity.
    + exact Hs.
    + exact He.
  - intros Hshape.
    exists (unverifiable FALLBACK_REASON (firstn 3 all_search_results)).
    split; [now rewrite Hrun, (repair_not_object j all_search_results Hshape)|].
    repeat split; reflexivity.
Qed.

Lemma synthesize_repairs_object_witness :
  configured (@GEMINI_API_KEY (Demo.answering "{}")) = true
  /\ @generate_content (Demo.answering "{}")
       (Prompt.analysis Demo.eiffel Demo.six_records) 0%Z = (Ret (Some "{}"), 0%Z)
  /\ PyStr.truthy "{}" = true
  /\ @json_loads (Demo.answering "{}") (PyStr.clean_response "{}") = Ret (JDict [])
  /\ float_convertible (PyDict.get [] "confidence" JNull)
  /\ exists v,
       @synthesize (Demo.answering "{}") Demo.eiffel Demo.six_records
         (Demo.start (Demo.answering "{}") 0%Z)
       = (Ret v, after_generate (Demo.start (Demo.answering "{}") 0%Z)
                   (Prompt.analysis Demo.eiffel Demo.six_records) 0%Z)
       /\ PyDict.lookup "confidence" v = Some (JFloat PyFloat.half)
       /\ PyDict.lookup "sources" v = Some (links_of (firstn 5 Demo.six_records)).
Proof.
  assert (H1 : configured (@GEMINI_API_KEY (Demo.answering "{}")) = true) by reflexivity.
  assert (H2 : @generate_content (Demo.answering "{}")
                 (Prompt.analysis Demo.eiffel Demo.six_records) 0%Z
               = (Ret (Some "{}"), 0%Z)) by reflexivity.
  assert (H3 : PyStr.truthy "{}" = true) by reflexivity.
  assert (H4 : @json_loads (Demo.answering "{}") (PyStr.clean_response "{}")
               = Ret (JDict [])) by reflexivity.
  assert (H5 : float_convertible (PyDict.get [] "confidence" JNull))
    by (intros n Hn; discriminate Hn).
  refine (conj H1 (conj H2 (conj H3 (conj H4 (conj H5 _))))).
  destruct (proj1 (@synthesize_repairs_object (Demo.answering "{}") Demo.eiffel
                     Demo.six_records (Demo.start (Demo.answering "{}") 0%Z) "{}" 0%Z
                     (JDict []) H1 H2 H3 H4) [] eq_refl H5)
    as (v & Hrun & _ & _ & Hhalf & _ & _ & _ & _ & Hsrc & _).
  exists v. split; [exact Hrun|]. split; [apply Hhalf; reflexivity | exact Hsrc].
Defined.

(** A boolean confidence passes the test for a number: [true] becomes 1.0. *)
Example boolean_confidence_is_converted :
  exists v,
    repair (JDict [("confidence", JBool true)]) [] = Ret v
    /\ PyDict.lookup "confidence" v = Some (JFloat PyFloat.one).
Proof. eexists. split; vm_compute; reflexivity. Qed.

(** An integer confidence beyond the range of a float makes the repair
    raise, which sends the synthesizer to its fallback. *)
Example huge_confidence_overflows :
  repair (JDict [("confidence", JInt (10 ^ 400))]) [] = Raise OverflowError.
Proof. vm_compute. reflexivity. Qed.

(** ** The orchestrator *)

Lemma unverifiable_well_formed (why : string) (shown : list SearchResult) :
  well_formed_verdict (unverifiable why shown).
Proof.
  exists (JStr "Unverifiable"), (JStr why), (JFloat PyFloat.three_tenths).
  repeat split; try reflexivity.
  - right; right; reflexivity.
  - exists PyFloat.three_tenths. repeat split; reflexivity.
Qed.

Lemma repaired_well_formed (d : pydict) (all_search_results : list SearchResult)
  (v : pydict) :
  repair (JDict d) all_search_results = Ret v -> well_formed_verdict v.
Proof.
  intros Hrepair. apply repair_spec in Hrepair.
  destruct Hrepair as (Hc & Hx & Hr & _ & _).
  assert (Hconf : exists x, PyDict.lookup "confidence" v = Some x /\ unit_confidence x).
  { destruct (is_int_or_float _).
    - destruct Hx as (f & _ & Hl). exists (JFloat (PyFloat.clamp01 f)).
      split; [exact Hl|]. exists (PyFloat.clamp01 f).
      split; [reflexivity | apply clamp01_in_unit].
    - exists (JFloat PyFloat.half). split; [exact Hx|].
      exists PyFloat.half. repeat split; reflexivity. }
  destruct Hconf as (x & Hl & Hunit).
  unfold well_formed_verdict.
  eexists _, _, x. split; [exact Hc|]. split.
  { destruct (in_strs _ _) eqn:Hin; [now apply in_strs_valid | right; right; reflexivity]. }
  split; [exact Hr|]. split; assumption.
Qed.

Lemma synthesize_well_formed {E : Env} (text : string)
  (all_search_results : list SearchResult) (s : State) (v : pydict) (s' : State) :
  synthesize text all_search_results s = (Ret v, s') -> well_formed_verdict v.
Proof.
  intros Hrun.
  destruct (synthesize_cases text all_search_results s) as (v0 & s0 & Hrun0 & Hcase).
  rewrite Hrun0 in Hrun. inversion Hrun; subst.
  destruct Hcase as [-> | [-> | (d & Hrepair)]].
  - apply unverifiable_well_formed.
  - apply unverifiable_well_formed.
  - exact (repaired_well_formed d all_search_results v Hrepair).
Qed.

Lemma aggregate_total {E : Env} (claims : list json) (s : State) :
  exists results s', aggregate claims s = (Ret results, s').
Proof.
  unfold aggregate. destruct (search_tasks claims) as [|t ts]; [unfold ret; eauto|].
  unfold bind, gather, ret. destruct (run_all (t :: ts) s). eauto.
Qed.

(** The verification itself never raises. *)
Lemma verify_with_ai_and_search_total {E : Env} (text : string) (s : State) :
  exists v s', verify_with_ai_and_search text s = (Ret v, s') /\ well_formed_verdict v.
Proof.
  unfold verify_with_ai_and_search, bind.
  destruct (extract_total text s) as (c & cs & s1 & ->).
  destruct (aggregate_total (c :: cs) s1) as (results & s2 & ->).
  destruct (synthesize_cases text results s2) as (v & s3 & Hrun & _).
  exists v, s3. split; [exact Hrun|]. exact (synthesize_well_formed _ _ _ _ _ Hrun).
Qed.

(** The response literal built from a well-formed verdict. *)
Lemma build_response_well_formed {E : Env} (start_time : Z) (v : pydict) (s : State) :
  well_formed_verdict v ->
  exists r s',
    build_response start_time v s = (Ret r, s')
    /\ valid_classification (classification r) /\ unit_confidence (confidence r).
Proof.
  intros (c & rs & x & Hc & Hvalid & Hr & Hx & Hunit).
  unfold build_response, PyDict.getitem, PyDict.get. munfold. rewrite Hc, Hr, Hx. mreduce.
  destruct (datetime_now (world s)) as [t1 w1]. mreduce.
  destruct (datetime_now w1) as [t2 w2]. mreduce.
  eexists _, _. split; [reflexivity|]. split; assumption.
Qed.

Lemma degraded_response_spec {E : Env} (start_time : Z) (s : State) :
  exists t1 s1 t2 s2,
    now s = (Ret t1, s1) /\ now s1 = (Ret t2, s2)
    /\ degraded_response start_time s
       = (Ret {| classification := JStr "Unverifiable";
                 reason := JStr SERVICE_ERROR_REASON;
                 sources := JList [];
                 search_results := JList [];
                 confidence := JFloat PyFloat.zero;
                 timestamp := t1;
                 processing_time := t2 - start_time |}, s2).
Proof.
  unfold degraded_response. munfold. mreduce.
  destruct (datetime_now (world s)) as [t1 w1] eqn:H1.
  destruct (datetime_now w1) as [t2 w2] eqn:H2.
  exists t1, {| world := w1; trace := trace s |}, t2, {| world := w2; trace := trace s |}.
  mreduce. rewrite H2. repeat split; reflexivity.
Qed.

(** C1: for every text whose trimmed length is between 10 and 5000 the
    orchestrator returns a response whose classification is one of
    [Verified], [Misinformation], [Unverifiable] and whose confidence is a
    float between 0.0 and 1.0, whatever the model, the search and the clock
    answer. *)
Theorem verify_news_well_formed {E : Env} (text : string) (s : State) :
  (10 <= PyStr.len (PyStr.strip text) <= 5000)%Z ->
  exists r s',
    verify_news text s = (Ret r, s')
    /\ valid_classification (classification r)
    /\ unit_confidence (confidence r).
Proof.
  intros _. unfold verify_news, verify_news_with.
  unfold bind at 1. unfold now at 1.
  destruct (datetime_now (world s)) as [t0 w0]. mreduce.
  unfold try_except, bind.
  destruct (verify_with_ai_and_search_total text {| world := w0; trace := trace s |})
    as (v & s1 & -> & Hv).
  destruct (build_response_well_formed t0 v s1 Hv) as (r & s2 & -> & Hc & Hx).
  eauto.
Qed.

Lemma verify_news_well_formed_witness :
  (10 <= PyStr.len (PyStr.strip Demo.eiffel) <= 5000)%Z
  /\ exists r s',
       @verify_news (Demo.answering "{}") Demo.eiffel (Demo.start (Demo.answering "{}") 0%Z)
       = (Ret r, s')
       /\ valid_classification (classification r)
       /\ unit_confidence (confidence r).
Proof.
  assert (H : (10 <= PyStr.len (PyStr.strip Demo.eiffel) <= 5000)%Z)
    by (assert (Hlen : PyStr.len (PyStr.strip Demo.eiffel) = 67%Z) by reflexivity;
        rewrite Hlen; lia).
  exact (conj H (@verify_news_well_formed (Demo.answering "{}") Demo.eiffel
                   (Demo.start (Demo.answering "{}") 0%Z) H)).
Defined.

(** C2: whenever the verification raises, at whatever point, the
    orchestrator returns the degraded response: classification
    [Unverifiable], the service-error reason, confidence 0.0, no sources, no
    search results, a timestamp read after the failure, and the time elapsed
    from the start to a reading after the failure.  Nothing is raised to the
    caller. *)
Theorem verify_news_degrades {E : Env} (pipeline : string -> M pydict) (text : string)
  (s : State) (t0 : Z) (s0 : State) (e : exn) (s1 : State) :
  now s = (Ret t0, s0) ->
  pipeline text s0 = (Raise e, s1) ->
  exists t1 s2 t2 s3,
    now s1 = (Ret t1, s2) /\ now s2 = (Ret t2, s3)
    /\ verify_news_with pipeline text s
       = (Ret {| classification := JStr "Unverifiable";
                 reason := JStr SERVICE_ERROR_REASON;
                 sources := JList [];
                 search_results := JList [];
                 confidence := JFloat PyFloat.zero;
                 timestamp := t1;
                 processing_time := t2 - t0 |}, s3).
Proof.
  intros Hstart Hraise.
  destruct (degraded_response_spec t0 s1) as (t1 & s2 & t2 & s3 & H1 & H2 & Hresp).
  exists t1, s2, t2, s3. split; [exact H1|]. split; [exact H2|].
  unfold verify_news_with. unfold bind at 1. rewrite Hstart.
  unfold try_except, bind. rewrite Hraise. exact Hresp.
Qed.

Lemma verify_news_degrades_witness :
  @now (Demo.answering "{}") (Demo.start (Demo.answering "{}") 0%Z)
  = (Ret 0%Z, Demo.start (Demo.answering "{}") 1000%Z)
  /\ @Demo.broken_pipeline (Demo.answering "{}") Demo.eiffel
       (Demo.start (Demo.answering "{}") 1000%Z)
     = (Raise (OtherError "unexpected fault"), Demo.start (Demo.answering "{}") 1000%Z)
  /\ exists t1 s2 t2 s3,
       @now (Demo.answering "{}") (Demo.start (Demo.answering "{}") 1000%Z) = (Ret t1, s2)
       /\ now s2 = (Ret t2, s3)
       /\ @verify_news_with (Demo.answering "{}") Demo.broken_pipeline Demo.eiffel
            (Demo.start (Demo.answering "{}") 0%Z)
          = (Ret {| classification := JStr "Unverifiable";
                    reason := JStr SERVICE_ERROR_REASON;
                    sources := JList [];
                    search_results := JList [];
                    confidence := JFloat PyFloat.zero;
                    timestamp := t1;
                    processing_time := t2 - 0 |}, s3).
Proof.
  assert (H1 : @now (Demo.answering "{}") (Demo.start (Demo.answering "{}") 0%Z)
               = (Ret 0%Z, Demo.start (Demo.answering "{}") 1000%Z)) by reflexivity.
  assert (H2 : @Demo.broken_pipeline (Demo.answering "{}") Demo.eiffel
                 (Demo.start (Demo.answering "{}") 1000%Z)
               = (Raise (OtherError "unexpected fault"),
                  Demo.start (Demo.answering "{}") 1000%Z)) by reflexivity.
  exact (conj H1 (conj H2
    (@verify_news_degrades (Demo.answering "{}") Demo.broken_pipeline Demo.eiffel
       _ _ _ _ _ H1 H2))).
Defined.

(** The orchestrator never raises, whatever the verification does. *)
Lemma verify_news_with_total {E : Env} (pipeline : string -> M pydict) (text : string)
  (s : State) :
  exists r s', verify_news_with pipeline text s = (Ret r, s').
Proof.
  unfold verify_news_with, build_response, degraded_response. munfold.
  msplit; eauto.
Qed.

(* ================================================================== *)
(** * Further properties of the code *)

(** ** Trimming *)

Lemma lstrip_split (s : string) :
  exists l, s = (l ++ PyStr.lstrip s)%string /\ all_space l = true.
Proof.
  induction s as [|c s (l & Hs & Hl)]; simpl.
  - exists ""%string. split; reflexivity.
  - destruct (PyStr.isspace c) eqn:Hc.
    + exists (String c l). simpl. rewrite Hc, Hl. split; [now rewrite <- Hs | reflexivity].
    + exists ""%string. split; reflexivity.
Qed.

Lemma rstrip_split (s : string) :
  exists r, s = (PyStr.rstrip s ++ r)%string /\ all_space r = true.
Proof.
  induction s as [|c s (r & Hs & Hr)]; simpl.
  - exists ""%string. split; reflexivity.
  - destruct (PyStr.rstrip s) as [|c' r0] eqn:Hrs.
    + simpl in Hs. subst r. destruct (PyStr.isspace c) eqn:Hc.
      * exists (String c s). simpl. rewrite Hc, Hr. split; reflexivity.
      * exists s. split; [reflexivity | exact Hr].
    + exists r. simpl. split; [now rewrite Hs at 1 | exact Hr].
Qed.

Lemma lstrip_head (s : string) (c : ascii) (t : string) :
  PyStr.lstrip s = String c t -> PyStr.isspace c = false.
Proof.
  induction s as [|a s IH]; simpl; [discriminate|].
  destruct (PyStr.isspace a) eqn:Ha; [exact IH|].
  intros H. inversion H; subst. exact Ha.
Qed.

Lemma rstrip_keeps_head (c : ascii) (s : string) :
  PyStr.isspace c = false -> exists t, PyStr.rstrip (String c s) = String c t.
Proof.
  intros Hc. simpl. destruct (PyStr.rstrip s); [rewrite Hc|]; eauto.
Qed.

Lemma rstrip_last (s t : string) (c : ascii) :
  PyStr.rstrip s = (t ++ String c "")%string -> PyStr.isspace c = false.
Proof.
  revert t. induction s as [|a s IH]; intros t; simpl.
  - destruct t; discriminate.
  - destruct (PyStr.rstrip s) as [|c' r0] eqn:Hrs.
    + destruct (PyStr.isspace a) eqn:Ha.
      * destruct t; discriminate.
      * destruct t as [|b t]; simpl; intros H; inversion H; subst; [exact Ha|].
        destruct t; discriminate.
    + destruct t as [|b t]; simpl; intros H; inversion H; subst.
      apply (IH t). assumption.
Qed.

Lemma rstrip_idempotent (s : string) : PyStr.rstrip (PyStr.rstrip s) = PyStr.rstrip s.
Proof.
  induction s as [|a s IH]; simpl; [reflexivity|].
  destruct (PyStr.rstrip s) as [|c' r0] eqn:Hrs.
  - destruct (PyStr.isspace a) eqn:Ha; simpl; [reflexivity | now rewrite Ha].
  - change (PyStr.rstrip (String a (String c' r0)))
      with (match PyStr.rstrip (String c' r0) with
            | EmptyString => if PyStr.isspace a then EmptyString else String a EmptyString
            | String x r => String a (String x r)
            end).
    rewrite IH. reflexivity.
Qed.

Lemma strip_head (s : string) (c : ascii) (t : string) :
  PyStr.strip s = String c t -> PyStr.isspace c = false.
Proof.
  unfold PyStr.strip. destruct (PyStr.lstrip s) as [|a u] eqn:Hl; [discriminate|].
  pose proof (lstrip_head _ _ _ Hl) as Ha.
  destruct (rstrip_keeps_head a u Ha) as (t' & ->). intros H. inversion H; subst. exact Ha.
Qed.

Lemma strip_idempotent (s : string) : PyStr.strip (PyStr.strip s) = PyStr.strip s.
Proof.
  destruct (PyStr.strip s) as [|c t] eqn:Hs; [reflexivity|].
  pose proof (strip_head _ _ _ Hs) as Hc.
  unfold PyStr.strip at 1. cbn [PyStr.lstrip]. rewrite Hc.
  rewrite <- Hs. unfold PyStr.strip. apply rstrip_idempotent.
Qed.

Lemma lstrip_empty (s : string) : PyStr.lstrip s = ""%string <-> all_space s = true.
Proof.
  induction s as [|c s IH]; simpl; [tauto|].
  destruct (PyStr.isspace c); simpl; [exact IH|]. split; discriminate.
Qed.

Lemma strip_empty (s : string) : PyStr.strip s = ""%string <-> all_space s = true.
Proof.
  rewrite <- lstrip_empty. unfold PyStr.strip.
  destruct (PyStr.lstrip s) as [|a u] eqn:Hl; [simpl; tauto|].
  destruct (rstrip_keeps_head a u (lstrip_head _ _ _ Hl)) as (t & ->).
  split; discriminate.
Qed.

Lemma string_last (s : string) :
  s <> ""%string -> exists t c, s = (t ++ String c "")%string.
Proof.
  induction s as [|a s IH]; [congruence|]. intros _.
  destruct s as [|b s].
  - exists ""%string, a. reflexivity.
  - destruct IH as (t & c & Ht); [discriminate|].
    exists (String a t), c. simpl. now rewrite <- Ht.
Qed.

Lemma truthy_nonempty (s : string) : PyStr.truthy s = true <-> s <> ""%string.
Proof. destruct s; simpl; split; congruence. Qed.

(** ** Request validation, continued *)

(** An accepted text is the submitted text with leading and trailing
    whitespace removed and nothing else changed: the submitted text is the
    accepted one between two runs of whitespace, and the accepted text
    neither starts nor ends with a whitespace character. *)
Theorem validate_text_trims_only (v t : string) :
  validate_text v = Ret t ->
  (exists l r, v = (l ++ t ++ r)%string /\ all_space l = true /\ all_space r = true)
  /\ (exists c t', t = String c t' /\ PyStr.isspace c = false)
  /\ (exists t' c, t = (t' ++ String c "")%string /\ PyStr.isspace c = false).
Proof.
  intros Hv.
  destruct (validate_text_cases v) as [(Hok & H10 & _) | ((msg & Hbad) & _)]; [|congruence].
  rewrite Hok in Hv. inversion Hv; subst t; clear Hv.
  split; [|split].
  - destruct (lstrip_split v) as (l & Hl & Hsl).
    destruct (rstrip_split (PyStr.lstrip v)) as (r & Hr & Hsr).
    exists l, r. unfold PyStr.strip. split; [|split; assumption].
    rewrite <- Hr. exact Hl.
  - destruct (PyStr.strip v) as [|c t'] eqn:Hs; [unfold PyStr.len in H10; simpl in H10; lia|].
    exists c, t'. split; [reflexivity|]. exact (strip_head _ _ _ Hs).
  - destruct (string_last (PyStr.strip v)) as (t' & c & Ht).
    { intros Hempty. rewrite Hempty in H10. unfold PyStr.len in H10. simpl in H10. lia. }
    exists t', c. split; [exact Ht|]. unfold PyStr.strip in Ht. exact (rstrip_last _ _ _ Ht).
Qed.

Lemma validate_text_trims_only_witness :
  validate_text "  Rain is expected in Paris.  " = Ret "Rain is expected in Paris."
  /\ (exists l r, "  Rain is expected in Paris.  "
                  = (l ++ "Rain is expected in Paris." ++ r)%string
                  /\ all_space l = true /\ all_space r = true)
  /\ (exists c t', "Rain is expected in Paris." = String c t' /\ PyStr.isspace c = false)
  /\ (exists t' c, "Rain is expected in Paris." = (t' ++ String c "")%string
                   /\ PyStr.isspace c = false).
Proof.
  assert (H : validate_text "  Rain is expected in Paris.  " = Ret "Rain is expected in Paris.")
    by (vm_compute; reflexivity).
  exact (conj H (validate_text_trims_only _ _ H)).
Defined.

(** Validation is idempotent: the text it accepts is accepted again, as
    it is. *)
Theorem validate_text_idempotent (v t : string) :
  validate_text v = Ret t -> validate_text t = Ret t.
Proof.
  intros Hv.
  destruct (validate_text_cases v) as [(Hok & H10 & H5) | ((msg & Hbad) & _)]; [|congruence].
  rewrite Hok in Hv. inversion Hv; subst t; clear Hv.
  pose proof (strip_len v) as Hle.
  destruct (validate_text_cases (PyStr.strip v)) as [(Hok' & _) | (_ & Hwhy)].
  - now rewrite strip_idempotent in Hok'.
  - rewrite strip_idempotent in Hwhy. lia.
Qed.

Lemma validate_text_idempotent_witness :
  validate_text "  Rain is expected in Paris.  " = Ret "Rain is expected in Paris."
  /\ validate_text "Rain is expected in Paris." = Ret "Rain is expected in Paris.".
Proof.
  assert (H : validate_text "  Rain is expected in Paris.  " = Ret "Rain is expected in Paris.")
    by (vm_compute; reflexivity).
  exact (conj H (validate_text_idempotent _ _ H)).
Defined.

(** Which of the three messages a rejected text gets.  The checks run in
    order: a text of whitespace only, however long, is reported as empty;
    the length limit is reported only for a text whose trimmed length
    reaches 10. *)
Theorem validate_text_messages (v : string) :
  (validate_text v = Raise (ValueError "Text field cannot be empty")
   <-> all_space v = true)
  /\ (validate_text v = Raise (ValueError "Text must be at least 10 characters long")
      <-> all_space v = false /\ (PyStr.len (PyStr.strip v) < 10)%Z)
  /\ (validate_text v = Raise (ValueError "Text cannot exceed 5000 characters")
      <-> (10 <= PyStr.len (PyStr.strip v))%Z /\ (5000 < PyStr.len v)%Z).
Proof.
  assert (Hempty : PyStr.truthy v && PyStr.truthy (PyStr.strip v) = negb (all_space v)).
  { destruct (all_space v) eqn:Hs; simpl.
    - apply strip_empty in Hs. rewrite Hs. apply andb_false_r.
    - assert (Hne : PyStr.strip v <> ""%string)
        by (intros H; apply strip_empty in H; congruence).
      apply truthy_nonempty in Hne. rewrite Hne.
      destruct v; [discriminate Hs | reflexivity]. }
  unfold validate_text. rewrite <- negb_andb, Hempty, negb_involutive.
  assert (Hlen : all_space v = true -> PyStr.len (PyStr.strip v) = 0%Z)
    by (intros H; apply strip_empty in H; now rewrite H).
  destruct (all_space v) eqn:Hs; [specialize (Hlen eq_refl) | clear Hlen];
    [| destruct (PyStr.len (PyStr.strip v) <? 10)%Z eqn:H10;
       [| destruct (PyStr.len v >? 5000)%Z eqn:H5 ] ];
    (split; [|split]);
    (split; intros H);
    first [ reflexivity
          | discriminate H
          | destruct H; first [discriminate | lia]
          | split; first [reflexivity | lia]
          | lia ].
Qed.

(** ** Code fences *)

Arguments PyStr.fence_match : simpl never.

Lemma sub_fences_from_cons (c : ascii) (s : string) :
  PyStr.sub_fences_from 0 (String c s)
  = match PyStr.fence_match (String c s) with
    | O => String c (PyStr.sub_fences_from 0 s)
    | S k => PyStr.sub_fences_from k s
    end.
Proof. reflexivity. Qed.

Lemma fence_match_zero (s : string) :
  PyStr.fence_match s = 0 <-> PyStr.startswith PyStr.backticks s = false.
Proof.
  unfold PyStr.fence_match. destruct (PyStr.startswith PyStr.backticks s); simpl.
  - split; discriminate.
  - split; reflexivity.
Qed.

Lemma startswith_cons (a : ascii) (p : string) (c : ascii) (s : string) :
  PyStr.startswith (String a p) (String c s)
  = if ascii_dec a c then PyStr.startswith p s else false.
Proof. unfold PyStr.startswith. simpl. destruct (ascii_dec a c); reflexivity. Qed.

Lemma startswith_empty (a : ascii) (p : string) :
  PyStr.startswith (String a p) "" = false.
Proof. reflexivity. Qed.

Lemma startswith_nil (s : string) : PyStr.startswith "" s = true.
Proof. destruct s; reflexivity. Qed.

(** A character that is not a backtick starts no fence. *)
Lemma fence_match_other (c : ascii) (s : string) :
  c <> "`"%char -> PyStr.fence_match (String c s) = 0.
Proof.
  intros Hc. apply fence_match_zero. unfold PyStr.backticks. rewrite startswith_cons.
  destruct (ascii_dec "`" c); [congruence | reflexivity].
Qed.

Lemma sub_fences_head1 (s : string) :
  PyStr.startswith "`" s = false ->
  PyStr.startswith "`" (PyStr.sub_fences_from 0 s) = false.
Proof.
  destruct s as [|c s]; [reflexivity|].
  rewrite startswith_cons. destruct (ascii_dec "`" c) as [<-|Hc];
    [rewrite startswith_nil; discriminate|].
  intros _. rewrite sub_fences_from_cons, fence_match_other by congruence.
  rewrite startswith_cons. destruct (ascii_dec "`" c); [congruence | reflexivity].
Qed.

Lemma sub_fences_head2 (s : string) :
  PyStr.startswith "``" s = false ->
  PyStr.startswith "``" (PyStr.sub_fences_from 0 s) = false.
Proof.
  destruct s as [|c s]; [reflexivity|].
  rewrite startswith_cons. destruct (ascii_dec "`" c) as [<-|Hc].
  - intros Hs.
    assert (H0 : PyStr.fence_match (String "`" s) = 0).
    { apply fence_match_zero. unfold PyStr.backticks. rewrite startswith_cons.
      destruct (ascii_dec "`" "`"); [|reflexivity].
      destruct s as [|b s]; [reflexivity|].
      rewrite startswith_cons in Hs |- *.
      destruct (ascii_dec "`" b); [rewrite startswith_nil in Hs; discriminate | reflexivity]. }
    rewrite sub_fences_from_cons, H0, startswith_cons.
    destruct (ascii_dec "`" "`"); [|reflexivity]. now apply sub_fences_head1.
  - intros _. rewrite sub_fences_from_cons, fence_match_other by congruence.
    rewrite startswith_cons. destruct (ascii_dec "`" c); [congruence | reflexivity].
Qed.

Lemma has_fence_cons (c : ascii) (s : string) :
  has_fence (String c s) = PyStr.startswith PyStr.backticks (String c s) || has_fence s.
Proof. reflexivity. Qed.

Lemma sub_fences_from_clean (skip : nat) (s : string) :
  has_fence (PyStr.sub_fences_from skip s) = false.
Proof.
  revert skip. induction s as [|c s IH]; intros skip.
  - destruct skip; reflexivity.
  - destruct skip as [|k]; [|exact (IH k)].
    rewrite sub_fences_from_cons.
    destruct (PyStr.fence_match (String c s)) as [|k] eqn:Hm; [|exact (IH k)].
    rewrite has_fence_cons, IH, orb_false_r.
    apply fence_match_zero in Hm. unfold PyStr.backticks in *.
    rewrite startswith_cons in Hm |- *.
    destruct (ascii_dec "`" c); [|reflexivity]. now apply sub_fences_head2.
Qed.

(** A text without a fence is left as it is. *)
Lemma sub_fences_fixed (s : string) :
  has_fence s = false -> PyStr.sub_fences s = s.
Proof.
  unfold PyStr.sub_fences. induction s as [|c s IH]; [reflexivity|].
  rewrite has_fence_cons. intros H. apply orb_false_iff in H as [Hhead Hrest].
  apply fence_match_zero in Hhead. rewrite sub_fences_from_cons, Hhead, IH by assumption.
  reflexivity.
Qed.

Lemma has_fence_app_space (s r : string) :
  has_fence (s ++ r)%string = false -> has_fence s = false.
Proof.
  induction s as [|c s IH]; [reflexivity|].
  change ((String c s ++ r)%string) with (String c (s ++ r)%string).
  rewrite !has_fence_cons. intros H. apply orb_false_iff in H as [Hhead Hrest].
  rewrite (IH Hrest), orb_false_r.
  unfold PyStr.backticks in *. rewrite startswith_cons in Hhead |- *.
  destruct (ascii_dec "`" c); [|reflexivity].
  destruct s as [|c1 s]; [reflexivity|].
  change ((String c1 s ++ r)%string) with (String c1 (s ++ r)%string) in Hhead.
  rewrite startswith_cons in Hhead |- *.
  destruct (ascii_dec "`" c1); [|reflexivity].
  destruct s as [|c2 s]; [reflexivity|].
  change ((String c2 s ++ r)%string) with (String c2 (s ++ r)%string) in Hhead.
  rewrite startswith_cons in Hhead |- *.
  destruct (ascii_dec "`" c2); [|reflexivity].
  rewrite startswith_nil in Hhead. discriminate.
Qed.

Lemma has_fence_app_left (l s : string) :
  has_fence (l ++ s)%string = false -> has_fence s = false.
Proof.
  induction l as [|c l IH]; [trivial|].
  change ((String c l ++ s)%string) with (String c (l ++ s)%string).
  rewrite has_fence_cons. intros H. apply orb_false_iff in H as [_ Hrest]. auto.
Qed.

(** Trimming introduces no fence. *)
Lemma strip_keeps_clean (s : string) :
  has_fence s = false -> has_fence (PyStr.strip s) = false.
Proof.
  intros Hs. unfold PyStr.strip.
  destruct (lstrip_split s) as (l & Hl & _).
  destruct (rstrip_split (PyStr.lstrip s)) as (r & Hr & _).
  rewrite Hl in Hs. apply has_fence_app_left in Hs.
  rewrite Hr in Hs. now apply has_fence_app_space in Hs.
Qed.

Lemma clean_head (s : string) :
  has_fence s = false -> PyStr.startswith PyStr.backticks s = false.
Proof.
  destruct s as [|c s]; [reflexivity|].
  rewrite has_fence_cons. intros H. now apply orb_false_iff in H as [H _].
Qed.

(** What cleaning does to the answer of the model.  When the trimmed
    answer starts with a fence, no fence is left anywhere in the cleaned
    text; when it does not, the answer is only trimmed, and fences further
    inside it stay.  Cleaning a cleaned text changes nothing. *)
Theorem clean_response_fences (text : string) :
  (PyStr.startswith PyStr.backticks (PyStr.strip text) = true ->
   has_fence (PyStr.clean_response text) = false)
  /\ (PyStr.startswith PyStr.backticks (PyStr.strip text) = false ->
      PyStr.clean_response text = PyStr.strip text)
  /\ PyStr.clean_response (PyStr.clean_response text) = PyStr.clean_response text.
Proof.
  assert (Hfixed : forall t, PyStr.strip t = t ->
            PyStr.startswith PyStr.backticks t = false -> PyStr.clean_response t = t).
  { intros t Ht Hhead. unfold PyStr.clean_response. now rewrite Ht, Hhead. }
  assert (Heq : PyStr.clean_response text
                = if PyStr.startswith PyStr.backticks (PyStr.strip text)
                  then PyStr.strip (PyStr.sub_fences (PyStr.strip text))
                  else PyStr.strip text) by reflexivity.
  rewrite Heq. clear Heq.
  destruct (PyStr.startswith PyStr.backticks (PyStr.strip text)) eqn:Hhead.
  - assert (Hclean : has_fence (PyStr.strip (PyStr.sub_fences (PyStr.strip text))) = false)
      by (apply strip_keeps_clean, sub_fences_from_clean).
    split; [intros _; exact Hclean|]. split; [discriminate|].
    apply Hfixed; [apply strip_idempotent | now apply clean_head].
  - split; [discriminate|]. split; [reflexivity|].
    apply Hfixed; [apply strip_idempotent | exact Hhead].
Qed.

Lemma rstrip_all_space (w : string) : all_space w = true -> PyStr.rstrip w = ""%string.
Proof.
  induction w as [|c w IH]; [reflexivity|]. simpl. intros H.
  apply andb_true_iff in H as [Hc Hw]. now rewrite (IH Hw), Hc.
Qed.

Lemma rstrip_app_space (u w : string) :
  all_space w = true -> PyStr.rstrip (u ++ w) = PyStr.rstrip u.
Proof.
  intros Hw. induction u as [|x u IH]; simpl; [now apply rstrip_all_space | now rewrite IH].
Qed.

Lemma lstrip_app (b w : string) :
  PyStr.lstrip (b ++ w) = if all_space b then PyStr.lstrip w else (PyStr.lstrip b ++ w)%string.
Proof.
  induction b as [|c b IH]; simpl; [reflexivity|].
  destruct (PyStr.isspace c); simpl; [exact IH | reflexivity].
Qed.

Lemma strip_app_space (b w : string) :
  all_space w = true -> PyStr.strip (b ++ w) = PyStr.strip b.
Proof.
  intros Hw. unfold PyStr.strip. rewrite lstrip_app.
  destruct (all_space b) eqn:Hb.
  - apply lstrip_empty in Hw, Hb. now rewrite Hw, Hb.
  - now apply rstrip_app_space.
Qed.

Lemma rstrip_app_kept (a b : string) :
  PyStr.rstrip b <> ""%string -> PyStr.rstrip (a ++ b) = (a ++ PyStr.rstrip b)%string.
Proof.
  intros Hb. induction a as [|x a IH]; [reflexivity|].
  change (PyStr.rstrip (String x a ++ b))
    with (match PyStr.rstrip (a ++ b) with
          | EmptyString => if PyStr.isspace x then EmptyString else String x EmptyString
          | String y r => String x (String y r)
          end).
  rewrite IH. destruct (a ++ PyStr.rstrip b)%string eqn:Hab; [|simpl; now rewrite Hab].
  destruct a; simpl in Hab; [contradiction | discriminate].
Qed.

Lemma sub_fences_no_backtick (body rest : string) :
  no_backtick body = true ->
  PyStr.sub_fences_from 0 (body ++ rest) = (body ++ PyStr.sub_fences_from 0 rest)%string.
Proof.
  induction body as [|c body IH]; [reflexivity|]. simpl no_backtick. intros H.
  apply andb_true_iff in H as [Hc Hbody].
  change ((String c body ++ rest)%string) with (String c (body ++ rest)%string).
  rewrite sub_fences_from_cons, fence_match_other.
  - now rewrite (IH Hbody).
  - intros ->. discriminate Hc.
Qed.

Lemma sub_fences_header_json (rest : string) :
  PyStr.sub_fences ("```json" ++ PyStr.newline ++ rest) = PyStr.sub_fences_from 0 rest.
Proof. unfold PyStr.sub_fences. destruct rest; reflexivity. Qed.

Lemma sub_fences_header_plain (rest : string) :
  PyStr.sub_fences ("```" ++ PyStr.newline ++ rest) = PyStr.sub_fences_from 0 rest.
Proof. unfold PyStr.sub_fences. destruct rest; reflexivity. Qed.

(** The usual answer, a body between an opening fence (with or without
    the [json] tag) on a line of its own and a closing fence, is cleaned to
    the trimmed body, when the body holds no backtick. *)
Theorem clean_response_unwraps (body : string) :
  no_backtick body = true ->
  PyStr.clean_response (Sample.fenced body) = PyStr.strip body
  /\ PyStr.clean_response
       ("```" ++ PyStr.newline ++ body ++ PyStr.newline ++ "```")%string
     = PyStr.strip body.
Proof.
  intros Hbody.
  assert (Htail : forall head : string,
    PyStr.rstrip (head ++ body ++ PyStr.newline ++ "```")
    = (head ++ body ++ PyStr.newline ++ "```")%string).
  { intros head. rewrite rstrip_app_kept; [rewrite rstrip_app_kept; [reflexivity|]|].
    - vm_compute. discriminate.
    - rewrite rstrip_app_kept; [|vm_compute; discriminate].
      destruct body; vm_compute; discriminate. }
  assert (Hrest : PyStr.strip (PyStr.sub_fences_from 0 (body ++ PyStr.newline ++ "```"))
                  = PyStr.strip body).
  { rewrite sub_fences_no_backtick by assumption.
    change (PyStr.sub_fences_from 0 (PyStr.newline ++ "```")) with PyStr.newline.
    now apply strip_app_space. }
  split.
  - unfold PyStr.clean_response, Sample.fenced.
    assert (Hstrip : PyStr.strip ("```json" ++ PyStr.newline ++ body ++ PyStr.newline ++ "```")
                     = ("```json" ++ PyStr.newline ++ body ++ PyStr.newline ++ "```")%string).
    { unfold PyStr.strip.
      change (PyStr.lstrip ("```json" ++ PyStr.newline ++ body ++ PyStr.newline ++ "```"))
        with ("```json" ++ PyStr.newline ++ (body ++ PyStr.newline ++ "```"))%string.
      apply (Htail ("```json" ++ PyStr.newline)%string). }
    rewrite Hstrip.
    change (PyStr.startswith PyStr.backticks
              ("```json" ++ PyStr.newline ++ body ++ PyStr.newline ++ "```")) with true.
    cbv iota. rewrite sub_fences_header_json. exact Hrest.
  - unfold PyStr.clean_response.
    assert (Hstrip : PyStr.strip ("```" ++ PyStr.newline ++ body ++ PyStr.newline ++ "```")
                     = ("```" ++ PyStr.newline ++ body ++ PyStr.newline ++ "```")%string).
    { unfold PyStr.strip.
      change (PyStr.lstrip ("```" ++ PyStr.newline ++ body ++ PyStr.newline ++ "```"))
        with ("```" ++ PyStr.newline ++ (body ++ PyStr.newline ++ "```"))%string.
      apply (Htail ("```" ++ PyStr.newline)%string). }
    rewrite Hstrip.
    change (PyStr.startswith PyStr.backticks
              ("```" ++ PyStr.newline ++ body ++ PyStr.newline ++ "```")) with true.
    cbv iota. rewrite sub_fences_header_plain. exact Hrest.
Qed.

Lemma clean_response_unwraps_witness :
  no_backtick "[1, 2, 3]" = true
  /\ PyStr.clean_response (Sample.fenced "[1, 2, 3]") = "[1, 2, 3]"%string.
Proof.
  assert (H : no_backtick "[1, 2, 3]" = true) by reflexivity.
  split; [exact H|]. exact (proj1 (clean_response_unwraps "[1, 2, 3]" H)).
Defined.

(** ** Search items *)

Lemma SearchResult_new_ok (t l s src : json) :
  is_str t = true -> is_str l = true -> is_str s = true -> is_str src = true ->
  exists t' l' s' src',
    t = JStr t' /\ l = JStr l' /\ s = JStr s' /\ src = JStr src'
    /\ SearchResult_new t l s src
       = Ret {| title := t'; link := l'; snippet := s'; source := src' |}.
Proof.
  destruct t; try discriminate. destruct l; try discriminate.
  destruct s; try discriminate. destruct src; try discriminate.
  intros _ _ _ _. eexists _, _, _, _. repeat split; reflexivity.
Qed.

Lemma SearchResult_new_refused (t l s src : json) :
  is_str t && is_str l && is_str s && is_str src = false ->
  SearchResult_new t l s src = Raise ValidationError.
Proof.
  destruct t; try reflexivity. destruct l; try reflexivity.
  destruct s; try reflexivity. destruct src; try reflexivity. discriminate.
Qed.

Lemma str_or_absent_get (key : string) (d : pydict) :
  str_or_absent key d = is_str (PyDict.get d key (JStr "")).
Proof.
  unfold str_or_absent, PyDict.get. destruct (PyDict.lookup key d) as [[]|]; reflexivity.
Qed.

(** When an item of the search answer is skipped, and what is kept of one
    that is not.  An item yields a record exactly when it is an object in
    which each of [title], [link], [snippet] and [displayLink] is absent or
    a string.  The record then holds the item's title, link and snippet, an
    absent one being the empty string; its source is [displayLink], or
    [link] when that is absent, without one leading [www.]. *)
Theorem parse_item_spec (item : json) :
  ((exists r, parse_item item = Ret r)
   <-> exists d, item = JDict d
                 /\ forallb (fun key => str_or_absent key d) ITEM_FIELDS = true)
  /\ (forall d r, item = JDict d -> parse_item item = Ret r ->
        JStr (title r) = PyDict.get d "title" (JStr "")
        /\ JStr (link r) = PyDict.get d "link" (JStr "")
        /\ JStr (snippet r) = PyDict.get d "snippet" (JStr "")
        /\ exists src,
             PyDict.get d "displayLink" (PyDict.get d "link" (JStr "")) = JStr src
             /\ source r = if PyStr.startswith "www." src then PyStr.drop 4 src else src).
Proof.
  assert (Hfields : forall d r, parse_item (JDict d) = Ret r ->
    exists src,
      PyDict.get d "displayLink" (PyDict.get d "link" (JStr "")) = JStr src
      /\ SearchResult_new (PyDict.get d "title" (JStr "")) (PyDict.get d "link" (JStr ""))
           (PyDict.get d "snippet" (JStr ""))
           (JStr (if PyStr.startswith "www." src then PyStr.drop 4 src else src)) = Ret r).
  { intros d r. unfold parse_item.
    destruct (PyDict.get d "displayLink" (PyDict.get d "link" (JStr ""))); try discriminate.
    intros H. eexists. split; [reflexivity | exact H]. }
  assert (Hstrs : forall d r, parse_item (JDict d) = Ret r ->
    exists src,
      PyDict.get d "displayLink" (PyDict.get d "link" (JStr "")) = JStr src
      /\ PyDict.get d "title" (JStr "") = JStr (title r)
      /\ PyDict.get d "link" (JStr "") = JStr (link r)
      /\ PyDict.get d "snippet" (JStr "") = JStr (snippet r)
      /\ source r = if PyStr.startswith "www." src then PyStr.drop 4 src else src).
  { intros d r Hr. destruct (Hfields d r Hr) as (src & Hsrc & Hnew).
    exists src. split; [exact Hsrc|].
    destruct (is_str (PyDict.get d "title" (JStr "")) && is_str (PyDict.get d "link" (JStr ""))
              && is_str (PyDict.get d "snippet" (JStr ""))) eqn:Hall.
    - apply andb_true_iff in Hall as [Hall Hs]. apply andb_true_iff in Hall as [Ht Hl].
      destruct (SearchResult_new_ok _ _ _ (JStr (if PyStr.startswith "www." src
                                                 then PyStr.drop 4 src else src))
                  Ht Hl Hs eq_refl)
        as (t' & l' & s' & src' & Et & El & Es & Hsrc' & Hok).
      rewrite Hok in Hnew. inversion Hnew; subst r; clear Hnew. inversion Hsrc'; subst src'.
      rewrite Et, El, Es. repeat split; reflexivity.
    - rewrite SearchResult_new_refused in Hnew by (rewrite Hall; reflexivity). discriminate. }
  split.
  - split.
    + intros (r & Hr). destruct item as [| | | | | |d]; try discriminate Hr.
      exists d. split; [reflexivity|].
      destruct (Hstrs d r Hr) as (src & Hsrc & Ht & Hl & Hs & _).
      unfold ITEM_FIELDS. cbn [forallb]. rewrite !(str_or_absent_get "title"),
        !(str_or_absent_get "link"), !(str_or_absent_get "snippet"), Ht, Hl, Hs.
      cbn [is_str andb]. rewrite andb_true_r.
      unfold str_or_absent. unfold PyDict.get at 1 in Hsrc.
      destruct (PyDict.lookup "displayLink" d) as [v|]; [now rewrite Hsrc | reflexivity].
    + intros (d & -> & Hall). unfold ITEM_FIELDS in Hall. cbn [forallb] in Hall.
      rewrite andb_true_r in Hall.
      apply andb_true_iff in Hall as [Ht Hall]. apply andb_true_iff in Hall as [Hl Hall].
      apply andb_true_iff in Hall as [Hs Hd].
      rewrite str_or_absent_get in Ht, Hl, Hs.
      assert (Hsrc : exists src,
                PyDict.get d "displayLink" (PyDict.get d "link" (JStr "")) = JStr src).
      { unfold str_or_absent in Hd. unfold PyDict.get at 1.
        destruct (PyDict.lookup "displayLink" d) as [v|].
        - destruct v; try discriminate Hd. eauto.
        - destruct (PyDict.get d "link" (JStr "")); try discriminate Hl. eauto. }
      destruct Hsrc as (src & Hsrc). unfold parse_item. rewrite Hsrc.
      destruct (SearchResult_new_ok _ _ _ (JStr (if PyStr.startswith "www." src
                                                 then PyStr.drop 4 src else src))
                  Ht Hl Hs eq_refl) as (t' & l' & s' & src' & _ & _ & _ & _ & Hok).
      eauto.
  - intros d r -> Hr. destruct (Hstrs d r Hr) as (src & Hsrc & Ht & Hl & Hs & Hsource).
    split; [now rewrite Ht|]. split; [now rewrite Hl|]. split; [now rewrite Hs|].
    exists src. split; assumption.
Qed.

(** ** What a request leaves in the trace *)

Lemma search_google_trace {E : Env} (query : json) (num : Z) (s : State) :
  trace (snd (search_google query num s)) = trace s ++ retrieval_events query num.
Proof.
  unfold search_google, read_results, retrieval_events. munfold.
  destruct (configured GOOGLE_SEARCH_API_KEY), (configured GOOGLE_SEARCH_ENGINE_ID);
    cbn [negb orb andb]; try reflexivity.
  msplit; mreduce; now rewrite <- app_assoc.
Qed.

(** A query that cannot be sliced, such as a number, [null] or an object
    the model put among the claims, never yields evidence: whatever the
    search answers, the retriever returns the empty list, because the line
    that logs the results slices the query inside the [try].  The request is
    sent all the same. *)
Theorem search_google_needs_sequence {E : Env} (query : json) (num : Z) (s : State) :
  sliceable query = false ->
  exists s',
    search_google query num s = (Ret [], s')
    /\ trace s' = trace s ++ retrieval_events query num.
Proof.
  intros Hq. pose proof (search_google_trace query num s) as Htrace.
  assert (Hrun : exists s', search_google query num s = (Ret [], s')).
  { unfold search_google, read_results. rewrite Hq. munfold. msplit; eauto. }
  destruct Hrun as (s' & Hrun). exists s'. rewrite Hrun in Htrace. split; assumption.
Qed.

Lemma search_google_needs_sequence_witness :
  sliceable (JInt 1889) = false
  /\ exists s',
       @search_google Sample.env (JInt 1889) 3 (Demo.start Sample.env 0%Z) = (Ret [], s')
       /\ trace s' = [EvRetrieve (JInt 1889) 3; EvHttpGet (JInt 1889) 3].
Proof.
  split; [reflexivity|].
  exact (@search_google_needs_sequence Sample.env (JInt 1889) 3
           (Demo.start Sample.env 0%Z) eq_refl).
Defined.

Lemma extract_trace {E : Env} (text : string) (s : State) :
  trace (snd (extract_key_claims text s)) = trace s ++ model_call (Prompt.extraction text).
Proof.
  unfold extract_key_claims, model_call.
  destruct (configured GEMINI_API_KEY); cbn [negb]; [|symmetry; apply app_nil_r].
  unfold extract_try. munfold. msplit; reflexivity.
Qed.

Lemma synthesize_trace {E : Env} (text : string) (evidence : list SearchResult) (s : State) :
  trace (snd (synthesize text evidence s))
  = trace s ++ model_call (Prompt.analysis text evidence).
Proof.
  unfold synthesize, model_call.
  destruct (configured GEMINI_API_KEY); cbn [negb]; [|symmetry; apply app_nil_r].
  unfold analysis_try. munfold. msplit; reflexivity.
Qed.

Lemma run_searches_trace {E : Env} (claims : list json) (s : State) :
  trace (snd (run_all (map (fun claim => search_google claim 3) claims) s))
  = trace s ++ flat_map (fun claim => retrieval_events claim 3) claims.
Proof.
  revert s. induction claims as [|claim claims IH]; intros s.
  - simpl. now rewrite app_nil_r.
  - cbn [map run_all flat_map].
    pose proof (search_google_trace claim 3 s) as Hone.
    destruct (search_google claim 3 s) as [r s1]. specialize (IH s1).
    destruct (run_all _ s1) as [rs s2]. cbn [snd] in *.
    now rewrite IH, Hone, <- app_assoc.
Qed.

Lemma aggregate_trace {E : Env} (claims : list json) (s : State) :
  trace (snd (aggregate claims s))
  = trace s ++ flat_map (fun claim => retrieval_events claim 3) (searched_claims claims).
Proof.
  unfold aggregate. rewrite search_tasks_spec.
  pose proof (run_searches_trace (searched_claims claims) s) as Htrace.
  destruct (searched_claims claims) as [|claim kept].
  - simpl. now rewrite app_nil_r.
  - cbn [map] in *. unfold gather, bind, ret.
    destruct (run_all _ s) as [slots s']. exact Htrace.
Qed.

Lemma build_response_trace {E : Env} (start_time : Z) (v : pydict) (s : State) :
  trace (snd (build_response start_time v s)) = trace s.
Proof. unfold build_response. munfold. msplit; reflexivity. Qed.

Lemma model_call_counts {E : Env} (prompt : string) :
  List.length (filter is_generate (model_call prompt)) <= 1
  /\ filter is_http_get (model_call prompt) = []
  /\ filter is_retrieve (model_call prompt) = [].
Proof. unfold model_call. destruct (configured GEMINI_API_KEY); simpl; auto. Qed.

Lemma retrieval_counts {E : Env} (claims : list json) :
  filter is_generate (flat_map (fun claim => retrieval_events claim 3) claims) = []
  /\ List.length (filter is_http_get
                    (flat_map (fun claim => retrieval_events claim 3) claims))
     <= List.length claims
  /\ List.length (filter is_retrieve
                    (flat_map (fun claim => retrieval_events claim 3) claims))
     = List.length claims.
Proof.
  induction claims as [|claim claims (Hg & Hh & Hr)]; [simpl; auto|].
  cbn [flat_map]. rewrite !filter_app, !length_app, Hg, Hr. unfold retrieval_events in *.
  destruct (configured GOOGLE_SEARCH_API_KEY && configured GOOGLE_SEARCH_ENGINE_ID);
    simpl; (split; [reflexivity | split; lia]).
Qed.

Lemma extract_without_model_state {E : Env} (text : string) (s : State) :
  configured GEMINI_API_KEY = false -> extract_key_claims text s = (Ret [JStr text], s).
Proof. intros Hkey. unfold extract_key_claims. now rewrite Hkey. Qed.

(** One run of [verify_news], step by step, and the trace it leaves. *)
Lemma verify_news_run {E : Env} (text : string) (s : State) :
  exists t0 s0 claims s1 evidence s2 r s',
    now s = (Ret t0, s0)
    /\ extract_key_claims text s0 = (Ret claims, s1)
    /\ aggregate claims s1 = (Ret evidence, s2)
    /\ verify_news text s = (Ret r, s')
    /\ trace s'
       = trace s
         ++ model_call (Prompt.extraction text)
         ++ flat_map (fun claim => retrieval_events claim 3) (searched_claims claims)
         ++ model_call (Prompt.analysis text evidence).
Proof.
  destruct (datetime_now (world s)) as [t0 w0] eqn:Hnow.
  set (s0 := {| world := w0; trace := trace s |}).
  assert (Hstart : now s = (Ret t0, s0)) by (unfold now; now rewrite Hnow).
  destruct (extract_total text s0) as (c & cs & s1 & He).
  pose proof (extract_trace text s0) as Te. rewrite He in Te. cbn [snd] in Te.
  destruct (aggregate_total (c :: cs) s1) as (evidence & s2 & Ha).
  pose proof (aggregate_trace (c :: cs) s1) as Ta. rewrite Ha in Ta. cbn [snd] in Ta.
  destruct (synthesize_cases text evidence s2) as (v & s3 & Hs & _).
  pose proof (synthesize_trace text evidence s2) as Ts. rewrite Hs in Ts. cbn [snd] in Ts.
  pose proof (synthesize_well_formed _ _ _ _ _ Hs) as Hv.
  destruct (build_response_well_formed t0 v s3 Hv) as (r & s4 & Hb & _).
  pose proof (build_response_trace t0 v s3) as Tb. rewrite Hb in Tb. cbn [snd] in Tb.
  exists t0, s0, (c :: cs), s1, evidence, s2, r, s4.
  split; [exact Hstart|]. split; [exact He|]. split; [exact Ha|].
  split.
  { unfold verify_news, verify_news_with. unfold bind at 1. rewrite Hstart.
    unfold try_except, bind, verify_with_ai_and_search, bind.
    now rewrite He, Ha, Hs, Hb. }
  rewrite Tb, Ts, Ta, Te. subst s0. cbn [trace]. now rewrite <- !app_assoc.
Qed.

(** The calls one request makes.  The trace of [verify_news] grows by: the
    extraction call of the model, then for every searched claim its
    retrieval and (with the search configured) its request, then the
    analysis call of the model, whose prompt is built from the evidence the
    retrievals returned.  So one request calls the model at most twice and
    sends at most three search requests, whatever the model and the search
    answer. *)
Theorem verify_news_calls {E : Env} (text : string) (s : State) :
  exists t0 s0 claims s1 evidence s2 r s',
    now s = (Ret t0, s0)
    /\ extract_key_claims text s0 = (Ret claims, s1)
    /\ aggregate claims s1 = (Ret evidence, s2)
    /\ verify_news text s = (Ret r, s')
    /\ trace s'
       = trace s
         ++ model_call (Prompt.extraction text)
         ++ flat_map (fun claim => retrieval_events claim 3) (searched_claims claims)
         ++ model_call (Prompt.analysis text evidence)
    /\ List.length (filter is_generate (trace s'))
       <= List.length (filter is_generate (trace s)) + 2
    /\ List.length (filter is_retrieve (trace s'))
       <= List.length (filter is_retrieve (trace s)) + 3
    /\ List.length (filter is_http_get (trace s'))
       <= List.length (filter is_http_get (trace s)) + 3.
Proof.
  destruct (verify_news_run text s)
    as (t0 & s0 & claims & s1 & evidence & s2 & r & s' & Hstart & He & Ha & Hrun & Htrace).
  exists t0, s0, claims, s1, evidence, s2, r, s'.
  do 5 (split; [assumption|]).
  rewrite Htrace, !filter_app, !length_app.
  destruct (model_call_counts (Prompt.extraction text)) as (G1 & H1 & R1).
  destruct (model_call_counts (Prompt.analysis text evidence)) as (G2 & H2 & R2).
  destruct (retrieval_counts (searched_claims claims)) as (G3 & H3 & R3).
  pose proof (searched_claims_length claims) as Hthree.
  rewrite H1, H2, R1, R2, G3, R3. cbn [List.length]. repeat split; lia.
Qed.

(** The service without a usable model key.  The whole text, not a
    prefix of it, is the one claim; it is searched once, unless it is the
    sentinel itself; the model is never called; and the verdict is
    [Unverifiable] with confidence 0.3, the reason naming the missing key,
    and the first five records found.  Without the search credentials
    as well, no request is sent and the verdict lists no source. *)
Theorem verify_without_model {E : Env} (text : string) (s : State) :
  configured GEMINI_API_KEY = false ->
  exists evidence s',
    verify_with_ai_and_search text s
    = (Ret (unverifiable NO_KEY_REASON (firstn 5 evidence)), s')
    /\ aggregate [JStr text] s = (Ret evidence, s')
    /\ trace s'
       = trace s ++ (if String.eqb text NO_CLAIMS then []
                     else retrieval_events (JStr text) 3)
    /\ filter is_generate (trace s') = filter is_generate (trace s)
    /\ (configured GOOGLE_SEARCH_API_KEY = false
        \/ configured GOOGLE_SEARCH_ENGINE_ID = false ->
        evidence = [] /\ world s' = world s
        /\ filter is_http_get (trace s') = filter is_http_get (trace s)).
Proof.
  intros Hkey.
  destruct (aggregate_total [JStr text] s) as (evidence & s' & Ha).
  pose proof (aggregate_trace [JStr text] s) as Ta. rewrite Ha in Ta. cbn [snd] in Ta.
  assert (Hsearched : searched_claims [JStr text]
                      = if String.eqb text NO_CLAIMS then [] else [JStr text]).
  { unfold searched_claims. cbn [firstn filter eq_str].
    destruct (String.eqb text NO_CLAIMS); reflexivity. }
  assert (Htrace : trace s'
    = trace s ++ (if String.eqb text NO_CLAIMS then [] else retrieval_events (JStr text) 3)).
  { rewrite Ta, Hsearched. destruct (String.eqb text NO_CLAIMS); [reflexivity|].
    cbn [flat_map]. now rewrite app_nil_r. }
  exists evidence, s'. split; [|split; [exact Ha|split; [exact Htrace|split]]].
  - unfold verify_with_ai_and_search, bind.
    rewrite (extract_without_model_state text s Hkey), Ha.
    unfold synthesize. now rewrite Hkey.
  - rewrite Htrace, filter_app. unfold retrieval_events.
    destruct (String.eqb text NO_CLAIMS); [now rewrite app_nil_r|].
    destruct (configured GOOGLE_SEARCH_API_KEY && configured GOOGLE_SEARCH_ENGINE_ID);
      simpl; now rewrite app_nil_r.
  - intros Hsearch.
    assert (Hoff : configured GOOGLE_SEARCH_API_KEY && configured GOOGLE_SEARCH_ENGINE_ID
                   = false)
      by (destruct Hsearch as [-> | ->]; [reflexivity | apply andb_false_r]).
    assert (Hor : negb (configured GOOGLE_SEARCH_API_KEY)
                  || negb (configured GOOGLE_SEARCH_ENGINE_ID) = true)
      by (rewrite <- negb_andb, Hoff; reflexivity).
    split; [|split].
    + revert Ha. unfold aggregate. rewrite search_tasks_spec, Hsearched.
      destruct (String.eqb text NO_CLAIMS); cbn [map]; unfold ret; [congruence|].
      unfold bind, gather, ret. cbn [run_all]. unfold search_google. munfold. mreduce.
      rewrite Hor. mreduce. intros H. inversion H. reflexivity.
    + revert Ha. unfold aggregate. rewrite search_tasks_spec, Hsearched.
      destruct (String.eqb text NO_CLAIMS); cbn [map]; unfold ret; [congruence|].
      unfold bind, gather, ret. cbn [run_all]. unfold search_google. munfold. mreduce.
      rewrite Hor. mreduce. intros H. inversion H. reflexivity.
    + rewrite Htrace, filter_app. unfold retrieval_events. rewrite Hoff.
      destruct (String.eqb text NO_CLAIMS); simpl; now rewrite app_nil_r.
Qed.

Lemma verify_without_model_witness :
  configured (@GEMINI_API_KEY Sample.empty_key) = false
  /\ exists evidence s',
       @verify_with_ai_and_search Sample.empty_key Demo.eiffel
         (Demo.start Sample.empty_key 0%Z)
       = (Ret (unverifiable NO_KEY_REASON (firstn 5 evidence)), s')
       /\ trace s' = [EvRetrieve (JStr Demo.eiffel) 3; EvHttpGet (JStr Demo.eiffel) 3].
Proof.
  split; [reflexivity|].
  destruct (@verify_without_model Sample.empty_key Demo.eiffel
              (Demo.start Sample.empty_key 0%Z) eq_refl)
    as (evidence & s' & Hrun & _ & Htrace & _).
  exists evidence, s'. split; [exact Hrun | exact Htrace].
Defined.

(** ** Claim extraction, continued *)

Lemma take_prefix (n : nat) (s : string) : String.prefix (PyStr.take n s) s = true.
Proof.
  revert s. induction n as [|n IH]; intros [|c s]; try reflexivity.
  unfold PyStr.take; fold PyStr.take. simpl.
  destruct (ascii_dec c c); [apply IH | congruence].
Qed.

Lemma take_length (n : nat) (s : string) :
  String.length (PyStr.take n s) = Nat.min n (String.length s).
Proof.
  revert s. induction n as [|n IH]; intros [|c s]; try reflexivity.
  unfold PyStr.take; fold PyStr.take. simpl. now rewrite IH.
Qed.

Lemma take_all (n : nat) (s : string) : String.length s <= n -> PyStr.take n s = s.
Proof.
  revert s. induction n as [|n IH]; intros [|c s]; simpl; try reflexivity; try lia.
  intros H. unfold PyStr.take; fold PyStr.take. rewrite IH by lia. reflexivity.
Qed.

(** The extractor when the model answers well: with the key configured
    and an answer whose cleaned text decodes to a non-empty list, the claims
    are that list, as decoded: all of its elements, whatever their number
    and their types.  The model was called once, with the extraction
    prompt. *)
Theorem extract_returns_parsed_claims {E : Env} (text : string) (s : State)
  (t : string) (w : World) (c : json) (cs : list json) :
  configured GEMINI_API_KEY = true ->
  generate_content (Prompt.extraction text) (world s) = (Ret (Some t), w) ->
  PyStr.truthy t = true ->
  json_loads (PyStr.clean_response t) = Ret (JList (c :: cs)) ->
  extract_key_claims text s
  = (Ret (c :: cs), after_generate s (Prompt.extraction text) w).
Proof.
  intros Hkey Hgen Ht Hparse. unfold extract_key_claims, extract_try, after_generate.
  rewrite Hkey. cbn [negb]. munfold. rewrite Hgen. mreduce. rewrite Ht, Hparse. reflexivity.
Qed.

Lemma extract_returns_parsed_claims_witness :
  configured (@GEMINI_API_KEY Sample.env) = true
  /\ @generate_content Sample.env (Prompt.extraction Demo.eiffel) 0%Z
     = (Ret (Some Sample.claims_answer), 0%Z)
  /\ PyStr.truthy Sample.claims_answer = true
  /\ @json_loads Sample.env (PyStr.clean_response Sample.claims_answer)
     = Ret (JList Sample.claims)
  /\ @extract_key_claims Sample.env Demo.eiffel (Demo.start Sample.env 0%Z)
     = (Ret Sample.claims,
        after_generate (Demo.start Sample.env 0%Z) (Prompt.extraction Demo.eiffel) 0%Z).
Proof.
  assert (H1 : configured (@GEMINI_API_KEY Sample.env) = true) by reflexivity.
  assert (H2 : @generate_content Sample.env (Prompt.extraction Demo.eiffel) 0%Z
               = (Ret (Some Sample.claims_answer), 0%Z)) by (vm_compute; reflexivity).
  assert (H3 : PyStr.truthy Sample.claims_answer = true) by reflexivity.
  assert (H4 : @json_loads Sample.env (PyStr.clean_response Sample.claims_answer)
               = Ret (JList Sample.claims)) by (vm_compute; reflexivity).
  exact (conj H1 (conj H2 (conj H3 (conj H4
    (@extract_returns_parsed_claims Sample.env Demo.eiffel (Demo.start Sample.env 0%Z)
       _ _ _ _ H1 H2 H3 H4))))).
Defined.

(** Every outcome of the extractor.  It returns, and what it returns is
    one of three things: without a model key, the whole text as the only
    claim, nothing being called; with the key, either the non-empty list
    decoded from the cleaned answer of the model, or a single claim that is
    the prefix of the text of at most 200 characters.  For a text of at most
    200 characters the two single-claim cases give the same list. *)
Theorem extract_key_claims_cases {E : Env} (text : string) (s : State) :
  exists claims s',
    extract_key_claims text s = (Ret claims, s')
    /\ ((configured GEMINI_API_KEY = false /\ claims = [JStr text] /\ s' = s)
        \/ (configured GEMINI_API_KEY = true
            /\ exists t w,
                 generate_content (Prompt.extraction text) (world s) = (Ret (Some t), w)
                 /\ json_loads (PyStr.clean_response t) = Ret (JList claims)
                 /\ claims <> []
                 /\ s' = after_generate s (Prompt.extraction text) w)
        \/ (configured GEMINI_API_KEY = true
            /\ claims = [JStr (PyStr.take 200 text)]))
    /\ String.prefix (PyStr.take 200 text) text = true
    /\ String.length (PyStr.take 200 text) = Nat.min 200 (String.length text)
    /\ (String.length text <= 200 -> PyStr.take 200 text = text).
Proof.
  assert (Hshort : String.length text <= 200 -> PyStr.take 200 text = text)
    by (apply take_all).
  assert (Hcases : exists claims s',
    extract_key_claims text s = (Ret claims, s')
    /\ ((configured GEMINI_API_KEY = false /\ claims = [JStr text] /\ s' = s)
        \/ (configured GEMINI_API_KEY = true
            /\ exists t w,
                 generate_content (Prompt.extraction text) (world s) = (Ret (Some t), w)
                 /\ json_loads (PyStr.clean_response t) = Ret (JList claims)
                 /\ claims <> []
                 /\ s' = after_generate s (Prompt.extraction text) w)
        \/ (configured GEMINI_API_KEY = true
            /\ claims = [JStr (PyStr.take 200 text)]))).
  { unfold extract_key_claims, extract_try, after_generate.
    destruct (configured GEMINI_API_KEY); cbn [negb].
    2:{ eexists _, _. split; [reflexivity|]. left. auto. }
    munfold.
    destruct (generate_content (Prompt.extraction text) (world s)) as [[[t|]|e] w] eqn:Hgen;
      mreduce; try solve [eexists _, _; split; [reflexivity|]; right; right; auto].
    destruct (PyStr.truthy t);
      mreduce; try solve [eexists _, _; split; [reflexivity|]; right; right; auto].
    destruct (json_loads (PyStr.clean_response t)) as [j|e] eqn:Hparse; mreduce.
    - destruct j as [| | | | |[|c cs]|];
        mreduce; try solve [eexists _, _; split; [reflexivity|]; right; right; auto].
      eexists _, _. split; [reflexivity|]. right; left. split; [reflexivity|].
      exists t, w. repeat split; [exact Hparse | discriminate].
    - destruct e; eexists _, _; (split; [reflexivity|]); right; right; auto. }
  destruct Hcases as (claims & s' & Hrun & Hwhich).
  exists claims, s'. split; [exact Hrun|]. split; [exact Hwhich|].
  split; [apply take_prefix|]. split; [apply take_length | exact Hshort].
Qed.

(** ** Repairing the verdict, continued *)

Lemma set_lookup_same (k : string) (x : json) (d : pydict) :
  PyDict.lookup k d = Some x -> PyDict.set k x d = d.
Proof.
  induction d as [|[k' v'] d IH]; simpl; [discriminate|].
  destruct (String.eqb_spec k k') as [->|Hne].
  - intros H. inversion H. reflexivity.
  - intros H. now rewrite IH.
Qed.

Lemma clamp01_values (x : spec_float) :
  (SFltb PyFloat.zero x = true /\ SFltb x PyFloat.one = true /\ PyFloat.clamp01 x = x)
  \/ (SFltb PyFloat.zero x = false /\ SFltb x PyFloat.one = true
      /\ PyFloat.clamp01 x = PyFloat.zero)
  \/ (SFltb x PyFloat.one = false /\ PyFloat.clamp01 x = PyFloat.one).
Proof.
  unfold PyFloat.clamp01, PyFloat.py_max, PyFloat.py_min.
  destruct (SFltb x PyFloat.one) eqn:H1; [|right; right; split; reflexivity].
  destruct (SFltb PyFloat.zero x) eqn:H0; [left | right; left]; repeat split; reflexivity.
Qed.

Lemma clamp01_idempotent (x : spec_float) :
  PyFloat.clamp01 (PyFloat.clamp01 x) = PyFloat.clamp01 x.
Proof.
  destruct (clamp01_values x) as [(_ & _ & H) | [(_ & _ & H) | (_ & H)]]; rewrite H.
  - exact H.
  - reflexivity.
  - reflexivity.
Qed.

(** The repair step touches five keys only: every other key of the
    object the model returned, such as [key_findings], is in the verdict
    with the value the model gave it. *)
Theorem repair_keeps_other_keys (d : pydict) (all_search_results : list SearchResult)
  (v : pydict) (key : string) :
  repair (JDict d) all_search_results = Ret v ->
  existsb (String.eqb key) REPAIRED_KEYS = false ->
  PyDict.lookup key v = PyDict.lookup key d.
Proof.
  intros Hrepair Hkey. unfold REPAIRED_KEYS in Hkey. cbn [existsb] in Hkey.
  apply orb_false_iff in Hkey as [K1 Hkey]. apply orb_false_iff in Hkey as [K2 Hkey].
  apply orb_false_iff in Hkey as [K3 Hkey]. apply orb_false_iff in Hkey as [K4 Hkey].
  apply orb_false_iff in Hkey as [K5 _].
  revert Hrepair. unfold repair, obind, PyDict.getitem. cbv zeta.
  set (d1 := if negb (in_strs (PyDict.get d "classification" JNull) VALID_CLASSIFICATIONS)
             then PyDict.set "classification" (JStr "Unverifiable") d else d).
  assert (H1 : PyDict.lookup key d1 = PyDict.lookup key d)
    by (subst d1; destruct (negb _); [now apply lookup_set_other | reflexivity]).
  clearbody d1.
  assert (Hfinish : forall d2,
    PyDict.lookup key d2 = PyDict.lookup key d ->
    PyDict.lookup key
      (PyDict.set "search_results" (dicts_of (firstn 5 all_search_results))
         (PyDict.set "sources" (links_of (firstn 5 all_search_results))
            (if negb (truthy (PyDict.get d2 "reason" JNull))
             then PyDict.set "reason" (JStr DEFAULT_REASON) d2 else d2)))
    = PyDict.lookup key d).
  { intros d2 H2. rewrite !lookup_set_other by assumption.
    destruct (negb _); [now rewrite lookup_set_other by assumption | exact H2]. }
  destruct (negb (is_int_or_float (PyDict.get d1 "confidence" JNull))).
  - intros H. inversion H; subst v. apply Hfinish. now rewrite lookup_set_other by assumption.
  - destruct (PyDict.lookup "confidence" d1) as [c|]; [|discriminate].
    destruct (py_float c) as [f|e]; [|discriminate].
    intros H. inversion H; subst v. apply Hfinish. now rewrite lookup_set_other by assumption.
Qed.

Lemma repair_keeps_other_keys_witness :
  repair (JDict Sample.verdict) Demo.six_records
  = Ret [("classification", JStr "Verified");
         ("reason", JStr "Two sources agree.");
         ("confidence", JFloat (S754_finite false 8106479329266893 (-53)));
         ("key_findings", JList [JStr "built in 1889"]);
         ("sources", links_of (firstn 5 Demo.six_records));
         ("search_results", dicts_of (firstn 5 Demo.six_records))]
  /\ existsb (String.eqb "key_findings") REPAIRED_KEYS = false
  /\ PyDict.lookup "key_findings"
       [("classification", JStr "Verified");
        ("reason", JStr "Two sources agree.");
        ("confidence", JFloat (S754_finite false 8106479329266893 (-53)));
        ("key_findings", JList [JStr "built in 1889"]);
        ("sources", links_of (firstn 5 Demo.six_records));
        ("search_results", dicts_of (firstn 5 Demo.six_records))]
     = PyDict.lookup "key_findings" Sample.verdict.
Proof.
  assert (H1 : repair (JDict Sample.verdict) Demo.six_records
    = Ret [("classification", JStr "Verified");
           ("reason", JStr "Two sources agree.");
           ("confidence", JFloat (S754_finite false 8106479329266893 (-53)));
           ("key_findings", JList [JStr "built in 1889"]);
           ("sources", links_of (firstn 5 Demo.six_records));
           ("search_results", dicts_of (firstn 5 Demo.six_records))])
    by (vm_compute; reflexivity).
  assert (H2 : existsb (String.eqb "key_findings") REPAIRED_KEYS = false) by reflexivity.
  exact (conj H1 (conj H2 (repair_keeps_other_keys _ _ _ _ H1 H2))).
Defined.

(** Repairing is idempotent: a repaired verdict, repaired again with the
    same evidence, is unchanged. *)
Theorem repair_idempotent (d : pydict) (all_search_results : list SearchResult)
  (v : pydict) :
  repair (JDict d) all_search_results = Ret v ->
  repair (JDict v) all_search_results = Ret v.
Proof.
  intros Hrepair. apply repair_spec in Hrepair.
  destruct Hrepair as (Hc & Hx & Hr & Hs & He).
  assert (Hvalid : exists c, PyDict.lookup "classification" v = Some c
                             /\ in_strs c VALID_CLASSIFICATIONS = true).
  { eexists. split; [exact Hc|]. destruct (in_strs _ _) eqn:Hin; [exact Hin | reflexivity]. }
  assert (Hconf : exists f, PyDict.lookup "confidence" v = Some (JFloat f)
                            /\ PyFloat.clamp01 f = f).
  { destruct (is_int_or_float _).
    - destruct Hx as (f & _ & Hl). exists (PyFloat.clamp01 f).
      split; [exact Hl | apply clamp01_idempotent].
    - exists PyFloat.half. split; [exact Hx | reflexivity]. }
  assert (Hreason : exists r, PyDict.lookup "reason" v = Some r /\ truthy r = true).
  { eexists. split; [exact Hr|]. destruct (truthy _) eqn:Ht; [exact Ht | reflexivity]. }
  destruct Hvalid as (c & Lc & Hin), Hconf as (f & Lx & Hf), Hreason as (r & Lr & Ht).
  unfold repair, obind, PyDict.getitem, PyDict.get. cbv zeta.
  rewrite Lc, Hin. cbn [negb]. rewrite Lx. cbn [is_int_or_float negb py_float].
  rewrite Hf, (set_lookup_same _ _ _ Lx), Lr, Ht. cbn [negb].
  rewrite (set_lookup_same _ _ _ Hs), (set_lookup_same _ _ _ He). reflexivity.
Qed.

Lemma repair_idempotent_witness :
  repair (JDict Sample.verdict) Demo.six_records
  = Ret [("classification", JStr "Verified");
         ("reason", JStr "Two sources agree.");
         ("confidence", JFloat (S754_finite false 8106479329266893 (-53)));
         ("key_findings", JList [JStr "built in 1889"]);
         ("sources", links_of (firstn 5 Demo.six_records));
         ("search_results", dicts_of (firstn 5 Demo.six_records))]
  /\ repair (JDict [("classification", JStr "Verified");
                    ("reason", JStr "Two sources agree.");
                    ("confidence", JFloat (S754_finite false 8106479329266893 (-53)));
                    ("key_findings", JList [JStr "built in 1889"]);
                    ("sources", links_of (firstn 5 Demo.six_records));
                    ("search_results", dicts_of (firstn 5 Demo.six_records))])
       Demo.six_records
     = Ret [("classification", JStr "Verified");
            ("reason", JStr "Two sources agree.");
            ("confidence", JFloat (S754_finite false 8106479329266893 (-53)));
            ("key_findings", JList [JStr "built in 1889"]);
            ("sources", links_of (firstn 5 Demo.six_records));
            ("search_results", dicts_of (firstn 5 Demo.six_records))].
Proof.
  assert (H1 : repair (JDict Sample.verdict) Demo.six_records
    = Ret [("classification", JStr "Verified");
           ("reason", JStr "Two sources agree.");
           ("confidence", JFloat (S754_finite false 8106479329266893 (-53)));
           ("key_findings", JList [JStr "built in 1889"]);
           ("sources", links_of (firstn 5 Demo.six_records));
           ("search_results", dicts_of (firstn 5 Demo.six_records))])
    by (vm_compute; reflexivity).
  exact (conj H1 (repair_idempotent _ _ _ H1)).
Defined.

(** Comparing two floats the other way round gives the opposite answer,
    and no answer when one of them is a NaN. *)
Lemma SFcompare_opp (x y : spec_float) :
  SFcompare y x = option_map CompOpp (SFcompare x y).
Proof.
  destruct x as [sx|sx| |sx mx ex], y as [sy|sy| |sy my ey];
    try reflexivity;
    try (destruct sx; reflexivity);
    try (destruct sy; reflexivity);
    try (destruct sx, sy; reflexivity).
  unfold SFcompare.
  change (Pos.compare_cont Eq my mx) with (Pos.compare my mx).
  change (Pos.compare_cont Eq mx my) with (Pos.compare mx my).
  rewrite (Z.compare_antisym ex ey), (Pos.compare_antisym mx my).
  destruct sx, sy; cbn [option_map CompOpp]; try reflexivity;
    destruct (ex ?= ey)%Z; cbn [CompOpp]; try reflexivity;
    destruct (mx ?= my)%positive; reflexivity.
Qed.

(** A float below or equal to zero is below one. *)
Lemma below_zero_below_one (f : spec_float) :
  SFltb f PyFloat.zero = true \/ SFeqb f PyFloat.zero = true ->
  SFltb f PyFloat.one = false -> False.
Proof.
  unfold SFltb, SFeqb.
  destruct f as [[]|[]| |[] m e]; intros [H|H] H1;
    first [cbv in H; discriminate H | cbv in H1; discriminate H1].
Qed.

(** What becomes of a float confidence.  The object is repaired and its
    confidence is the clamped float, which is: 0.0 for a negative number,
    minus infinity and either zero; the number itself strictly between 0
    and 1; 1.0 from 1 upwards, for plus infinity, and also for a NaN, which
    the decoder accepts and no comparison orders. *)
Theorem repair_confidence_cases (d : pydict) (all_search_results : list SearchResult)
  (f : spec_float) :
  PyDict.get d "confidence" JNull = JFloat f ->
  exists v,
    repair (JDict d) all_search_results = Ret v
    /\ PyDict.lookup "confidence" v = Some (JFloat (PyFloat.clamp01 f))
    /\ (SFltb f PyFloat.zero = true \/ SFeqb f PyFloat.zero = true ->
        PyFloat.clamp01 f = PyFloat.zero)
    /\ (SFltb PyFloat.zero f = true -> SFltb f PyFloat.one = true -> PyFloat.clamp01 f = f)
    /\ (SFleb PyFloat.one f = true -> PyFloat.clamp01 f = PyFloat.one)
    /\ (f = S754_nan -> PyFloat.clamp01 f = PyFloat.one).
Proof.
  intros Hconf.
  destruct (repair_defined d all_search_results) as (v & Hrepair).
  { intros n Hn. rewrite Hconf in Hn. discriminate Hn. }
  exists v. split; [exact Hrepair|].
  apply repair_spec in Hrepair. destruct Hrepair as (_ & Hx & _).
  rewrite Hconf in Hx. cbn [is_int_or_float py_float] in Hx.
  destruct Hx as (g & Hg & Hl). inversion Hg; subst g.
  split; [exact Hl|].
  split; [|split; [|split]].
  - intros Hlow.
    destruct (clamp01_values f) as [(H0 & _ & _) | [(_ & _ & H) | (H1 & _)]]; [|exact H|].
    + exfalso. unfold SFltb, SFeqb in *. rewrite (SFcompare_opp f PyFloat.zero) in H0.
      destruct (SFcompare f PyFloat.zero) as [[]|]; cbn [option_map CompOpp] in H0;
        destruct Hlow; discriminate.
    + exfalso. apply (below_zero_below_one f Hlow). exact H1.
  - intros H0 H1.
    destruct (clamp01_values f) as [(_ & _ & H) | [(H0' & _ & _) | (H1' & _)]];
      [exact H | congruence | congruence].
  - intros Hhigh.
    assert (Hnot : SFltb f PyFloat.one = false).
    { unfold SFltb, SFleb in *. rewrite (SFcompare_opp f PyFloat.one) in Hhigh.
      destruct (SFcompare f PyFloat.one) as [[]|]; cbn [option_map CompOpp] in Hhigh;
        first [reflexivity | discriminate]. }
    destruct (clamp01_values f) as [(_ & H1 & _) | [(_ & H1 & _) | (_ & H)]];
      [congruence | congruence | exact H].
  - intros ->. reflexivity.
Qed.

Lemma repair_confidence_cases_witness :
  PyDict.get [("confidence", JFloat S754_nan)] "confidence" JNull = JFloat S754_nan
  /\ exists v,
       repair (JDict [("confidence", JFloat S754_nan)]) Demo.six_records = Ret v
       /\ PyDict.lookup "confidence" v = Some (JFloat PyFloat.one).
Proof.
  split; [reflexivity|].
  destruct (repair_confidence_cases [("confidence", JFloat S754_nan)] Demo.six_records
              S754_nan eq_refl) as (v & Hrepair & Hconf & _).
  exists v. split; [exact Hrepair | exact Hconf].
Defined.

(** ** The orchestrator, continued *)

(** What [verify_news] makes of any verdict it is handed.  When the
    verdict has a [classification] and a [reason], the response carries
    them, with [sources], [search_results] and [confidence] taken from the
    verdict or, for a missing key, defaulting to the empty list, the empty
    list and 0.5.  When either of the two is missing, reading it raises and
    the degraded response is returned instead.  In both cases the clock is
    read twice after the verification, first for the timestamp. *)
Theorem verify_news_with_verdict {E : Env} (pipeline : string -> M pydict) (text : string)
  (s : State) (t0 : Z) (s0 : State) (v : pydict) (s1 : State) :
  now s = (Ret t0, s0) ->
  pipeline text s0 = (Ret v, s1) ->
  exists t1 s2 t2 s3,
    now s1 = (Ret t1, s2) /\ now s2 = (Ret t2, s3)
    /\ verify_news_with pipeline text s
       = (Ret match PyDict.lookup "classification" v, PyDict.lookup "reason" v with
              | Some c, Some r =>
                  {| classification := c;
                     reason := r;
                     sources := PyDict.get v "sources" (JList []);
                     search_results := PyDict.get v "search_results" (JList []);
                     confidence := PyDict.get v "confidence" (JFloat PyFloat.half);
                     timestamp := t1;
                     processing_time := t2 - t0 |}
              | _, _ =>
                  {| classification := JStr "Unverifiable";
                     reason := JStr SERVICE_ERROR_REASON;
                     sources := JList [];
                     search_results := JList [];
                     confidence := JFloat PyFloat.zero;
                     timestamp := t1;
                     processing_time := t2 - t0 |}
              end, s3).
Proof.
  intros Hstart Hrun.
  destruct (degraded_response_spec t0 s1) as (t1 & s2 & t2 & s3 & H1 & H2 & Hdegraded).
  exists t1, s2, t2, s3. split; [exact H1|]. split; [exact H2|].
  unfold verify_news_with. unfold bind at 1. rewrite Hstart.
  unfold try_except. unfold bind at 1. rewrite Hrun.
  unfold build_response, PyDict.getitem.
  destruct (PyDict.lookup "classification" v) as [c|].
  - destruct (PyDict.lookup "reason" v) as [r|].
    + unfold bind, lift, ret. rewrite H1, H2. reflexivity.
    + unfold bind at 1 2. unfold lift. exact Hdegraded.
  - unfold bind at 1. unfold lift. exact Hdegraded.
Qed.

Lemma verify_news_with_verdict_witness :
  @now Sample.env (Demo.start Sample.env 0%Z) = (Ret 0%Z, Demo.start Sample.env 1000%Z)
  /\ @ret Sample.env pydict [("classification", JStr "Verified")]
       (Demo.start Sample.env 1000%Z)
     = (Ret [("classification", JStr "Verified")], Demo.start Sample.env 1000%Z)
  /\ exists t1 s2 t2 s3,
       @now Sample.env (Demo.start Sample.env 1000%Z) = (Ret t1, s2)
       /\ now s2 = (Ret t2, s3)
       /\ @verify_news_with Sample.env (fun _ => ret [("classification", JStr "Verified")])
            Demo.eiffel (Demo.start Sample.env 0%Z)
          = (Ret {| classification := JStr "Unverifiable";
                    reason := JStr SERVICE_ERROR_REASON;
                    sources := JList [];
                    search_results := JList [];
                    confidence := JFloat PyFloat.zero;
                    timestamp := t1;
                    processing_time := t2 - 0 |}, s3).
Proof.
  assert (H1 : @now Sample.env (Demo.start Sample.env 0%Z)
               = (Ret 0%Z, Demo.start Sample.env 1000%Z)) by reflexivity.
  assert (H2 : @ret Sample.env pydict [("classification", JStr "Verified")]
                 (Demo.start Sample.env 1000%Z)
               = (Ret [("classification", JStr "Verified")], Demo.start Sample.env 1000%Z))
    by reflexivity.
  exact (conj H1 (conj H2
    (@verify_news_with_verdict Sample.env
       (fun _ => ret [("classification", JStr "Verified")]) Demo.eiffel
       _ _ _ _ _ H1 H2))).
Defined.

Lemma synthesize_lists {E : Env} (text : string) (evidence : list SearchResult)
  (s : State) (v : pydict) (s' : State) :
  synthesize text evidence s = (Ret v, s') ->
  exists shown,
    PyDict.lookup "sources" v = Some (links_of shown)
    /\ PyDict.lookup "search_results" v = Some (dicts_of shown)
    /\ List.length shown <= 5
    /\ (shown = firstn 5 evidence \/ shown = firstn 3 evidence).
Proof.
  intros Hrun.
  destruct (synthesize_cases text evidence s) as (v0 & s0 & Hrun0 & Hcase).
  rewrite Hrun0 in Hrun. inversion Hrun; subst.
  destruct Hcase as [-> | [-> | (d & Hrepair)]].
  - exists (firstn 5 evidence). repeat split; [apply firstn_le_length | now left].
  - exists (firstn 3 evidence). repeat split; [|now right].
    etransitivity; [apply firstn_le_length | lia].
  - apply repair_spec in Hrepair. destruct Hrepair as (_ & _ & _ & Hs & Hr).
    exists (firstn 5 evidence). repeat split; try assumption;
      [apply firstn_le_length | now left].
Qed.

(** A run of [verify_news] with the real verification, and what it shows
    of the verdict. *)
Lemma verify_news_verdict {E : Env} (text : string) (s : State) :
  exists t0 s0 v s1 r s' shown,
    now s = (Ret t0, s0)
    /\ verify_with_ai_and_search text s0 = (Ret v, s1)
    /\ verify_news text s = (Ret r, s')
    /\ well_formed_verdict v
    /\ PyDict.lookup "classification" v = Some (classification r)
    /\ PyDict.lookup "reason" v = Some (reason r)
    /\ PyDict.lookup "confidence" v = Some (confidence r)
    /\ PyDict.lookup "sources" v = Some (sources r)
    /\ PyDict.lookup "search_results" v = Some (search_results r)
    /\ sources r = links_of shown
    /\ search_results r = dicts_of shown
    /\ List.length shown <= 5.
Proof.
  destruct (datetime_now (world s)) as [t0 w0] eqn:Hnow.
  set (s0 := {| world := w0; trace := trace s |}).
  assert (Hstart : now s = (Ret t0, s0)) by (unfold now; now rewrite Hnow).
  destruct (extract_total text s0) as (c & cs & sa & He).
  destruct (aggregate_total (c :: cs) sa) as (evidence & sb & Ha).
  destruct (synthesize_cases text evidence sb) as (v & s1 & Hs & _).
  pose proof (synthesize_well_formed _ _ _ _ _ Hs) as Hv.
  destruct (synthesize_lists _ _ _ _ _ Hs) as (shown & Lsrc & Lrec & Hlen & _).
  assert (Hpipe : verify_with_ai_and_search text s0 = (Ret v, s1))
    by (unfold verify_with_ai_and_search, bind; now rewrite He, Ha).
  destruct Hv as (cl & rs & x & Lc & Hvalid & Lr & Lx & Hunit).
  destruct (datetime_now (world s1)) as [t1 w1] eqn:Hnow1.
  destruct (datetime_now w1) as [t2 w2] eqn:Hnow2.
  exists t0, s0, v, s1,
    {| classification := cl; reason := rs; sources := links_of shown;
       search_results := dicts_of shown; confidence := x;
       timestamp := t1; processing_time := t2 - t0 |},
    {| world := w2; trace := trace s1 |}, shown.
  split; [exact Hstart|]. split; [exact Hpipe|].
  split.
  { unfold verify_news, verify_news_with. unfold bind at 1. rewrite Hstart.
    unfold try_except. unfold bind at 1. rewrite Hpipe.
    unfold build_response, PyDict.getitem, PyDict.get. rewrite Lc, Lr, Lsrc, Lrec, Lx.
    munfold. mreduce. rewrite Hnow1. mreduce. rewrite Hnow2. reflexivity. }
  split; [exists cl, rs, x; auto|].
  cbn [classification reason sources search_results confidence]. auto 12.
Qed.

(** With the real verification, the response is the verdict: its
    classification, reason, confidence, sources and search results are the
    verdict's own, every one of these keys being present in the verdict on
    each path.  So the defaults of [verify_news] for a missing key are never
    used and the response is the one its [try] block builds.  The sources
    and the search results come from the same records, at most five. *)
Theorem verify_news_reports_verdict {E : Env} (text : string) (s : State) :
  exists t0 s0 v s1 r s' shown,
    now s = (Ret t0, s0)
    /\ verify_with_ai_and_search text s0 = (Ret v, s1)
    /\ verify_news text s = (Ret r, s')
    /\ PyDict.lookup "classification" v = Some (classification r)
    /\ PyDict.lookup "reason" v = Some (reason r)
    /\ PyDict.lookup "confidence" v = Some (confidence r)
    /\ PyDict.lookup "sources" v = Some (sources r)
    /\ PyDict.lookup "search_results" v = Some (search_results r)
    /\ sources r = links_of shown
    /\ search_results r = dicts_of shown
    /\ List.length shown <= 5.
Proof.
  destruct (verify_news_verdict text s)
    as (t0 & s0 & v & s1 & r & s' & shown & H).
  exists t0, s0, v, s1, r, s', shown. tauto.
Qed.

(** The reply of the route.  Either the text is refused with a
    validation error and nothing has run; or the handler returns, without
    raising, a response with one of the three classifications and a
    confidence in the unit interval, and the reply is what rendering that
    response gives: its body, or a server error when rendering raises.  So a
    server error can only come from rendering.  It can come: the reason of
    the model is kept as it is, and when the model answers with a reason
    that is the float [Infinity] the response holds that float, which a
    renderer of strict JSON refuses. *)
Theorem post_verify_news_rendered_reply {E : Env} (render : Response -> outcome string)
  (text : string) (s : State) :
  ((exists msg,
      validate_text text = Raise (ValueError msg)
      /\ post_verify_news_rendered render text s = (Unprocessable (ValueError msg), s))
   \/ (exists r s',
         validate_text text = Ret (PyStr.strip text)
         /\ verify_news (PyStr.strip text) s = (Ret r, s')
         /\ valid_classification (classification r)
         /\ unit_confidence (confidence r)
         /\ post_verify_news_rendered render text s
            = (match render r with
               | Ret body => Success body
               | Raise e => InternalError e
               end, s')))
  /\ (exists r s',
        @verify_news Faulty.infinite_reason Demo.eiffel
          (Demo.start Faulty.infinite_reason 0%Z) = (Ret r, s')
        /\ classification r = JStr "Verified"
        /\ reason r = JFloat (S754_infinity false)).
Proof.
  split.
  - unfold post_verify_news_rendered.
    destruct (validate_text_cases text) as [(Hok & _) | ((msg & Hbad) & _)].
    + right. rewrite Hok.
      destruct (verify_news_verdict (PyStr.strip text) s)
        as (t0 & s0 & v & s1 & r & s' & shown & _ & _ & Hrun & Hv & Lc & _ & Lx & _).
      rewrite Hrun. exists r, s'. split; [reflexivity|]. split; [reflexivity|].
      destruct Hv as (cl & rs & x & Lc' & Hvalid & _ & Lx' & Hunit).
      rewrite Lc in Lc'. rewrite Lx in Lx'. inversion Lc'. inversion Lx'. subst.
      split; [assumption|]. split; [assumption|].
      destruct (render r); reflexivity.
    + left. rewrite Hbad. eauto.
  - eexists _, _. split; [vm_compute; reflexivity|]. split; reflexivity.
Qed.

(** ** The health report *)

Lemma py_and_configured (a b : option string) :
  configured (py_and a [b]) = configured a && configured b.
Proof. cbn [py_and]. destruct (configured a) eqn:Ha; [reflexivity | exact Ha]. Qed.

Lemma py_and3_configured (a b c : option string) :
  configured (py_and a [b; c]) = configured a && (configured b && configured c).
Proof.
  cbn [py_and]. destruct (configured a) eqn:Ha; [|exact Ha].
  destruct (configured b) eqn:Hb; [reflexivity | exact Hb].
Qed.

Lemma configured_is_not_none (key : option string) :
  configured key = true -> is_not_none key = true.
Proof. destruct key; [reflexivity | discriminate]. Qed.

(** What a health report that was returned holds. *)
Lemma health_check_returned {E : Env} (static_dir_exists : World -> outcome bool * World)
  (s : State) (h : Health.t) (s' : State) :
  health_check static_dir_exists s = (Ret h, s') ->
  Health.status h = "healthy"%string
  /\ Health.gemini_ai (Health.capabilities h) = is_not_none GEMINI_API_KEY
  /\ Health.google_search (Health.capabilities h)
     = is_not_none GOOGLE_SEARCH_API_KEY && is_not_none GOOGLE_SEARCH_ENGINE_ID
  /\ Health.real_time_verification (Health.capabilities h) = true
  /\ Health.gemini_configured (Health.api_status h) = configured GEMINI_API_KEY
  /\ Health.search_configured (Health.api_status h)
     = configured GOOGLE_SEARCH_API_KEY && configured GOOGLE_SEARCH_ENGINE_ID
  /\ Health.full_functionality (Health.api_status h)
     = configured GEMINI_API_KEY
       && (configured GOOGLE_SEARCH_API_KEY && configured GOOGLE_SEARCH_ENGINE_ID).
Proof.
  unfold health_check, call_static_dir_exists. munfold. mreduce.
  destruct (datetime_now (world s)) as [t w1]. mreduce.
  destruct (static_dir_exists w1) as [[b|e] w2]; [|discriminate].
  intros H. inversion H; subst h.
  cbn [Health.status Health.capabilities Health.api_status Health.gemini_ai
       Health.google_search Health.real_time_verification Health.gemini_configured
       Health.search_configured Health.full_functionality].
  pose proof (py_and_configured GOOGLE_SEARCH_API_KEY GOOGLE_SEARCH_ENGINE_ID) as P2.
  pose proof (py_and3_configured GEMINI_API_KEY GOOGLE_SEARCH_API_KEY
                GOOGLE_SEARCH_ENGINE_ID) as P3.
  cbn [py_and] in P2, P3. repeat split; first [reflexivity | assumption].
Qed.

(** The health report.  It is returned unless asking the file system
    raises, and it always says [healthy] and [real_time_verification],
    whatever is configured.  Its two groups of flags differ: [capabilities]
    tests the variables against [None], [api_status] tests their truth
    value.  So a flag of [api_status] implies the one of [capabilities], and
    the converse fails exactly for a variable set to the empty string;
    [full_functionality] is the conjunction of the two other flags. *)
Theorem health_check_flags {E : Env} (static_dir_exists : World -> outcome bool * World)
  (s : State) :
  exists t s1 r w,
    now s = (Ret t, s1)
    /\ static_dir_exists (world s1) = (r, w)
    /\ (forall e, r = Raise e ->
          health_check static_dir_exists s = (Raise e, {| world := w; trace := trace s |}))
    /\ (forall b, r = Ret b ->
          exists h,
            health_check static_dir_exists s = (Ret h, {| world := w; trace := trace s |})
            /\ Health.status h = "healthy"%string
            /\ Health.timestamp h = t
            /\ Health.static_files (Health.capabilities h) = b
            /\ Health.real_time_verification (Health.capabilities h) = true
            /\ (Health.gemini_configured (Health.api_status h) = true ->
                Health.gemini_ai (Health.capabilities h) = true)
            /\ (Health.search_configured (Health.api_status h) = true ->
                Health.google_search (Health.capabilities h) = true)
            /\ Health.full_functionality (Health.api_status h)
               = Health.gemini_configured (Health.api_status h)
                 && Health.search_configured (Health.api_status h)
            /\ (Health.gemini_ai (Health.capabilities h) = true
                /\ Health.gemini_configured (Health.api_status h) = false
                <-> GEMINI_API_KEY = Some ""%string)).
Proof.
  destruct (datetime_now (world s)) as [t w1] eqn:Hnow.
  destruct (static_dir_exists w1) as [r w] eqn:Hfs.
  exists t, {| world := w1; trace := trace s |}, r, w.
  split; [unfold now; now rewrite Hnow|]. split; [exact Hfs|].
  split.
  - intros e ->. unfold health_check, call_static_dir_exists. munfold. mreduce.
    rewrite Hnow. mreduce. rewrite Hfs. reflexivity.
  - intros b ->.
    assert (Hrun : exists h,
      health_check static_dir_exists s = (Ret h, {| world := w; trace := trace s |})
      /\ Health.timestamp h = t /\ Health.static_files (Health.capabilities h) = b).
    { unfold health_check, call_static_dir_exists. munfold. mreduce.
      rewrite Hnow. mreduce. rewrite Hfs. mreduce. eexists. split; [reflexivity|].
      split; reflexivity. }
    destruct Hrun as (h & Hrun & Ht & Hb). exists h.
    destruct (health_check_returned _ _ _ _ Hrun) as (Hs & Hg & Hgs & Hrt & Hgc & Hsc & Hff).
    split; [exact Hrun|]. split; [exact Hs|]. split; [exact Ht|]. split; [exact Hb|].
    split; [exact Hrt|]. rewrite Hg, Hgs, Hgc, Hsc, Hff.
    split; [apply configured_is_not_none|].
    split.
    { intros H. apply andb_true_iff in H as [H1 H2].
      now rewrite (configured_is_not_none _ H1), (configured_is_not_none _ H2). }
    split; [reflexivity|].
    destruct GEMINI_API_KEY as [[|c key]|]; cbn; split;
      first [ intros [H1 H2]; first [reflexivity | discriminate]
            | intros H; first [discriminate | split; reflexivity] ].
Qed.

Lemma search_google_unconfigured {E : Env} (query : json) (num : Z) (s : State) :
  configured GOOGLE_SEARCH_API_KEY && configured GOOGLE_SEARCH_ENGINE_ID = false ->
  fst (search_google query num s) = Ret [].
Proof.
  intros Hoff. unfold search_google. munfold. mreduce.
  rewrite <- negb_andb, Hoff. reflexivity.
Qed.

Lemma run_searches_unconfigured {E : Env} (claims : list json) (s : State) :
  configured GOOGLE_SEARCH_API_KEY && configured GOOGLE_SEARCH_ENGINE_ID = false ->
  join_results (fst (run_all (map (fun claim => search_google claim 3) claims) s)) = [].
Proof.
  intros Hoff. rewrite join_results_concat. revert s.
  induction claims as [|claim claims IH]; intros s; [reflexivity|].
  cbn [map run_all].
  pose proof (search_google_unconfigured claim 3 s Hoff) as Hone.
  destruct (search_google claim 3 s) as [r s1]. specialize (IH s1).
  destruct (run_all _ s1) as [rs s2]. cbn [fst] in *. subst r. exact IH.
Qed.

Lemma aggregate_unconfigured {E : Env} (claims : list json) (s : State) :
  configured GOOGLE_SEARCH_API_KEY && configured GOOGLE_SEARCH_ENGINE_ID = false ->
  fst (aggregate claims s) = Ret [].
Proof.
  intros Hoff. unfold aggregate. rewrite search_tasks_spec.
  pose proof (run_searches_unconfigured (searched_claims claims) s Hoff) as Hjoin.
  destruct (searched_claims claims) as [|claim kept]; [reflexivity|].
  cbn [map] in *. unfold bind, gather, ret.
  destruct (run_all _ s) as [slots s']. cbn [fst] in *. now rewrite Hjoin.
Qed.

Lemma retrieval_no_request {E : Env} (claims : list json) :
  configured GOOGLE_SEARCH_API_KEY && configured GOOGLE_SEARCH_ENGINE_ID = false ->
  filter is_http_get (flat_map (fun claim => retrieval_events claim 3) claims) = [].
Proof.
  intros Hoff. induction claims as [|claim claims IH]; [reflexivity|].
  cbn [flat_map]. rewrite filter_app, IH. unfold retrieval_events. rewrite Hoff.
  reflexivity.
Qed.

(** The health report and what a request then does.  The flags of
    [api_status] are the conditions the pipeline itself tests.  With
    [gemini_configured] false a request never calls the model and is
    answered [Unverifiable] with confidence 0.3 and the reason naming the
    missing key; with it true the model is called exactly twice.  With
    [search_configured] false no search request is sent and the response
    lists no source. *)
Theorem health_predicts_calls {E : Env} (static_dir_exists : World -> outcome bool * World)
  (s0 : State) (h : Health.t) (s0' : State) (text : string) (s : State) :
  health_check static_dir_exists s0 = (Ret h, s0') ->
  exists r s',
    verify_news text s = (Ret r, s')
    /\ (Health.gemini_configured (Health.api_status h) = false ->
        filter is_generate (trace s') = filter is_generate (trace s)
        /\ classification r = JStr "Unverifiable"
        /\ reason r = JStr NO_KEY_REASON
        /\ confidence r = JFloat PyFloat.three_tenths)
    /\ (Health.gemini_configured (Health.api_status h) = true ->
        List.length (filter is_generate (trace s'))
        = List.length (filter is_generate (trace s)) + 2)
    /\ (Health.search_configured (Health.api_status h) = false ->
        filter is_http_get (trace s') = filter is_http_get (trace s)
        /\ sources r = JList []
        /\ search_results r = JList []).
Proof.
  intros Hhealth.
  destruct (health_check_returned _ _ _ _ Hhealth) as (_ & _ & _ & _ & Hgc & Hsc & _).
  rewrite Hgc, Hsc. clear Hhealth Hgc Hsc h s0 s0'.
  destruct (verify_news_run text s)
    as (t0 & sa & claims & s1 & evidence & s2 & r & s' & Hstart & He & Ha & Hrun & Htrace).
  destruct (verify_news_verdict text s)
    as (t0' & sa' & v & s3 & r' & s'' & shown & Hstart' & Hpipe & Hrun' & _
        & Lc & Lr & Lx & Ls & Le & _).
  rewrite Hstart in Hstart'. inversion Hstart'; subst t0' sa'.
  rewrite Hrun in Hrun'. inversion Hrun'; subst r' s''. clear Hstart' Hrun'.
  unfold verify_with_ai_and_search, bind in Hpipe. rewrite He, Ha in Hpipe.
  exists r, s'. split; [exact Hrun|].
  destruct (retrieval_counts (searched_claims claims)) as (G3 & _ & _).
  split; [|split].
  - intros Hkey.
    split.
    { rewrite Htrace, !filter_app, G3. unfold model_call. rewrite Hkey.
      now rewrite !app_nil_r. }
    unfold synthesize in Hpipe. rewrite Hkey in Hpipe. cbn [negb] in Hpipe.
    unfold ret in Hpipe. inversion Hpipe; subst v.
    cbn in Lc, Lr, Lx. inversion Lc. inversion Lr. inversion Lx. auto.
  - intros Hkey. rewrite Htrace, !filter_app, !length_app, G3.
    unfold model_call. rewrite Hkey. cbn. lia.
  - intros Hoff.
    split.
    { rewrite Htrace, !filter_app. destruct (model_call_counts (Prompt.extraction text))
        as (_ & -> & _). destruct (model_call_counts (Prompt.analysis text evidence))
        as (_ & -> & _). rewrite app_nil_r. cbn [app].
      now rewrite (retrieval_no_request (searched_claims claims) Hoff), app_nil_r. }
    pose proof (aggregate_unconfigured claims s1 Hoff) as Hnone.
    rewrite Ha in Hnone. cbn [fst] in Hnone. inversion Hnone; subst evidence.
    destruct (synthesize_lists _ _ _ _ _ Hpipe) as (shown' & Ls' & Le' & _ & Hshown).
    assert (shown' = []) by (destruct Hshown as [-> | ->]; reflexivity). subst shown'.
    rewrite Ls in Ls'. rewrite Le in Le'. inversion Ls'. inversion Le'. auto.
Qed.

Lemma health_predicts_calls_witness :
  @health_check Sample.empty_key (fun w => (Ret true, w)) (Demo.start Sample.empty_key 0%Z)
  = (Ret {| Health.status := "healthy";
            Health.timestamp := 0;
            Health.service := "A.G.N.I. AI Real-time Verification";
            Health.version := "2.0.0";
            Health.capabilities :=
              {| Health.gemini_ai := true; Health.google_search := true;
                 Health.static_files := true; Health.real_time_verification := true |};
            Health.api_status :=
              {| Health.gemini_configured := false; Health.search_configured := true;
                 Health.full_functionality := false |} |},
     Demo.start Sample.empty_key 1000%Z)
  /\ exists r s',
       @verify_news Sample.empty_key Demo.eiffel (Demo.start Sample.empty_key 0%Z)
       = (Ret r, s')
       /\ filter is_generate (trace s') = []
       /\ reason r = JStr NO_KEY_REASON.
Proof.
  assert (H : @health_check Sample.empty_key (fun w => (Ret true, w))
                (Demo.start Sample.empty_key 0%Z)
    = (Ret {| Health.status := "healthy";
              Health.timestamp := 0;
              Health.service := "A.G.N.I. AI Real-time Verification";
              Health.version := "2.0.0";
              Health.capabilities :=
                {| Health.gemini_ai := true; Health.google_search := true;
                   Health.static_files := true; Health.real_time_verification := true |};
              Health.api_status :=
                {| Health.gemini_configured := false; Health.search_configured := true;
                   Health.full_functionality := false |} |},
       Demo.start Sample.empty_key 1000%Z)) by reflexivity.
  split; [exact H|].
  destruct (@health_predicts_calls Sample.empty_key _ _ _ _ Demo.eiffel
              (Demo.start Sample.empty_key 0%Z) H) as (r & s' & Hrun & Hoff & _).
  destruct (Hoff eq_refl) as (Hgen & _ & Hreason & _).
  exists r, s'. split; [exact Hrun|]. split; [exact Hgen | exact Hreason].
Defined.

(** ** Start-up *)

(** The model key after start-up.  The key is usable exactly when the
    variable was set to a non-empty value and configuring the client with it
    succeeded.  It is [None] exactly when the variable was unset or
    configuring raised; a variable set to the empty string stays the empty
    string.  A key that survives is the one the environment gave.  When
    configuring raises, the service runs as without a key: the extractor
    returns the whole text and calls nothing. *)
Theorem configure_gemini_spec (getenv : option string)
  (configure : string -> outcome unit) :
  (configured (configure_gemini getenv configure) = true
   <-> exists key, getenv = Some key /\ PyStr.truthy key = true
                   /\ exists u, configure key = Ret u)
  /\ (configure_gemini getenv configure = None
      <-> getenv = None
          \/ exists key e, getenv = Some key /\ PyStr.truthy key = true
                           /\ configure key = Raise e)
  /\ (getenv = Some ""%string -> configure_gemini getenv configure = Some ""%string)
  /\ (forall key, configure_gemini getenv configure = Some key -> getenv = Some key)
  /\ (forall (E : Env) key e text s,
        GEMINI_API_KEY = configure_gemini getenv configure ->
        getenv = Some key -> configure key = Raise e ->
        extract_key_claims text s = (Ret [JStr text], s)).
Proof.
  unfold configure_gemini.
  split; [|split; [|split; [|split]]].
  - split.
    + destruct getenv as [key|]; [|discriminate].
      destruct (PyStr.truthy key) eqn:Ht.
      * destruct (configure key) as [u|e] eqn:Hc; [|discriminate]. intros _. eauto.
      * cbn [configured]. congruence.
    + intros (key & -> & Ht & u & Hc). rewrite Ht, Hc. exact Ht.
  - split.
    + destruct getenv as [key|]; [|auto].
      destruct (PyStr.truthy key) eqn:Ht; [|discriminate].
      destruct (configure key) as [u|e] eqn:Hc; [discriminate|]. intros _. right. eauto.
    + intros [-> | (key & e & -> & Ht & Hc)]; [reflexivity|]. now rewrite Ht, Hc.
  - intros ->. reflexivity.
  - intros key. destruct getenv as [key'|]; [|discriminate].
    destruct (PyStr.truthy key'); [|trivial].
    destruct (configure key'); [trivial | discriminate].
  - intros E key e text s Hglobal -> Hc. unfold extract_key_claims.
    rewrite Hglobal, Hc. destruct (PyStr.truthy key) eqn:Ht; cbn [configured negb].
    + reflexivity.
    + rewrite Ht. reflexivity.
Qed.

(** ** The analysis prompt *)

(** The model is shown the first five evidence records and no more: the
    analysis prompt built from a list of records is the one built from its
    first five.  The section of search results is absent exactly when there
    is no evidence. *)
Theorem analysis_prompt_first_five (text : string) (all_search_results : list SearchResult) :
  Prompt.analysis text all_search_results
  = Prompt.analysis text (firstn 5 all_search_results)
  /\ (Prompt.search_context all_search_results = ""%string <-> all_search_results = []).
Proof.
  assert (Hcontext : Prompt.search_context all_search_results
                     = Prompt.search_context (firstn 5 all_search_results)).
  { unfold Prompt.search_context. destruct all_search_results as [|r rest]; [reflexivity|].
    rewrite firstn_firstn. reflexivity. }
  split.
  - unfold Prompt.analysis. now rewrite Hcontext.
  - destruct all_search_results as [|r rest]; split; intros H;
      first [reflexivity | discriminate H].
Qed.
